(** * rmp-eval: real-time readiness audit and jitter harness

    A shallow embedding of [source/config.cpp] (the configuration
    evaluator: CPU-list parser, kernel command line lookup, the check
    catalog and the report driver) and of the sender loop of
    [source/main.cpp] (timespec arithmetic, catch-up of the next deadline,
    first/last exclusion), together with the properties the specification
    states about them.

    Conventions.
    - C++ [std::string] is [string]; [std::optional] is [option];
      [std::set<int>] is [gset Z]; [uint64_t] is a [Z] reduced modulo
      [2^64] wherever the source computes with it.
    - A computation that would leave defined C++ behaviour (signed
      overflow) is [None] in the [option] monad; exceptions that the
      source catches are an inner [option] handled where the source has
      its [catch].
    - What the code obtains from the operating system without going
      through [IDataSource] (uname, sysconf, getifaddrs, directory
      listings) is a field of the record [Host]. *)

From Stdlib Require Import ZArith String Ascii List Lia.
From stdpp Require Import base option gmap sets list strings pretty sorting.

Open Scope Z_scope.
Open Scope string_scope.
Open Scope list_scope.

(** ** Characters and strings, as the C++ library treats them *)

Module Str.

(** [std::isspace] in the C locale: space, \t, \n, \v, \f, \r. *)
Definition isspace (c : ascii) : bool :=
  let n := N_of_ascii c in
  (N.eqb n 32 || (N.leb 9 n && N.leb n 13))%bool.

(** [std::isdigit]. *)
Definition isdigit (c : ascii) : bool :=
  let n := N_of_ascii c in (N.leb 48 n && N.leb n 57)%bool.

Definition digit_value (c : ascii) : Z := Z.of_N (N_of_ascii c) - 48.

Definition empty (s : string) : bool :=
  match s with EmptyString => true | String _ _ => false end.

Definition eqb (a b : string) : bool := bool_decide (a = b).

Fixpoint rev_onto (s acc : string) : string :=
  match s with
  | EmptyString => acc
  | String c s' => rev_onto s' (String c acc)
  end.

Definition rev (s : string) : string := rev_onto s EmptyString.

(** Erase from the beginning up to the first non-space character. *)
Fixpoint ltrim (s : string) : string :=
  match s with
  | EmptyString => EmptyString
  | String c s' => if isspace c then ltrim s' else s
  end.

(** Erase from after the last non-space character to the end. *)
Definition rtrim (s : string) : string := rev (ltrim (rev s)).

(** [s.find(needle)] and [s.find(needle, pos)]. *)
Definition find_from (pos : nat) (needle s : string) : option nat :=
  String.index pos needle s.

Definition find (needle s : string) : option nat := find_from 0 needle s.

Definition find_char (c : ascii) (s : string) : option nat :=
  find (String c EmptyString) s.

Definition contains (needle s : string) : bool :=
  match find needle s with Some _ => true | None => false end.

(** [s.rfind(p, 0) == 0]: [s] begins with [p]. *)
Definition starts_with (p s : string) : bool := String.prefix p s.

(** [s.substr(pos, n)] and [s.substr(pos)] for [pos <= s.size()]. *)
Definition substr (pos n : nat) (s : string) : string :=
  String.substring pos n s.

Definition substr_from (pos : nat) (s : string) : string :=
  String.substring pos (String.length s - pos) s.

Fixpoint all_of (p : ascii -> bool) (s : string) : bool :=
  match s with
  | EmptyString => true
  | String c s' => (p c && all_of p s')%bool
  end.

(** Repeated [std::getline(stream, piece, delim)] until it fails: the
    pieces between delimiters; a delimiter at the very end of the input
    does not open a further, empty piece, and the empty input has none. *)
Fixpoint getlines (delim : ascii) (s : string) : list string :=
  match s with
  | EmptyString => []
  | String c s' =>
      if Ascii.eqb c delim then EmptyString :: getlines delim s'
      else match getlines delim s' with
           | [] => [String c EmptyString]
           | piece :: rest => String c piece :: rest
           end
  end.

Definition begins_token (s : string) : bool :=
  match s with
  | EmptyString => false
  | String c _ => negb (isspace c)
  end.

(** Repeated [stream >> token] until it fails, each token with what is
    left of the stream right after it. *)
Fixpoint extractions (s : string) : list (string * string) :=
  match s with
  | EmptyString => []
  | String c s' =>
      if isspace c then extractions s'
      else if begins_token s' then
        match extractions s' with
        | (tok, rest) :: more => (String c tok, rest) :: more
        | [] => [(String c EmptyString, s')]
        end
      else (String c EmptyString, s') :: extractions s'
  end.

(** The whitespace-separated tokens of [s]. *)
Definition tokens (s : string) : list string := (extractions s).*1.

Definition join (sep : string) (l : list string) : string :=
  match l with
  | [] => EmptyString
  | x :: xs => fold_left (fun acc y => acc +:+ sep +:+ y) xs x
  end.

End Str.

(** [Trim] of config.cpp. *)
Definition Trim (str : string) : string := Str.rtrim (Str.ltrim str).

(** ** Number conversions *)

Definition INT_MAX : Z := 2147483647.
Definition INT_MIN : Z := -2147483648.
Definition INT64_MAX : Z := 9223372036854775807.
Definition INT64_MIN : Z := -9223372036854775808.

Fixpoint digits_value (acc : Z) (s : string) : Z :=
  match s with
  | EmptyString => acc
  | String c s' =>
      if Str.isdigit c then digits_value (10 * acc + Str.digit_value c) s'
      else acc
  end.

(** The integer that [strtol]/[strtoll] read in base 10 at the start of
    [s]: leading white space, an optional sign, then the longest run of
    digits; whatever follows is left unread.  [None] when no digit is
    there ([std::invalid_argument]). *)
Definition scan_integer (s : string) : option Z :=
  let body (negative : bool) (t : string) :=
    match t with
    | String c _ =>
        if Str.isdigit c
        then Some (if negative then - digits_value 0 t else digits_value 0 t)
        else None
    | EmptyString => None
    end in
  match Str.ltrim s with
  | String "-"%char t => body true t
  | String "+"%char t => body false t
  | t => body false t
  end.

(** [std::stoi]: [None] when it throws ([invalid_argument],
    [out_of_range]). *)
Definition stoi (s : string) : option Z :=
  v ← scan_integer s;
  if bool_decide (INT_MIN <= v <= INT_MAX) then Some v else None.

(** [std::stoll]. *)
Definition stoll (s : string) : option Z :=
  v ← scan_integer s;
  if bool_decide (INT64_MIN <= v <= INT64_MAX) then Some v else None.

(** [std::to_string] on an integer. *)
Definition to_string (z : Z) : string := pretty z.

(** ** The CPU-list parser *)

(** One pass of the body of the [while (std::getline(stream, token, ','))]
    loop of [ParseCpuList] on the set built so far.  Both [std::stoi] calls
    of a range come before any insertion, so a token whose conversion
    throws leaves [out] as it was.  A range whose upper end is [INT_MAX]
    makes [++i] overflow the [int] counter: no defined result. *)
Definition ParseCpuToken (out : gset Z) (token : string) : option (gset Z) :=
  let token := Trim token in
  if Str.empty token then Some out
  else
    match Str.find_char "-" token with
    | None =>
        match stoi token with
        | Some value => Some ({[ value ]} ∪ out)
        | None => Some out
        end
    | Some dash =>
        match stoi (Str.substr 0 dash token) with
        | None => Some out
        | Some first =>
            match stoi (Str.substr_from (dash + 1) token) with
            | None => Some out
            | Some last =>
                let start := if (first >? last)%Z then last else first in
                let end_ := if (first >? last)%Z then first else last in
                if (end_ =? INT_MAX)%Z then None
                else Some (list_to_set (seqZ start (end_ - start + 1)) ∪ out)
            end
        end
    end.

Fixpoint ParseCpuTokens (out : gset Z) (toks : list string) : option (gset Z) :=
  match toks with
  | [] => Some out
  | token :: rest => out' ← ParseCpuToken out token; ParseCpuTokens out' rest
  end.

Definition ParseCpuList (str : string) : option (gset Z) :=
  let trimmed := Trim str in
  if Str.empty trimmed then Some ∅
  else ParseCpuTokens ∅ (Str.getlines "," trimmed).

(** ** The kernel command line *)

(** The loop of [GetCmdLineParam] over the tokens of the command line. *)
Fixpoint ScanCmdLine (key : string) (toks : list string) : option string :=
  match toks with
  | [] => None
  | tok :: rest =>
      match Str.find_char "=" tok with
      | None => if Str.eqb tok key then Some EmptyString else ScanCmdLine key rest
      | Some eq =>
          if Str.eqb (Str.substr 0 eq tok) key
          then Some (Str.substr_from (eq + 1) tok)
          else ScanCmdLine key rest
      end
  end.

(** [GetCmdLineParam], on what [ReadCmdLine] returned. *)
Definition GetCmdLineParam (cmd : option string) (key : string) : option string :=
  match cmd with
  | None => None
  | Some text => ScanCmdLine key (Str.tokens text)
  end.

(** ** The data model of the configuration evaluator *)

(** Modelled from the spec: [Status], [Domain], [CheckKind], [CheckContext],
    [CheckResult] and the two operations of [IDataSource] are declared in
    config.h, which is not among the source files; section 3 of the
    specification gives their shape, and the kinds are those the [Kind()]
    members of config.cpp return. *)
Inductive Status := Pass | Fail | Unknown.

Inductive Domain := System | Cpu | Nic.

Inductive CheckKind :=
| PreemptRTActive | SwapDisabled | TimerMigration | RtThrottlingDisabled
| ClocksourceStable | CoreIsolated | NohzFull | RcuNoCbs | CpuGovernor
| CpuFrequency | IrqAffinityDefaultAvoidsRt | NoUnrelatedIrqsOnRt
| SmtSiblingIsolated | DeepCStatesCapped | TurboBoostPolicy
| NicPresent | NicLinkUp | NicIrqsPinned | RpsDisabled | NicQuiet.

#[global] Instance Status_eq_dec : EqDecision Status.
Proof. solve_decision. Defined.

#[global] Instance CheckKind_eq_dec : EqDecision CheckKind.
Proof. solve_decision. Defined.

Record CheckContext := {
  cpu : option Z;
  nic : option string;
}.

Record CheckResult := {
  kind : CheckKind;
  status : Status;
  name : string;
  reason : string;
}.

Record IDataSource := {
  Read : string -> option string;
  CmdLineParam : string -> option string;
}.

(** Modelled from the spec: the constants [CpuPrefix] and [MaxIrqsToShow]
    of config.h ("the [CPU<N>] header", "up to a small fixed number
    (e.g., 5)"). *)
Definition CpuPrefix : string := "CPU".
Definition MaxIrqsToShow : nat := 5.

(** What the evaluator asks of the machine it runs on. *)
Inductive sa_family := AF_INET | AF_INET6 | AF_OTHER.

#[global] Instance sa_family_eq_dec : EqDecision sa_family.
Proof. solve_decision. Defined.

Record utsname := {
  version : string;
  release : string;
}.

Record ifaddrs := {
  ifa_name : option string;
  ifa_addr : option sa_family;
}.

Record Host := {
  (** [uname()]; [None] when the call fails *)
  host_uname : option utsname;
  (** [getifaddrs()]; [None] when the call fails *)
  host_ifaddrs : option (list ifaddrs);
  (** [fs::exists] *)
  host_exists : string -> bool;
  (** [fs::directory_iterator]: names of the entries and whether each is a
      directory; no entry when the directory cannot be opened *)
  host_entries : string -> list (string * bool);
  (** [sysconf(_SC_NPROCESSORS_CONF)] *)
  host_nprocessors_conf : Z;
  (** [std::to_string(std::stod(s))]; [None] when [std::stod] throws *)
  host_stod_to_string : string -> option string;
  (** the readable files, and the constant [MaxFileSize] of config.h *)
  host_files : gmap string string;
  MaxFileSize : N;
}.

(** [Slurp]: at most [max_bytes] of the file, [None] if it cannot be
    opened. *)
Definition Slurp (files : gmap string string) (path : string) (max_bytes : N)
  : option string :=
  (fun content =>
     if (N.of_nat (String.length content) <=? max_bytes)%N then content
     else Str.substr 0 (N.to_nat max_bytes) content) <$> files !! path.

Definition ReadCmdLine (h : Host) : option string :=
  Slurp (host_files h) "/proc/cmdline" (MaxFileSize h).

Definition SystemFileSystemDataSource (h : Host) : IDataSource := {|
  Read path := Slurp (host_files h) path (MaxFileSize h);
  CmdLineParam key := GetCmdLineParam (ReadCmdLine h) key;
|}.

(** A check, as the interface [ICheck] presents it. *)
Record ICheck := {
  Kind : CheckKind;
  Name : string;
  GetDomain : Domain;
  Evaluate : Host -> CheckContext -> IDataSource -> option CheckResult;
}.

(** [return { Kind(), status, Name(), reason };] *)
Definition answer (k : CheckKind) (n : string) (st : Status) (why : string)
  : option CheckResult :=
  Some {| kind := k; status := st; name := n; reason := why |}.

Definition or_empty (raw : string) : string :=
  if Str.empty raw then "(empty)" else raw.

Definition NicExists (dataSource : IDataSource) (nic : string) : bool :=
  bool_decide (is_Some (Read dataSource ("/sys/class/net/" +:+ nic +:+ "/operstate")))
  || bool_decide (is_Some (Read dataSource ("/sys/class/net/" +:+ nic +:+ "/carrier")))
  || bool_decide (is_Some (Read dataSource ("/sys/class/net/" +:+ nic +:+ "/address"))).

Definition CpuCount (h : Host) : Z :=
  if (0 <? host_nprocessors_conf h)%Z then host_nprocessors_conf h else 1.

(** ** The check catalog *)

Module NohzFullCheck.
Definition Kind := NohzFull.
Definition Name := "nohz_full on RT core".
Definition GetDomain := Cpu.

Definition Evaluate (_ : Host) (checkContext : CheckContext)
    (dataSource : IDataSource) : option CheckResult :=
  match cpu checkContext with
  | None => answer Kind Name Unknown "no CPU subject"
  | Some cpu =>
      match Read dataSource "/sys/devices/system/cpu/nohz_full" with
      | Some sysfs_value =>
          let raw := Trim sysfs_value in
          set ← ParseCpuList raw;
          if bool_decide (cpu ∈ set)
          then answer Kind Name Pass ("nohz_full list: " +:+ or_empty raw)
          else answer Kind Name Fail
                 ("CPU" +:+ to_string cpu +:+ " not in nohz_full: " +:+ or_empty raw)
      | None =>
          match CmdLineParam dataSource "nohz_full" with
          | Some cmdline_value =>
              set ← ParseCpuList cmdline_value;
              if bool_decide (cpu ∈ set)
              then answer Kind Name Pass ("cmdline nohz_full=" +:+ cmdline_value)
              else answer Kind Name Fail
                     ("RT core not in cmdline nohz_full=" +:+ cmdline_value)
          | None => answer Kind Name Unknown "no sysfs entry and no cmdline param"
          end
      end
  end.

Definition check : ICheck := Build_ICheck Kind Name GetDomain Evaluate.
End NohzFullCheck.

Module NicPresenceCheck.
Definition Kind := NicPresent.
Definition Name := "NIC interface present".
Definition GetDomain := Nic.

Definition Evaluate (_ : Host) (checkContext : CheckContext)
    (dataSource : IDataSource) : option CheckResult :=
  match nic checkContext with
  | None => answer Kind Name Unknown "no NIC in context"
  | Some nic =>
      if NicExists dataSource nic then answer Kind Name Pass "exists"
      else answer Kind Name Unknown "interface not found"
  end.

Definition check : ICheck := Build_ICheck Kind Name GetDomain Evaluate.
End NicPresenceCheck.

Module NicLinkUpCheck.
Definition Kind := NicLinkUp.
Definition Name := "NIC link is UP".
Definition GetDomain := Nic.

Definition from_carrier (dataSource : IDataSource) (nic : string)
  : option CheckResult :=
  let none := answer Kind Name Unknown "no operstate/carrier" in
  match Read dataSource ("/sys/class/net/" +:+ nic +:+ "/carrier") with
  | Some car =>
      let v := Trim car in
      if Str.eqb v "1" then answer Kind Name Pass "carrier=1"
      else if Str.eqb v "0" then answer Kind Name Fail "carrier=0"
      else none
  | None => none
  end.

Definition Evaluate (_ : Host) (checkContext : CheckContext)
    (dataSource : IDataSource) : option CheckResult :=
  match nic checkContext with
  | None => answer Kind Name Unknown "no NIC in context"
  | Some nic =>
      if negb (NicExists dataSource nic)
      then answer Kind Name Unknown "NIC not found"
      else
        match Read dataSource ("/sys/class/net/" +:+ nic +:+ "/operstate") with
        | Some oper =>
            let v := Trim oper in
            if Str.eqb v "up" then answer Kind Name Pass "operstate=up"
            else if negb (Str.empty v)
                 then answer Kind Name Fail ("operstate=" +:+ v)
                 else from_carrier dataSource nic
        | None => from_carrier dataSource nic
        end
  end.

Definition check : ICheck := Build_ICheck Kind Name GetDomain Evaluate.
End NicLinkUpCheck.

Module PreemptRTActiveCheck.
Definition Kind := PreemptRTActive.
Definition Name := "PREEMPT_RT active".
Definition GetDomain := System.

(** The part of [Evaluate] after the look at /sys/kernel/realtime. *)
Definition from_uname (h : Host) (dataSource : IDataSource)
  : option CheckResult :=
  let none := answer Kind Name Fail "No evidence of RT kernel" in
  match host_uname h with
  | Some uname_info =>
      let version := version uname_info in
      if Str.contains "PREEMPT RT" version || Str.contains "PREEMPT_RT" version
      then answer Kind Name Pass ("uname -v: " +:+ version)
      else
        let release := release uname_info in
        match Read dataSource ("/boot/config-" +:+ release) with
        | Some config =>
            if Str.contains "CONFIG_PREEMPT_RT=y" config
               || Str.contains "CONFIG_PREEMPT_RT_FULL=y" config
            then answer Kind Name Pass
                   ("/boot/config-" +:+ release +:+ " has CONFIG_PREEMPT_RT=y")
            else if Str.contains "CONFIG_PREEMPT=y" config
                 then answer Kind Name Fail "Only low-latency PREEMPT, not RT"
                 else none
        | None => none
        end
  | None => none
  end.

Definition Evaluate (h : Host) (_ : CheckContext)
    (dataSource : IDataSource) : option CheckResult :=
  match Read dataSource "/sys/kernel/realtime" with
  | Some sysfs_value =>
      let value := Trim sysfs_value in
      if Str.eqb value "1" then answer Kind Name Pass "/sys/kernel/realtime=1"
      else if Str.eqb value "0" then answer Kind Name Fail "/sys/kernel/realtime=0"
      else from_uname h dataSource
  | None => from_uname h dataSource
  end.

Definition check : ICheck := Build_ICheck Kind Name GetDomain Evaluate.
End PreemptRTActiveCheck.

Module CoreIsolatedCheck.
Definition Kind := CoreIsolated.
Definition Name := "RT core isolated".
Definition GetDomain := Cpu.

Definition Evaluate (_ : Host) (checkContext : CheckContext)
    (dataSource : IDataSource) : option CheckResult :=
  match cpu checkContext with
  | None => answer Kind Name Unknown "no CPU subject"
  | Some cpu =>
      match Read dataSource "/sys/devices/system/cpu/isolated" with
      | None => answer Kind Name Unknown "no /sys/.../isolated"
      | Some s =>
          let raw := Trim s in
          set ← ParseCpuList raw;
          if (cpu =? 0)%Z then
            if bool_decide (cpu ∈ set)
            then answer Kind Name Fail
                   "CPU0 is isolated but should not be your RT core"
            else answer Kind Name Fail "CPU0 selected; choose non-CPU0"
          else if bool_decide (cpu ∈ set)
          then answer Kind Name Pass ("isolated list: " +:+ or_empty raw)
          else answer Kind Name Fail
                 ("CPU" +:+ to_string cpu +:+ " not in isolated: " +:+ or_empty raw)
      end
  end.

Definition check : ICheck := Build_ICheck Kind Name GetDomain Evaluate.
End CoreIsolatedCheck.

Module CpuGovernorCheck.
Definition Kind := CpuGovernor.
Definition Name := "CPU governor = performance".
Definition GetDomain := Cpu.

Definition Evaluate (_ : Host) (checkContext : CheckContext)
    (dataSource : IDataSource) : option CheckResult :=
  match cpu checkContext with
  | None => answer Kind Name Unknown "no CPU subject"
  | Some cpu =>
      let path := "/sys/devices/system/cpu/cpu" +:+ to_string cpu
                  +:+ "/cpufreq/scaling_governor" in
      match Read dataSource path with
      | None => answer Kind Name Unknown
                  ("no cpufreq governor for cpu" +:+ to_string cpu)
      | Some s =>
          let gov := Trim s in
          if Str.eqb gov "performance"
          then answer Kind Name Pass ("governor=" +:+ gov)
          else answer Kind Name Fail ("governor=" +:+ gov)
      end
  end.

Definition check : ICheck := Build_ICheck Kind Name GetDomain Evaluate.
End CpuGovernorCheck.

(** A value of type [int64_t]; [None] past its range, where the signed
    arithmetic of the source has no defined result. *)
Definition int64 (z : Z) : option Z :=
  if bool_decide (INT64_MIN <= z <= INT64_MAX) then Some z else None.

Module CpuFrequencyCheck.
Definition Kind := CpuFrequency.
Definition Name := "CPU current frequency".
Definition GetDomain := Cpu.

Definition read_int64 (dataSource : IDataSource) (path : string) : option Z :=
  match Read dataSource path with
  | None => None
  | Some value => stoll (Trim value)
  end.

Definition khz_or_unknown (freq : option Z) : string :=
  match freq with
  | Some f => to_string f +:+ " kHz"
  | None => "?"
  end.

(** The state of the loop over the lines of /proc/cpuinfo:
    [current_processor] and [mhz_value]. *)
Definition cpuinfo_line (h : Host) (cpu : Z) (st : Z * option string)
    (line : string) : Z * option string :=
  let '(current_processor, mhz_value) := st in
  if Str.starts_with "processor" line then
    match Str.find ":" line with
    | Some pos =>
        match stoi (Trim (Str.substr_from (pos + 1) line)) with
        | Some p => (p, mhz_value)
        | None => (-1, mhz_value)
        end
    | None => st
    end
  else if Str.starts_with "cpu MHz" line && (current_processor =? cpu)%Z then
    match Str.find ":" line with
    | Some pos =>
        (current_processor,
         host_stod_to_string h (Trim (Str.substr_from (pos + 1) line)))
    | None => st
    end
  else st.

Definition from_cpuinfo (h : Host) (cpu : Z) (dataSource : IDataSource)
  : option CheckResult :=
  let unavailable := answer Kind Name Unknown "unavailable" in
  match Read dataSource "/proc/cpuinfo" with
  | Some cpuinfo =>
      match (fold_left (cpuinfo_line h cpu)
               (Str.getlines "010" cpuinfo) (-1, None)).2 with
      | Some mhz => answer Kind Name Unknown (mhz +:+ " MHz (/proc/cpuinfo)")
      | None => unavailable
      end
  | None => unavailable
  end.

Definition Evaluate (h : Host) (checkContext : CheckContext)
    (dataSource : IDataSource) : option CheckResult :=
  match cpu checkContext with
  | None => answer Kind Name Unknown "no CPU subject"
  | Some cpu =>
      let base := "/sys/devices/system/cpu/cpu" +:+ to_string cpu +:+ "/cpufreq/" in
      let current_freq := read_int64 dataSource (base +:+ "scaling_cur_freq") in
      let min_freq := read_int64 dataSource (base +:+ "scaling_min_freq") in
      let max_freq := read_int64 dataSource (base +:+ "scaling_max_freq") in
      match current_freq, min_freq, max_freq with
      | Some cur, Some mn, Some mx =>
          if (mn =? mx)%Z then
            scaled ← int64 (mx * 5);
            let tolerance := Z.quot scaled 100 in
            drift ← int64 (cur - mx);
            distance ← int64 (Z.abs drift);
            if (distance <=? tolerance)%Z
            then answer Kind Name Pass (to_string mx +:+ " kHz (locked)")
            else answer Kind Name Fail
                   ("cur=" +:+ to_string cur +:+ " kHz, locked="
                    +:+ to_string mx +:+ " kHz")
          else answer Kind Name Fail
                 ("cur=" +:+ to_string cur +:+ " kHz"
                  +:+ ", min=" +:+ to_string mn +:+ " kHz"
                  +:+ ", max=" +:+ to_string mx +:+ " kHz")
      | None, None, None => from_cpuinfo h cpu dataSource
      | _, _, _ =>
          answer Kind Name Unknown
            ("cur=" +:+ khz_or_unknown current_freq
             +:+ ", min=" +:+ khz_or_unknown min_freq
             +:+ ", max=" +:+ khz_or_unknown max_freq)
      end
  end.

Definition check : ICheck := Build_ICheck Kind Name GetDomain Evaluate.
End CpuFrequencyCheck.

Module RcuNoCbsCheck.
Definition Kind := RcuNoCbs.
Definition Name := "rcu_nocbs includes RT core".
Definition GetDomain := Cpu.

Definition decide_on (cpu : Z) (raw : string) : option CheckResult :=
  set ← ParseCpuList raw;
  if bool_decide (cpu ∈ set) then answer Kind Name Pass raw
  else answer Kind Name Fail
         ("CPU" +:+ to_string cpu +:+ " not in rcu_nocbs: " +:+ or_empty raw).

Definition Evaluate (_ : Host) (checkContext : CheckContext)
    (dataSource : IDataSource) : option CheckResult :=
  match cpu checkContext with
  | None => answer Kind Name Unknown "no CPU subject"
  | Some cpu =>
      match Read dataSource "/sys/devices/system/cpu/rcu_nocbs" with
      | Some sysfs_value => decide_on cpu (Trim sysfs_value)
      | None =>
          match CmdLineParam dataSource "rcu_nocbs" with
          | Some cmdline_value => decide_on cpu (Trim cmdline_value)
          | None => answer Kind Name Unknown "no sysfs and no cmdline param"
          end
      end
  end.

Definition check : ICheck := Build_ICheck Kind Name GetDomain Evaluate.
End RcuNoCbsCheck.

Module IrqAffinityDefaultAvoidsRtCheck.
Definition Kind := IrqAffinityDefaultAvoidsRt.
Definition Name := "irqaffinity excludes RT core".
Definition GetDomain := Cpu.

Definition Evaluate (_ : Host) (checkContext : CheckContext)
    (dataSource : IDataSource) : option CheckResult :=
  match cpu checkContext with
  | None => answer Kind Name Unknown "no CPU subject"
  | Some cpu =>
      match CmdLineParam dataSource "irqaffinity" with
      | None => answer Kind Name Unknown "no irqaffinity kernel param"
      | Some value =>
          set ← ParseCpuList value;
          if bool_decide (set = ∅) then answer Kind Name Unknown "empty list"
          else if bool_decide (cpu ∈ set)
          then answer Kind Name Fail ("RT core present in irqaffinity: " +:+ value)
          else answer Kind Name Pass value
      end
  end.

Definition check : ICheck := Build_ICheck Kind Name GetDomain Evaluate.
End IrqAffinityDefaultAvoidsRtCheck.

(** The start of a row of /proc/interrupts, shared by the two checks that
    read the table: skip white space, require a digit, find the colon.
    Gives the text of the IRQ number and the text after the colon. *)
Definition irq_row (line : string) : option (string * string) :=
  let pos := (String.length line - String.length (Str.ltrim line))%nat in
  match Str.ltrim line with
  | EmptyString => None
  | String c _ =>
      if Str.isdigit c then
        match Str.find_from pos ":" line with
        | Some colon =>
            Some (Str.substr pos (colon - pos) line, Str.substr_from (colon + 1) line)
        | None => None
        end
      else None
  end.

Module NoUnrelatedIrqsOnRtCheck.
Definition Kind := NoUnrelatedIrqsOnRt.
Definition Name := "No unrelated IRQs on RT core".
Definition GetDomain := System.

(** The loop over the columns of the header line: [index] counts the
    columns that begin with [CpuPrefix], [cpu_column] is the last one
    whose number is that of the RT core. *)
Definition header_column (cpu : Z) (st : Z * Z) (column : string) : Z * Z :=
  let '(index, cpu_column) := st in
  if Str.starts_with CpuPrefix column then
    let index := index + 1 in
    if Str.eqb (to_string cpu) (Str.substr_from (String.length CpuPrefix) column)
    then (index, index) else (index, cpu_column)
  else st.

Definition header_cpu_column (cpu cpu_column : Z) (line : string) : Z :=
  (fold_left (header_column cpu) (Str.tokens line) (-1, cpu_column)).2.

(** What a row contributes to [offenders]. *)
Inductive finding :=
| Quiet
| Labeled (offender : string)
| Unlabeled (offender : string).

(** The loop [while (column_stream >> token)] of a row: [index] and
    [value_at_rt_core] are its state, the result is what the row adds
    to [offenders] (the test after the loop included). *)
Fixpoint scan_columns (nic_filter irq_number : string) (cpu_column : Z)
    (index value_at_rt_core : Z) (stream : list (string * string)) : finding :=
  match stream with
  | [] =>
      if (value_at_rt_core >? 0)%Z
      then Unlabeled (irq_number +:+ " (unlabeled)") else Quiet
  | (token, rest) :: more =>
      if Str.all_of Str.isdigit token then
        let index := index + 1 in
        let value_at_rt_core :=
          if (index =? cpu_column)%Z
          then match stoll token with Some v => v | None => 0 end
          else value_at_rt_core in
        scan_columns nic_filter irq_number cpu_column index value_at_rt_core more
      else
        let label := token +:+ rest in
        if (value_at_rt_core >? 0)%Z && negb (Str.contains nic_filter label)
        then Labeled (irq_number +:+ " " +:+ Trim label)
        else Quiet
  end.

Definition scan_row (nic_filter : string) (cpu_column : Z) (line : string)
  : finding :=
  match irq_row line with
  | Some (irq_number, columns) =>
      scan_columns nic_filter irq_number cpu_column (-1) 0 (Str.extractions columns)
  | None => Quiet
  end.

Definition offender_of (f : finding) : list string :=
  match f with
  | Quiet => []
  | Labeled o | Unlabeled o => [o]
  end.

(** The state of the loop over the lines of the table. *)
Record table_state := {
  cpu_column : Z;
  header_done : bool;
  findings : list finding;
}.

Definition scan_line (nic_filter : string) (cpu : Z) (st : table_state)
    (line : string) : table_state :=
  if Str.empty line then st
  else if negb (header_done st) then
    if Str.contains (CpuPrefix +:+ "0") line
    then {| cpu_column := header_cpu_column cpu (cpu_column st) line;
            header_done := true;
            findings := findings st |}
    else st
  else {| cpu_column := cpu_column st;
          header_done := true;
          findings := findings st ++ [scan_row nic_filter (cpu_column st) line] |}.

Definition scan_table (nic_filter : string) (cpu : Z) (content : string)
  : table_state :=
  fold_left (scan_line nic_filter cpu) (Str.getlines "010" content)
    {| cpu_column := -1; header_done := false; findings := [] |}.

Definition listing (offenders : list string) : string :=
  Str.join ", " (take MaxIrqsToShow offenders)
  +:+ (if (MaxIrqsToShow <? length offenders)%nat
       then ", +" +:+ to_string (Z.of_nat (length offenders - MaxIrqsToShow))
            +:+ " more"
       else "").

Definition Evaluate (_ : Host) (checkContext : CheckContext)
    (dataSource : IDataSource) : option CheckResult :=
  match cpu checkContext with
  | None => answer Kind Name Unknown "no CPU subject"
  | Some cpu =>
      match Read dataSource "/proc/interrupts" with
      | None => answer Kind Name Unknown "cannot read /proc/interrupts"
      | Some content =>
          let nic_filter := default "" (nic checkContext) in
          let st := scan_table nic_filter cpu content in
          let offenders := concat (offender_of <$> findings st) in
          if (cpu_column st <? 0)%Z
          then answer Kind Name Unknown "could not map CPU column"
          else if bool_decide (offenders = [])
          then answer Kind Name Pass "clean"
          else answer Kind Name Fail (listing offenders)
      end
  end.

Definition check : ICheck := Build_ICheck Kind Name GetDomain Evaluate.
End NoUnrelatedIrqsOnRtCheck.

Module NicIrqsPinnedCheck.
Definition Kind := NicIrqsPinned.
Definition Name := "NIC IRQs pinned to RT core".
Definition GetDomain := Nic.

(** The IRQ a line of /proc/interrupts contributes to [nic_irqs]. *)
Definition nic_irq (nic line : string) : list Z :=
  if negb (Str.contains nic line) then []
  else match irq_row line with
       | Some (irq_number, _) =>
           match stoi irq_number with Some irq => [irq] | None => [] end
       | None => []
       end.

(** The loop over [nic_irqs]: the first IRQ whose affinity list cannot
    be read ends it ([inl]), otherwise it yields [bad_irqs] ([inr]). *)
Fixpoint audit (dataSource : IDataSource) (cpu : Z) (bad_irqs nic_irqs : list Z)
  : option (Z + list Z) :=
  match nic_irqs with
  | [] => Some (inr bad_irqs)
  | irq :: rest =>
      match Read dataSource ("/proc/irq/" +:+ to_string irq +:+ "/smp_affinity_list") with
      | None => Some (inl irq)
      | Some value =>
          set ← ParseCpuList value;
          if bool_decide (size set = 1%nat) && bool_decide (cpu ∈ set)
          then audit dataSource cpu bad_irqs rest
          else audit dataSource cpu (bad_irqs ++ [irq]) rest
      end
  end.

Definition Evaluate (_ : Host) (checkContext : CheckContext)
    (dataSource : IDataSource) : option CheckResult :=
  match cpu checkContext with
  | None => answer Kind Name Unknown "no CPU subject"
  | Some cpu =>
      match nic checkContext with
      | None => answer Kind Name Unknown "no NIC in context"
      | Some nic =>
          if negb (NicExists dataSource nic)
          then answer Kind Name Unknown "NIC not found"
          else
            match Read dataSource "/proc/interrupts" with
            | None => answer Kind Name Unknown "cannot read /proc/interrupts"
            | Some content =>
                let nic_irqs := concat (nic_irq nic <$> Str.getlines "010" content) in
                if bool_decide (nic_irqs = [])
                then answer Kind Name Unknown "no NIC IRQs seen"
                else
                  outcome ← audit dataSource cpu [] nic_irqs;
                  match outcome with
                  | inl irq =>
                      answer Kind Name Unknown
                        ("cannot read smp_affinity_list for IRQ " +:+ to_string irq)
                  | inr [] =>
                      answer Kind Name Pass ("all pinned to CPU" +:+ to_string cpu)
                  | inr bad_irqs =>
                      answer Kind Name Fail
                        ("not pinned: " +:+ Str.join "," (to_string <$> bad_irqs))
                  end
            end
      end
  end.

Definition check : ICheck := Build_ICheck Kind Name GetDomain Evaluate.
End NicIrqsPinnedCheck.

(** [operator/] of [fs::path] on POSIX path strings. *)
Definition path_append (p q : string) : string :=
  if Str.starts_with "/" q then q
  else if Str.empty p || Str.starts_with "/" (Str.rev p) then p +:+ q
  else p +:+ "/" +:+ q.

Module RpsDisabledCheck.
Definition Kind := RpsDisabled.
Definition Name := "RPS disabled on NIC".
Definition GetDomain := Nic.

Definition mask_char_ok (c : ascii) : bool :=
  Ascii.eqb c "," || Ascii.eqb c "010" || Ascii.eqb c " " || Ascii.eqb c "009"
  || Ascii.eqb c "0".

(** The lambda [all_zero_mask]. *)
Definition all_zero_mask (dataSource : IDataSource) (path : string) : option bool :=
  match Read dataSource path with
  | None => None
  | Some content =>
      let value := Trim content in
      if Str.empty value then Some true else Some (Str.all_of mask_char_ok value)
  end.

(** The loop over the entries of the queues directory; its state is
    [any_bad] and [checked], and an unreadable mask ends it ([inl]). *)
Fixpoint scan_queues (dataSource : IDataSource) (queue_directory : string)
    (any_bad : bool) (checked : Z) (entries : list (string * bool))
  : string + bool * Z :=
  match entries with
  | [] => inr (any_bad, checked)
  | (queue_name, is_directory) :: rest =>
      if negb is_directory
      then scan_queues dataSource queue_directory any_bad checked rest
      else if Str.starts_with "rx-" queue_name then
        let path := path_append (path_append queue_directory queue_name) "rps_cpus" in
        match all_zero_mask dataSource path with
        | None => inl path
        | Some zero =>
            scan_queues dataSource queue_directory
              (any_bad || negb zero) (checked + 1) rest
        end
      else scan_queues dataSource queue_directory any_bad checked rest
  end.

Definition Evaluate (h : Host) (checkContext : CheckContext)
    (dataSource : IDataSource) : option CheckResult :=
  match nic checkContext with
  | None => answer Kind Name Unknown "no NIC in context"
  | Some nic =>
      if negb (NicExists dataSource nic)
      then answer Kind Name Unknown "NIC not found"
      else
        let queue_directory :=
          path_append (path_append "/sys/class/net" nic) "queues" in
        if negb (host_exists h queue_directory)
        then answer Kind Name Unknown "no queues dir"
        else
          match scan_queues dataSource queue_directory false 0
                  (host_entries h queue_directory) with
          | inl path => answer Kind Name Unknown ("cannot read " +:+ path)
          | inr (any_bad, checked) =>
              if (checked =? 0)%Z
              then answer Kind Name Unknown "no rx/tx queues found"
              else if negb any_bad
              then answer Kind Name Pass "all zero masks"
              else answer Kind Name Fail "non-zero masks present"
          end
  end.

Definition check : ICheck := Build_ICheck Kind Name GetDomain Evaluate.
End RpsDisabledCheck.

Module NicQuietCheck.
Definition Kind := NicQuiet.
Definition Name := "NIC is quiet".
Definition GetDomain := Nic.

Definition v4_default_line (nic line : string) : bool :=
  if Str.empty line then false
  else match Str.tokens line with
       | iface :: dest :: _ => Str.eqb iface nic && Str.eqb dest "00000000"
       | _ => false
       end.

Definition default_route_v4_via_nic (dataSource : IDataSource) (nic : string) : bool :=
  match Read dataSource "/proc/net/route" with
  | None => false
  | Some content => existsb (v4_default_line nic) (tail (Str.getlines "010" content))
  end.

Definition zeros : string := "00000000000000000000000000000000".

Definition v6_default_line (nic line : string) : bool :=
  if Str.empty line then false
  else
    let tokens := Str.tokens line in
    if (length tokens <? 10)%nat then false
    else match tokens with
         | dest :: prefix_len :: _ =>
             Str.eqb dest zeros
             && (Str.eqb prefix_len "0" || Str.eqb prefix_len "00000000")
             && Str.eqb (List.last tokens "") nic
         | _ => false
         end.

Definition default_route_v6_via_nic (dataSource : IDataSource) (nic : string) : bool :=
  match Read dataSource "/proc/net/ipv6_route" with
  | None => false
  | Some content => existsb (v6_default_line nic) (Str.getlines "010" content)
  end.

(** The number of addresses of family [family] that the interface list
    has for [nic]. *)
Definition counts (nic : string) (family : sa_family) (iface : ifaddrs) : bool :=
  bool_decide (ifa_name iface = Some nic)
  && bool_decide (ifa_addr iface = Some family).

Definition count_addrs (nic : string) (family : sa_family) (l : list ifaddrs) : Z :=
  Z.of_nat (length (List.filter (counts nic family) l)).

Definition yes_no (b : bool) : string := if b then "yes" else "no".

Definition Evaluate (h : Host) (checkContext : CheckContext)
    (dataSource : IDataSource) : option CheckResult :=
  match nic checkContext with
  | None => answer Kind Name Unknown "no NIC in context"
  | Some nic =>
      if negb (NicExists dataSource nic)
      then answer Kind Name Unknown "NIC not found"
      else
        let has_default_v4 := default_route_v4_via_nic dataSource nic in
        let has_default_v6 := default_route_v6_via_nic dataSource nic in
        let routes := ", def4=" +:+ yes_no has_default_v4
                      +:+ ", def6=" +:+ yes_no has_default_v6 in
        match host_ifaddrs h with
        | Some interface_addrs =>
            let ipv4_count := count_addrs nic AF_INET interface_addrs in
            let ipv6_count := count_addrs nic AF_INET6 interface_addrs in
            if (ipv4_count =? 0)%Z && (ipv6_count =? 0)%Z
               && negb has_default_v4 && negb has_default_v6
            then answer Kind Name Pass "no IPs, no default route"
            else answer Kind Name Fail
                   ("v4=" +:+ to_string ipv4_count +:+ ", v6="
                    +:+ to_string ipv6_count +:+ routes)
        | None => answer Kind Name Unknown ("addr=?" +:+ routes)
        end
  end.

Definition check : ICheck := Build_ICheck Kind Name GetDomain Evaluate.
End NicQuietCheck.

Module RtThrottlingCheck.
Definition Kind := RtThrottlingDisabled.
Definition Name := "RT throttling disabled".
Definition GetDomain := Cpu.

Definition Evaluate (_ : Host) (_ : CheckContext)
    (dataSource : IDataSource) : option CheckResult :=
  match Read dataSource "/proc/sys/kernel/sched_rt_runtime_us" with
  | None => answer Kind Name Unknown "cannot read sched_rt_runtime_us"
  | Some value =>
      let trimmed_value := Trim value in
      if Str.eqb trimmed_value "-1"
      then answer Kind Name Pass "sched_rt_runtime_us=-1"
      else answer Kind Name Fail ("sched_rt_runtime_us=" +:+ trimmed_value)
  end.

Definition check : ICheck := Build_ICheck Kind Name GetDomain Evaluate.
End RtThrottlingCheck.

Module TimerMigrationCheck.
Definition Kind := TimerMigration.
Definition Name := "Timer Migration disabled".
Definition GetDomain := System.

Definition Evaluate (_ : Host) (_ : CheckContext)
    (dataSource : IDataSource) : option CheckResult :=
  match Read dataSource "/proc/sys/kernel/timer_migration" with
  | None => answer Kind Name Unknown "cannot read timer_migration"
  | Some value =>
      let trimmed_value := Trim value in
      if Str.eqb trimmed_value "0"
      then answer Kind Name Pass "timer_migration=0"
      else answer Kind Name Fail ("timer_migration=" +:+ trimmed_value)
  end.

Definition check : ICheck := Build_ICheck Kind Name GetDomain Evaluate.
End TimerMigrationCheck.

Module SwapDisabledCheck.
Definition Kind := SwapDisabled.
Definition Name := "Swap disabled".
Definition GetDomain := System.

(** What a line after the header adds to [active_entries]. *)
Definition active_entry (line : string) : list string :=
  let line := Trim line in
  if Str.empty line then []
  else match Str.tokens line with
       | [] => []
       | device :: more =>
           match more with
           | _ :: size :: used :: _ =>
               [device +:+ " size=" +:+ size +:+ " used=" +:+ used]
           | _ => [device]
           end
       end.

Definition Evaluate (_ : Host) (_ : CheckContext)
    (dataSource : IDataSource) : option CheckResult :=
  match Read dataSource "/proc/swaps" with
  | None => answer Kind Name Unknown "cannot read /proc/swaps"
  | Some swaps =>
      match Str.getlines "010" swaps with
      | [] => answer Kind Name Unknown "unexpected /proc/swaps format"
      | _header :: lines =>
          match concat (active_entry <$> lines) with
          | [] => answer Kind Name Pass "/proc/swaps empty"
          | active_entries =>
              answer Kind Name Fail ("active: " +:+ Str.join ", " active_entries)
          end
      end
  end.

Definition check : ICheck := Build_ICheck Kind Name GetDomain Evaluate.
End SwapDisabledCheck.

Module CStatesCappedCheck.
Definition Kind := DeepCStatesCapped.
Definition Name := "Deep C-states capped".
Definition GetDomain := Cpu.

Definition from_module (dataSource : IDataSource) : option CheckResult :=
  match Read dataSource "/sys/module/intel_idle/parameters/max_cstate" with
  | Some intel_cstate =>
      let value := Trim intel_cstate in
      if Str.eqb value "1" || Str.eqb value "0"
      then answer Kind Name Pass ("intel_idle.max_cstate=" +:+ value)
      else answer Kind Name Fail ("intel_idle.max_cstate=" +:+ value)
  | None =>
      match Read dataSource "/sys/module/processor/parameters/max_cstate" with
      | Some processor_cstate =>
          let value := Trim processor_cstate in
          if Str.eqb value "1" || Str.eqb value "0"
          then answer Kind Name Pass ("processor.max_cstate=" +:+ value)
          else answer Kind Name Fail ("processor.max_cstate=" +:+ value)
      | None => answer Kind Name Unknown "no indicators"
      end
  end.

Definition Evaluate (_ : Host) (_ : CheckContext)
    (dataSource : IDataSource) : option CheckResult :=
  match Read dataSource "/proc/cmdline" with
  | Some cmdline =>
      if Str.contains "cpuidle.off=1" cmdline
      then answer Kind Name Pass "cpuidle.off=1"
      else if Str.contains "intel_idle.max_cstate=1" cmdline
              || Str.contains "processor.max_cstate=1" cmdline
      then answer Kind Name Pass "cmdline caps to C1"
      else from_module dataSource
  | None => from_module dataSource
  end.

Definition check : ICheck := Build_ICheck Kind Name GetDomain Evaluate.
End CStatesCappedCheck.

Module TurboPolicyCheck.
Definition Kind := TurboBoostPolicy.
Definition Name := "Turbo/boost disabled".
Definition GetDomain := Cpu.

Definition from_pstate (dataSource : IDataSource) : option CheckResult :=
  let none := answer Kind Name Unknown "no boost knobs" in
  match Read dataSource "/sys/devices/system/cpu/intel_pstate/no_turbo" with
  | Some intel_turbo =>
      let value := Trim intel_turbo in
      if Str.eqb value "1" then answer Kind Name Pass "intel_pstate/no_turbo=1"
      else if Str.eqb value "0" then answer Kind Name Fail "intel_pstate/no_turbo=0"
      else none
  | None => none
  end.

Definition Evaluate (_ : Host) (_ : CheckContext)
    (dataSource : IDataSource) : option CheckResult :=
  match Read dataSource "/sys/devices/system/cpu/cpufreq/boost" with
  | Some boost_value =>
      let value := Trim boost_value in
      if Str.eqb value "0" then answer Kind Name Pass "cpufreq/boost=0"
      else if Str.eqb value "1" then answer Kind Name Fail "cpufreq/boost=1"
      else from_pstate dataSource
  | None => from_pstate dataSource
  end.

Definition check : ICheck := Build_ICheck Kind Name GetDomain Evaluate.
End TurboPolicyCheck.

Module ClocksourceCheck.
Definition Kind := ClocksourceStable.
Definition Name := "Clocksource stable".
Definition GetDomain := System.

Definition base : string := "/sys/devices/system/clocksource/clocksource0/".

Definition Evaluate (_ : Host) (_ : CheckContext)
    (dataSource : IDataSource) : option CheckResult :=
  match Read dataSource (base +:+ "current_clocksource") with
  | None => answer Kind Name Unknown "cannot read current_clocksource"
  | Some current_source =>
      let value := Trim current_source in
      if Str.eqb value "tsc" then answer Kind Name Pass "tsc"
      else if Str.eqb value "arch_sys_counter" then
        match Read dataSource (base +:+ "available_clocksource") with
        | Some available =>
            let available_sources := Trim available in
            if Str.eqb available_sources "arch_sys_counter"
               || negb (Str.contains " " available_sources)
            then answer Kind Name Pass "arch_sys_counter (ARM standard)"
            else answer Kind Name Pass "arch_sys_counter"
        | None => answer Kind Name Pass "arch_sys_counter"
        end
      else if Str.eqb value "hpet" then answer Kind Name Pass "hpet"
      else
        let detail :=
          match Read dataSource (base +:+ "available_clocksource") with
          | Some available => value +:+ "; available=" +:+ Trim available
          | None => value
          end in
        if Str.eqb value "jiffies" then answer Kind Name Fail detail
        else answer Kind Name Unknown detail
  end.

Definition check : ICheck := Build_ICheck Kind Name GetDomain Evaluate.
End ClocksourceCheck.

Module SmtSiblingIsolatedCheck.
Definition Kind := SmtSiblingIsolated.
Definition Name := "SMT sibling isolated/disabled".
Definition GetDomain := Cpu.

(** The members of a [std::set<int>] in the order its iterator visits
    them. *)
Definition ascending (s : gset Z) : list Z := merge_sort Z.le (elements s).

Definition Evaluate (_ : Host) (checkContext : CheckContext)
    (dataSource : IDataSource) : option CheckResult :=
  match cpu checkContext with
  | None => answer Kind Name Unknown "no CPU subject"
  | Some cpu =>
      match Read dataSource ("/sys/devices/system/cpu/cpu" +:+ to_string cpu
                             +:+ "/topology/thread_siblings_list") with
      | None => answer Kind Name Unknown "no thread_siblings_list"
      | Some siblings_value =>
          parsed ← ParseCpuList siblings_value;
          let siblings := parsed ∖ {[ cpu ]} in
          if bool_decide (siblings = ∅) then answer Kind Name Pass "no sibling"
          else
            match Read dataSource "/sys/devices/system/cpu/isolated" with
            | None => answer Kind Name Unknown "cannot read isolated"
            | Some isolated_value =>
                isolated_set ← ParseCpuList isolated_value;
                match List.filter (fun sibling => bool_decide (sibling ∉ isolated_set))
                        (ascending siblings) with
                | sibling :: _ =>
                    answer Kind Name Fail
                      ("sibling CPU" +:+ to_string sibling +:+ " not isolated")
                | [] => answer Kind Name Pass "siblings all isolated"
                end
            end
      end
  end.

Definition check : ICheck := Build_ICheck Kind Name GetDomain Evaluate.
End SmtSiblingIsolatedCheck.

(** ** The report driver *)

(** What [ReportSystemConfiguration] writes for the checks: the section
    headers and one line per result, in the order of printing. *)
Inductive Printed :=
| SectionHeader (title : string)
| Result (result : CheckResult).

(** The loops [for (const auto &check : ...)]: evaluate and print each
    check in turn. *)
Fixpoint run_checks (h : Host) (checkContext : CheckContext)
    (data : IDataSource) (checks : list ICheck) : option (list Printed) :=
  match checks with
  | [] => Some []
  | check :: rest =>
      result ← Evaluate check h checkContext data;
      printed ← run_checks h checkContext data rest;
      Some (Result result :: printed)
  end.

Definition system_checks : list ICheck :=
  [ PreemptRTActiveCheck.check; SwapDisabledCheck.check;
    TimerMigrationCheck.check; RtThrottlingCheck.check;
    ClocksourceCheck.check ].

Definition core_checks : list ICheck :=
  [ CoreIsolatedCheck.check; NohzFullCheck.check; RcuNoCbsCheck.check;
    CpuGovernorCheck.check; CpuFrequencyCheck.check;
    IrqAffinityDefaultAvoidsRtCheck.check; NoUnrelatedIrqsOnRtCheck.check;
    SmtSiblingIsolatedCheck.check; CStatesCappedCheck.check;
    TurboPolicyCheck.check ].

Definition nic_checks : list ICheck :=
  [ NicLinkUpCheck.check; NicQuietCheck.check; NicIrqsPinnedCheck.check;
    RpsDisabledCheck.check ].

(** The part of [ReportSystemConfiguration] under [if (checkContext.nic)]. *)
Definition nic_section (h : Host) (checkContext : CheckContext)
    (data : IDataSource) : option (list Printed) :=
  match nic checkContext with
  | None => Some []
  | Some nic =>
      presence ← Evaluate NicPresenceCheck.check h checkContext data;
      let nic_ok := bool_decide (status presence = Pass) in
      dependents ← (if nic_ok then run_checks h checkContext data nic_checks
                     else Some []);
      Some (SectionHeader ("NIC " +:+ nic +:+ " Checks")
            :: Result presence :: dependents)
  end.

(** The body of [ReportSystemConfiguration] from the first section header
    on, for the data source [data]. *)
Definition report_sections (h : Host) (checkContext : CheckContext)
    (data : IDataSource) : option (list Printed) :=
  system ← run_checks h checkContext data system_checks;
  core ← run_checks h checkContext data core_checks;
  network ← nic_section h checkContext data;
  Some (SectionHeader "System Checks" :: system
        ++ SectionHeader ("Core " +:+ to_string (default 0 (cpu checkContext))
                          +:+ " Checks") :: core
        ++ network).

(** [ReportSystemConfiguration]: nothing is evaluated for a core outside
    [0, CpuCount()); otherwise the context holds the core, and the NIC
    unless its name is empty, and the checks read the machine's files. *)
Definition ReportSystemConfiguration (h : Host) (cpu : Z) (nicName : string)
  : option (list Printed) :=
  if (cpu <? 0)%Z || (CpuCount h <=? cpu)%Z then Some []
  else
    let checkContext :=
      {| cpu := Some cpu;
         nic := if Str.empty nicName then None else Some nicName |} in
    report_sections h checkContext (SystemFileSystemDataSource h).

(** The whole catalog. *)
Definition catalog : list ICheck :=
  system_checks ++ core_checks ++ NicPresenceCheck.check :: nic_checks.

(** Modelled from the spec: the stub data source of the test suite, "a map
    from path to content plus a cmdline string"; its [cmdline_param]
    tokenizes the string as [GetCmdLineParam] does. *)
Definition StubDataSource (files : gmap string string) (cmdline : string)
  : IDataSource := {|
  Read path := files !! path;
  CmdLineParam key := GetCmdLineParam (Some cmdline) key;
|}.

(** ** The sender thread of main.cpp *)

(** [uint64_t] arithmetic wraps around. *)
Definition u64 (z : Z) : Z := z mod 2 ^ 64.

Definition RunIndefinitely : Z := 2 ^ 64 - 1.
Definition NanoPerMicro : Z := 1000.

(** Modelled from the spec: [NanoPerSec] and [ToEpoch] are declared in a
    header that is not among the source files; [ToEpoch] is "the epoch
    value of the timespec", in nanoseconds, as a [uint64_t]. *)
Definition NanoPerSec : Z := 1000000000.

Record timespec := {
  tv_sec : Z;
  tv_nsec : Z;
}.

Definition ToEpoch (time : timespec) : Z :=
  u64 (tv_sec time * NanoPerSec + tv_nsec time).

Definition AddNanoToTimespec (time : timespec) (nanos : Z) : timespec :=
  let nanoEpoch := u64 (ToEpoch time + nanos) in
  {| tv_sec := nanoEpoch / NanoPerSec;
     tv_nsec := nanoEpoch mod NanoPerSec |}.

(** Modelled from the spec: the fields of [TestParameters] that the sender
    loop reads (both [uint64_t]), and [ReportData] as the sequence of the
    observations added to it, each with the index it was added under. *)
Record TestParameters := {
  Iterations : Z;
  SendSleep : Z;
}.

Definition ReportData := list (Z * Z).

Definition AddObservation (report : ReportData) (observation index : Z)
  : ReportData :=
  report ++ [(observation, index)].

(** The local variables of [SenderThread], and the sequence of values
    [next] has taken (a trace, latest first, kept to state properties of the
    deadline over a run). *)
Record SenderState := {
  index : Z;
  next : timespec;
  previous : Z;
  SendData : ReportData;
  deadlines : list Z;
}.

(** What one pass of the loop observes of the outside: the value of
    [testRunning] at the loop head, whether [tester->Send()] returns
    normally, and the clock read by [GetCurrentTime()]. *)
Record Tick := {
  running : bool;
  sent : bool;
  now : Z;
}.

Definition advance (sleep : Z) (st : SenderState) : SenderState :=
  let next' := AddNanoToTimespec (next st) sleep in
  {| index := index st; next := next'; previous := previous st;
     SendData := SendData st; deadlines := ToEpoch next' :: deadlines st |}.

(** [while (current > ToEpoch(next)) AddNanoToTimespec(&next, SendSleep);]
    with at most [fuel] passes; [None] if the loop is still running then. *)
Fixpoint catch_up (fuel : nat) (current sleep : Z) (st : SenderState)
  : option SenderState :=
  if (current >? ToEpoch (next st))%Z then
    match fuel with
    | O => None
    | S fuel' => catch_up fuel' current sleep (advance sleep st)
    end
  else Some st.

(** "Set up the next time to wake up": lines 137 to 142. *)
Definition next_deadline (fuel : nat) (current sleep : Z) (st : SenderState)
  : option SenderState :=
  catch_up fuel current sleep (advance sleep st).

Definition recordTime (params : TestParameters) (index : Z) : bool :=
  negb (index =? 0)%Z && negb (index =? u64 (Iterations params - 1))%Z.

(** The body of the loop after [tester->Send()]. *)
Definition iteration (fuel : nat) (params : TestParameters) (tick : Tick)
    (st : SenderState) : option SenderState :=
  let current := u64 (now tick) in
  let report :=
    if recordTime params (index st)
    then AddObservation (SendData st) (u64 (current - previous st)) (index st)
    else SendData st in
  st' ← next_deadline fuel current (SendSleep params)
          {| index := index st; next := next st; previous := previous st;
             SendData := report; deadlines := deadlines st |};
  Some {| index := u64 (index st' + 1); next := next st';
          previous := current; SendData := SendData st';
          deadlines := deadlines st' |}.

(** How the thread ended: the loop condition became false, or an exception
    reached the [catch] (which stores [false] to [testRunning]). *)
Inductive Ending := LoopExit | Caught.

(** The [while] loop of [SenderThread] against the ticks the outside
    offers.  [None]: the ticks or the fuel ran out while the loop was
    still going. *)
Fixpoint SenderLoop (fuel : nat) (params : TestParameters) (tester : bool)
    (ticks : list Tick) (st : SenderState) : option (Ending * SenderState) :=
  let bounded :=
    (Iterations params =? RunIndefinitely)%Z || (index st <? Iterations params)%Z in
  match ticks with
  | [] => if bounded then None else Some (LoopExit, st)
  | tick :: rest =>
      if running tick && bounded then
        if tester && negb (sent tick) then Some (Caught, st)
        else st' ← iteration fuel params tick st;
             SenderLoop fuel params tester rest st'
      else Some (LoopExit, st)
  end.

(** [SenderThread]: [configured] tells whether [ConfigureThisThread]
    returned normally, [start] is the clock read into [next] before the
    loop, [tester] whether a tester was passed. *)
Definition SenderThread (fuel : nat) (params : TestParameters) (tester : bool)
    (configured : bool) (start : timespec) (ticks : list Tick)
  : option (Ending * SenderState) :=
  let st := {| index := 0; next := start; previous := 0;
               SendData := []; deadlines := [ToEpoch start] |} in
  if configured then SenderLoop fuel params tester ticks st
  else Some (Caught, st).

(** * Notions used in the statements *)

(** ** The command line, in the specification's words *)

(** The specification's wording of [cmdline_param]: scanning the tokens in
    order, a token equal to the key yields the empty string, a token that
    starts with the key followed by [=] yields what follows the [=]. *)
Fixpoint cmdline_param (key : string) (toks : list string) : option string :=
  match toks with
  | [] => None
  | tok :: rest =>
      if Str.eqb tok key then Some EmptyString
      else if Str.starts_with (key +:+ "=") tok
      then Some (Str.substr_from (String.length key + 1) tok)
      else cmdline_param key rest
  end.

(** ** Hosts and contexts for the examples *)

Definition generic_uname : utsname :=
  {| version := "#1 SMP PREEMPT_DYNAMIC Debian 6.1.76-1";
     release := "6.1.0-18-amd64" |}.

(** A four-core machine with a stock kernel; which files it has is given
    with each example. *)
Definition stock_host (files : gmap string string) : Host :=
  {| host_uname := Some generic_uname;
     host_ifaddrs := Some [];
     host_exists := fun _ => false;
     host_entries := fun _ => [];
     host_nprocessors_conf := 4;
     host_stod_to_string := fun _ => None;
     host_files := files;
     MaxFileSize := 4194304 |}.

Definition core (n : Z) : CheckContext := {| cpu := Some n; nic := None |}.

Definition core_with_nic (n : Z) (name : string) : CheckContext :=
  {| cpu := Some n; nic := Some name |}.

(** ** Frequencies *)

(** The directory of the frequency files of a core. *)
Definition cpufreq (cpu : Z) (file : string) : string :=
  "/sys/devices/system/cpu/cpu" +:+ to_string cpu +:+ "/cpufreq/" +:+ file.

(** [distance <= 5% * max_freq], the 5% taken exactly: both sides of the
    comparison are multiplied by 100. *)
Definition within_five_percent (distance max_freq : Z) : Prop :=
  100 * distance <= 5 * max_freq.

(** The frequency is locked: [min == max] and [|cur - max| <= 5% * max]. *)
Definition locked (current_freq min_freq max_freq : Z) : Prop :=
  min_freq = max_freq
  /\ within_five_percent (Z.abs (current_freq - max_freq)) max_freq.

(** The frequencies on which the check passes although they are not
    locked in that sense: the three are the same negative number above
    -20. *)
Definition passes_unlocked (current_freq min_freq max_freq : Z) : Prop :=
  min_freq = max_freq /\ current_freq = max_freq /\ -20 < max_freq < 0.

Definition in_int64 (z : Z) : Prop := INT64_MIN <= z <= INT64_MAX.

(** Scenario C of the specification: locked frequency with drift. *)
Definition scenario_C : IDataSource :=
  StubDataSource
    {[ cpufreq 3 "scaling_cur_freq" := "2600000";
       cpufreq 3 "scaling_min_freq" := "2400000";
       cpufreq 3 "scaling_max_freq" := "2400000" ]} "".

(** The three frequency files of core 3 all holding [-1]. *)
Definition minus_one_kHz : IDataSource :=
  StubDataSource
    {[ cpufreq 3 "scaling_cur_freq" := "-1";
       cpufreq 3 "scaling_min_freq" := "-1";
       cpufreq 3 "scaling_max_freq" := "-1" ]} "".

(** ** Subjects and evidence of the checks *)

(** What a check asks for: a file or a kernel parameter of its data
    source, a directory of the machine, the addresses of its interfaces. *)
Inductive Query :=
| File (path : string)
| CmdLine (key : string)
| Directory (path : string)
| Addresses.

Definition unreadable (h : Host) (dataSource : IDataSource) (q : Query) : Prop :=
  match q with
  | File path => Read dataSource path = None
  | CmdLine key => CmdLineParam dataSource key = None
  | Directory path => host_exists h path = false
  | Addresses => host_ifaddrs h = None
  end.

(** The subject a check requires of its context. *)
Definition needs_cpu (k : CheckKind) : bool :=
  match k with
  | CoreIsolated | NohzFull | RcuNoCbs | CpuGovernor | CpuFrequency
  | IrqAffinityDefaultAvoidsRt | NoUnrelatedIrqsOnRt | SmtSiblingIsolated
  | NicIrqsPinned => true
  | _ => false
  end.

Definition needs_nic (k : CheckKind) : bool :=
  match k with
  | NicPresent | NicLinkUp | NicIrqsPinned | RpsDisabled | NicQuiet => true
  | _ => false
  end.

Definition subject_absent (k : CheckKind) (checkContext : CheckContext) : Prop :=
  (needs_cpu k = true /\ cpu checkContext = None)
  \/ (needs_nic k = true /\ nic checkContext = None).

Definition nic_files (nic : string) : list Query :=
  [ File ("/sys/class/net/" +:+ nic +:+ "/operstate");
    File ("/sys/class/net/" +:+ nic +:+ "/carrier");
    File ("/sys/class/net/" +:+ nic +:+ "/address") ].

(** The directory of the queues of an interface, and the RPS mask of one
    of its queues. *)
Definition queues_directory (nic : string) : string :=
  path_append (path_append "/sys/class/net" nic) "queues".

Definition rps_cpus (nic queue_name : string) : string :=
  path_append (path_append (queues_directory nic) queue_name) "rps_cpus".

(** The list of the hardware threads of a core. *)
Definition thread_siblings_list (cpu : Z) : string :=
  "/sys/devices/system/cpu/cpu" +:+ to_string cpu
  +:+ "/topology/thread_siblings_list".

(** The IRQs of an interface, as the rows of /proc/interrupts name them. *)
Definition irqs_of_nic (nic content : string) : list Z :=
  concat (NicIrqsPinnedCheck.nic_irq nic <$> Str.getlines "010" content).

(** The evidence a check needs in any case: a list of groups of
    alternative sources.  The evidence is missing when, in some group, no
    source can be read.  What a check reads only once other evidence calls
    for it (the isolated list for a core with a sibling, the affinity list
    of an IRQ of the interface, the RPS mask of a receive queue) is not in
    this table. *)
Definition evidence (h : Host) (k : CheckKind) (checkContext : CheckContext)
  : list (list Query) :=
  let cpu := default 0 (cpu checkContext) in
  let nic := default "" (nic checkContext) in
  match k with
  | PreemptRTActive =>
      [ File "/sys/kernel/realtime"
        :: match host_uname h with
           | Some uname_info => [File ("/boot/config-" +:+ release uname_info)]
           | None => []
           end ]
  | SwapDisabled => [[File "/proc/swaps"]]
  | TimerMigration => [[File "/proc/sys/kernel/timer_migration"]]
  | RtThrottlingDisabled => [[File "/proc/sys/kernel/sched_rt_runtime_us"]]
  | ClocksourceStable =>
      [[File (ClocksourceCheck.base +:+ "current_clocksource")]]
  | CoreIsolated => [[File "/sys/devices/system/cpu/isolated"]]
  | NohzFull => [[File "/sys/devices/system/cpu/nohz_full"; CmdLine "nohz_full"]]
  | RcuNoCbs => [[File "/sys/devices/system/cpu/rcu_nocbs"; CmdLine "rcu_nocbs"]]
  | CpuGovernor =>
      [[File ("/sys/devices/system/cpu/cpu" +:+ to_string cpu
              +:+ "/cpufreq/scaling_governor")]]
  | CpuFrequency =>
      [ [File (cpufreq cpu "scaling_cur_freq")];
        [File (cpufreq cpu "scaling_min_freq")];
        [File (cpufreq cpu "scaling_max_freq")] ]
  | IrqAffinityDefaultAvoidsRt => [[CmdLine "irqaffinity"]]
  | NoUnrelatedIrqsOnRt => [[File "/proc/interrupts"]]
  | SmtSiblingIsolated => [[File (thread_siblings_list cpu)]]
  | DeepCStatesCapped =>
      [[ File "/proc/cmdline";
         File "/sys/module/intel_idle/parameters/max_cstate";
         File "/sys/module/processor/parameters/max_cstate" ]]
  | TurboBoostPolicy =>
      [[ File "/sys/devices/system/cpu/cpufreq/boost";
         File "/sys/devices/system/cpu/intel_pstate/no_turbo" ]]
  | NicPresent => [nic_files nic]
  | RpsDisabled => [nic_files nic; [Directory (queues_directory nic)]]
  | NicQuiet => [nic_files nic; [Addresses]]
  | NicLinkUp =>
      [ [ File ("/sys/class/net/" +:+ nic +:+ "/operstate");
          File ("/sys/class/net/" +:+ nic +:+ "/carrier") ] ]
  | NicIrqsPinned => [nic_files nic; [File "/proc/interrupts"]]
  end.

Definition missing_evidence (h : Host) (k : CheckKind)
    (checkContext : CheckContext) (dataSource : IDataSource) : Prop :=
  Exists (Forall (unreadable h dataSource)) (evidence h k checkContext).

(** Whether [uname -v] reports a PREEMPT_RT kernel. *)
Definition uname_reports_rt (h : Host) : bool :=
  match host_uname h with
  | Some uname_info =>
      Str.contains "PREEMPT RT" (version uname_info)
      || Str.contains "PREEMPT_RT" (version uname_info)
  | None => false
  end.

(** A data source in which nothing can be read. *)
Definition nothing_readable : IDataSource := StubDataSource ∅ "".

(** ** Reports *)

(** The NIC checks that [ReportSystemConfiguration] runs only for a present
    interface. *)
Definition dependent_on_presence (k : CheckKind) : bool :=
  match k with
  | NicLinkUp | NicQuiet | NicIrqsPinned | RpsDisabled => true
  | _ => false
  end.

(** The kinds of the results in a report, in the order of printing. *)
Definition kinds_printed (printed : list Printed) : list CheckKind :=
  concat ((fun line => match line with
                       | Result result => [kind result]
                       | SectionHeader _ => []
                       end) <$> printed).

(** The report has a result of kind [k]. *)
Definition reported (k : CheckKind) (printed : list Printed) : Prop :=
  k ∈ kinds_printed printed.

(** Scenario D of the specification: the NIC "eth9" is named but none of
    its files can be read. *)
Definition scenario_D : CheckContext := core_with_nic 3 "eth9".

(** The context [ReportSystemConfiguration] builds from its arguments. *)
Definition context_of (cpu : Z) (nicName : string) : CheckContext :=
  {| cpu := Some cpu;
     nic := if Str.empty nicName then None else Some nicName |}.

(** Every check of the catalog has a result on these inputs. *)
Definition all_defined (h : Host) (checkContext : CheckContext)
    (dataSource : IDataSource) : Prop :=
  forall c, c ∈ catalog -> is_Some (Evaluate c h checkContext dataSource).

(** The files of a machine on which the interface "eth0" is up. *)
Definition eth0_up : gmap string string :=
  {[ "/sys/class/net/eth0/operstate" := "up" ]}.

(** ** Rows of /proc/interrupts *)

(** A row of /proc/interrupts has a label when one of the columns after the
    colon is not a number; its count on a column is the number in that
    column. *)
Definition numeric (column : string * string) : bool :=
  Str.all_of Str.isdigit column.1.

Definition has_label (columns : list (string * string)) : bool :=
  negb (forallb numeric columns).

Definition rt_count (cpu_column : Z) (columns : list (string * string)) : Z :=
  if (cpu_column <? 0)%Z then 0
  else match columns !! Z.to_nat cpu_column with
       | Some (token, _) => default 0 (stoll token)
       | None => 0
       end.

Definition newline : string := String "010" EmptyString.

(** A table in which IRQ 16, labeled, has fired 500 times on CPU3 and the
    other rows are silent there. *)
Definition busy_usb_table : string :=
  Str.join newline
    [ "           CPU0       CPU1       CPU2       CPU3";
      "  0:         36          0          0          0   IO-APIC    2-edge      timer";
      " 16:          0          0          0        500   IO-APIC   16-fasteoi   ehci_hcd:usb1";
      " 24:          7          0          0          0";
      "NMI:          0          0          0          0   Non-maskable interrupts" ]
  +:+ newline.

(** The same with a row without label that has fired on CPU3. *)
Definition unlabeled_table : string :=
  busy_usb_table +:+ " 25:          0          0          0         12" +:+ newline.

Definition interrupts_of (table : string) : IDataSource :=
  StubDataSource {[ "/proc/interrupts" := table ]} "".

(** What the loop over the lines maintains: no findings before the header
    is done, and every finding is the scan, against the column that is
    mapped, of a line of the table. *)
Definition table_invariant (nic_filter : string) (lines : list string)
    (st : NoUnrelatedIrqsOnRtCheck.table_state) : Prop :=
  (NoUnrelatedIrqsOnRtCheck.header_done st = false ->
   NoUnrelatedIrqsOnRtCheck.findings st = [])
  /\ Forall (fun f => exists line,
               line ∈ lines
               /\ f = NoUnrelatedIrqsOnRtCheck.scan_row nic_filter
                        (NoUnrelatedIrqsOnRtCheck.cpu_column st) line)
       (NoUnrelatedIrqsOnRtCheck.findings st).

(** ** Runs of the sender *)

(** The trace of deadlines is in order, latest first, and begins with the
    current deadline. *)
Definition trace_ok (st : SenderState) : Prop :=
  Sorted Z.ge (deadlines st)
  /\ head (deadlines st) = Some (ToEpoch (next st)).

(** The indices under which a report holds observations. *)
Definition recorded (report : ReportData) : list Z := report.*2.

(** A pass of the sender loop goes through: the thread is to keep running
    and, if there is a tester, its [Send] returns. *)
Definition goes_on (tester : bool) (tick : Tick) : Prop :=
  running tick = true /\ (tester = true -> sent tick = true).

(** A sender state with [next] as the deadline and nothing recorded. *)
Definition waiting_for (next : timespec) : SenderState :=
  {| index := 1; next := next; previous := 0; SendData := [];
     deadlines := [ToEpoch next] |}.

(** Ticks at which the thread keeps running, for the given clock
    readings. *)
Definition ticks_at (clock : list Z) : list Tick :=
  (fun t => {| running := true; sent := true; now := t |}) <$> clock.


(** A run of five iterations at a period of 1 ms, the clock read a little
    after each deadline. *)
Definition five_iterations : TestParameters :=
  {| Iterations := 5; SendSleep := 1000000 |}.

Definition boot : timespec := {| tv_sec := 0; tv_nsec := 0 |}.

Definition five_wakes : list Tick :=
  ticks_at [ 150; 1000210; 2000180; 3000450; 4000120; 5000300 ].

(** The tick at which [testRunning] is found false. *)
Definition stop : Tick := {| running := false; sent := true; now := 0 |}.

(** A period of 18446744073709551 microseconds, as [--send-sleep] accepts
    it; in nanoseconds it is 616 short of 2^64. *)
Definition huge_period : TestParameters :=
  {| Iterations := 3; SendSleep := 18446744073709551 * NanoPerMicro |}.

(** * Further parts of the program *)

(** ** The read loop of [Slurp] *)

Definition SIZE_MAX : N := 2 ^ 64 - 1.

(** [size_t] arithmetic wraps around. *)
Definition size_t (n : N) : N := (n mod 2 ^ 64)%N.

(** The loop of [Slurp] on an open file: [rest] is what the stream has
    not yet delivered, [good] is [ifs.good()], [buffer] is the constant
    [ReadBufferSize] of config.h.  [ifs.read] delivers up to [buffer]
    characters and leaves the stream good only if it got them all.  At
    most [fuel] passes; [None] if the loop is still running then. *)
Fixpoint SlurpLoop (fuel buffer : nat) (max_bytes : N) (rest : string)
    (good : bool) (out : string) (total : N) : option string :=
  if good then
    match fuel with
    | O => None
    | S fuel' =>
        let buf := Str.substr 0 buffer rest in
        let got := N.of_nat (String.length buf) in
        if (got <=? 0)%N then Some out
        else
          let got :=
            if (max_bytes <? size_t (total + got))%N
            then size_t (2 ^ 64 + max_bytes - total) else got in
          let out := out +:+ Str.substr 0 (N.to_nat got) buf in
          let total := size_t (total + got) in
          if (max_bytes <=? total)%N then Some out
          else SlurpLoop fuel' buffer max_bytes (Str.substr_from buffer rest)
                 (buffer <=? String.length rest)%nat out total
    end
  else Some out.

(** [Slurp] with its loop written out; a file of [n] characters is read
    in at most [n + 1] passes. *)
Definition SlurpChunked (files : gmap string string) (path : string)
    (buffer : nat) (max_bytes : N) : option (option string) :=
  match files !! path with
  | None => Some None
  | Some content =>
      out ← SlurpLoop (S (String.length content)) buffer max_bytes content
              true EmptyString 0;
      Some (Some out)
  end.
(** ** CPU lists as the kernel writes them *)

(** An item of a CPU list: one CPU, or a range given by its two ends. *)
Inductive cpu_item :=
| One (n : Z)
| Range (first last : Z).

Definition render_item (item : cpu_item) : string :=
  match item with
  | One n => to_string n
  | Range first last => to_string first +:+ "-" +:+ to_string last
  end.

(** The text of a list: its items separated by commas. *)
Definition render_cpu_list (items : list cpu_item) : string :=
  Str.join "," (render_item <$> items).

(** CPU [z] is covered by an item. *)
Definition covers (z : Z) (item : cpu_item) : Prop :=
  match item with
  | One n => z = n
  | Range first last => first `min` last <= z <= first `max` last
  end.

(** An item the parser accepts: CPU numbers from 0 up, and below [INT_MAX]
    at the upper end of a range. *)
Definition cpu_item_ok (item : cpu_item) : Prop :=
  match item with
  | One n => 0 <= n <= INT_MAX
  | Range first last => 0 <= first < INT_MAX /\ 0 <= last < INT_MAX
  end.
(** ** IRQ affinities *)

(** The file with the CPUs an IRQ may be delivered to. *)
Definition smp_affinity_list (irq : Z) : string :=
  "/proc/irq/" +:+ to_string irq +:+ "/smp_affinity_list".

(** The IRQs of [nic_irqs] that are not pinned to [cpu] alone, when
    [affinity] gives the CPUs of each IRQ. *)
Definition unpinned (affinity : Z -> gset Z) (cpu : Z) (nic_irqs : list Z)
  : list Z :=
  List.filter (fun irq => negb (bool_decide (affinity irq = {[ cpu ]}))) nic_irqs.
(** ** Receive queues *)

(** The status the RPS check gives for the outcome of its loop over the
    queues directory. *)
Definition queues_status (outcome : string + bool * Z) : Status :=
  match outcome with
  | inl _ => Unknown
  | inr (any_bad, checked) =>
      if (checked =? 0)%Z then Unknown
      else if negb any_bad then Pass else Fail
  end.
(** ** The table of /proc/interrupts *)

(** The header line of the table for the CPUs [columns], each [CPU<N>]
    after the gap given with it. *)
Definition header_line (columns : list (string * Z)) : string :=
  fold_right (fun column line => column.1 +:+ CpuPrefix +:+ to_string column.2 +:+ line)
    "" columns.

(** A gap between columns: white space, and some of it. *)
Definition gap (s : string) : Prop :=
  s <> "" /\ Str.all_of Str.isspace s = true.

(** The label of a row: its first column that is not a number, with the
    rest of the line after it. *)
Fixpoint row_label (columns : list (string * string)) : option string :=
  match columns with
  | [] => None
  | (token, rest) :: more =>
      if Str.all_of Str.isdigit token then row_label more
      else Some (token +:+ rest)
  end.

(** The count at position [n] among the counts that come before the label
    of a row; [otherwise] if the row has no count there. *)
Fixpoint count_at (otherwise : Z) (n : nat) (columns : list (string * string))
    {struct columns} : Z :=
  match columns with
  | [] => otherwise
  | (token, _) :: more =>
      if Str.all_of Str.isdigit token then
        match n with
        | O => default 0 (stoll token)
        | S n' => count_at otherwise n' more
        end
      else otherwise
  end.

(** The count of a row on the column mapped for the RT core. *)
Definition row_count (cpu_column : Z) (columns : list (string * string)) : Z :=
  if (cpu_column <? 0)%Z then 0 else count_at 0 (Z.to_nat cpu_column) columns.

(** What the check answers once the column is mapped and the offenders
    are collected. *)
Definition interrupts_answer (cpu_column : Z) (offenders : list string)
  : option CheckResult :=
  if (cpu_column <? 0)%Z
  then answer NoUnrelatedIrqsOnRt "No unrelated IRQs on RT core" Unknown
         "could not map CPU column"
  else if bool_decide (offenders = [])
  then answer NoUnrelatedIrqsOnRt "No unrelated IRQs on RT core" Pass "clean"
  else answer NoUnrelatedIrqsOnRt "No unrelated IRQs on RT core" Fail
         (NoUnrelatedIrqsOnRtCheck.listing offenders).
(** ** Observations of the sender *)

(** An observation recorded under index [i] is the time between the clock
    readings of the passes [i - 1] and [i] of the loop. *)
Definition clock_delta (ticks : list Tick) (entry : Z * Z) : Prop :=
  exists (k : nat) (before tick : Tick),
    entry.2 = Z.of_nat (S k)
    /\ ticks !! k = Some before /\ ticks !! S k = Some tick
    /\ entry.1 = u64 (u64 (now tick) - u64 (now before)).
(** ** The receiver thread of main.cpp *)

(** What [tester->Receive()] does in a pass of the receiver loop. *)
Inductive Reception :=
| Received       (** returns [true] *)
| NotReceived    (** returns [false] *)
| Thrown.        (** throws *)

(** What one pass of the receiver loop observes of the outside: the value
    of [testRunning] at the loop head, the outcome of [Receive], and the
    clock read by [GetCurrentTime()]. *)
Record RxTick := {
  rx_running : bool;
  reception : Reception;
  rx_now : Z;
}.

(** The local variables of [ReceiverThread], with the report it fills and
    the value it has last stored to [testRunning], if any. *)
Record ReceiverState := {
  rx_index : Z;
  rx_previous : Z;
  ReceiveData : ReportData;
  rx_stored : option bool;
}.

(** How the receiver thread ended: the loop condition became false, the
    loop was left on a failed [Receive], or an exception reached the
    [catch]. *)
Inductive RxEnding := RxLoopExit | RxBreak | RxCaught.

Definition stop_test (st : ReceiverState) : ReceiverState :=
  {| rx_index := rx_index st; rx_previous := rx_previous st;
     ReceiveData := ReceiveData st; rx_stored := Some false |}.

(** The body of the receiver loop after a successful [Receive]. *)
Definition rx_iteration (params : TestParameters) (tick : RxTick)
    (st : ReceiverState) : ReceiverState :=
  let current := u64 (rx_now tick) in
  let report :=
    if recordTime params (rx_index st)
    then AddObservation (ReceiveData st) (u64 (current - rx_previous st))
           (rx_index st)
    else ReceiveData st in
  {| rx_index := u64 (rx_index st + 1); rx_previous := current;
     ReceiveData := report; rx_stored := rx_stored st |}.

(** The [while] loop of [ReceiverThread] against the ticks the outside
    offers.  [None]: the ticks ran out while the loop was still going. *)
Fixpoint ReceiverLoop (params : TestParameters) (ticks : list RxTick)
    (st : ReceiverState) : option (RxEnding * ReceiverState) :=
  let bounded :=
    (Iterations params =? RunIndefinitely)%Z
    || (rx_index st <? Iterations params)%Z in
  match ticks with
  | [] => if bounded then None else Some (RxLoopExit, st)
  | tick :: rest =>
      if rx_running tick && bounded then
        match reception tick with
        | Thrown => Some (RxCaught, stop_test st)
        | NotReceived => Some (RxBreak, stop_test st)
        | Received => ReceiverLoop params rest (rx_iteration params tick st)
        end
      else Some (RxLoopExit, st)
  end.

(** [ReceiverThread]: [configured] tells whether [ConfigureThisThread]
    returned normally. *)
Definition ReceiverThread (params : TestParameters) (configured : bool)
    (ticks : list RxTick) : option (RxEnding * ReceiverState) :=
  let st := {| rx_index := 0; rx_previous := 0; ReceiveData := [];
               rx_stored := None |} in
  if configured then ReceiverLoop params ticks st
  else Some (RxCaught, stop_test st).

(** A pass of the receiver loop in which a frame is received. *)
Definition frame_at (t : Z) : RxTick :=
  {| rx_running := true; reception := Received; rx_now := t |}.

(** A pass in which [Receive] returns [false]. *)
Definition timeout_at (t : Z) : RxTick :=
  {| rx_running := true; reception := NotReceived; rx_now := t |}.
(** ** The estimated run time *)

Fixpoint fill_chars (n : nat) (c : ascii) : string :=
  match n with
  | O => EmptyString
  | S n' => String c (fill_chars n' c)
  end.

(** [stream << std::setfill(fill) << std::setw(width) << number]: the
    decimal digits, filled on the left up to [width] characters. *)
Definition setw (width : nat) (fill : ascii) (number : Z) : string :=
  let digits := to_string number in
  fill_chars (width - String.length digits) fill +:+ digits.

Definition GetEstimatedRunTime (iterations sleepNanoseconds : Z) : string :=
  let totalNanoseconds := u64 (iterations * sleepNanoseconds) in
  let hours := totalNanoseconds / (60 * 60 * NanoPerSec) in
  let minutes := (totalNanoseconds / (60 * NanoPerSec)) mod 60 in
  let seconds := (totalNanoseconds / NanoPerSec) mod 60 in
  let milliseconds := (totalNanoseconds / 1000000) mod 1000 in
  setw 2 "0" hours +:+ ":" +:+ setw 2 "0" minutes +:+ ":"
  +:+ setw 2 "0" seconds +:+ "." +:+ setw 3 "0" milliseconds.

(** The text [hh:mm:ss.mmm] for the given numbers. *)
Definition clock_text (hours minutes seconds milliseconds : Z) : string :=
  setw 2 "0" hours +:+ ":" +:+ setw 2 "0" minutes +:+ ":"
  +:+ setw 2 "0" seconds +:+ "." +:+ setw 3 "0" milliseconds.
(** ** The descriptor wrapper of main.cpp *)

(** The [FileDescriptor] objects of the program, each given by its member
    [fd], and the descriptors that have been passed to [close], latest
    first. *)
Record Descriptors := {
  objects : list Z;
  closed : list Z;
}.

Module FileDescriptor.

Definition Get (this : nat) (s : Descriptors) : Z :=
  default (-1) (objects s !! this).

Definition Release (this : nat) (s : Descriptors) : Z * Descriptors :=
  (Get this s, {| objects := <[this := -1]> (objects s); closed := closed s |}).

Definition Reset (this : nat) (newFd : Z) (s : Descriptors) : Z * Descriptors :=
  let fd := Get this s in
  (newFd,
   {| objects := <[this := newFd]> (objects s);
      closed := if negb (newFd =? fd)%Z && (0 <=? fd)%Z
                then fd :: closed s else closed s |}).

(** [FileDescriptor()] and [FileDescriptor(int fd)]: a further object. *)
Definition Construct (fd : Z) (s : Descriptors) : Descriptors :=
  {| objects := objects s ++ [fd]; closed := closed s |}.

(** [FileDescriptor(FileDescriptor&& other)]. *)
Definition MoveConstruct (other : nat) (s : Descriptors) : Descriptors :=
  let '(fd, s') := Release other s in Construct fd s'.

(** [operator=(FileDescriptor&& other)]. *)
Definition MoveAssign (this other : nat) (s : Descriptors) : Descriptors :=
  if bool_decide (this = other) then s
  else let '(fd, s') := Release other s in (Reset this fd s').2.

(** [~FileDescriptor()]. *)
Definition Destroy (this : nat) (s : Descriptors) : Descriptors :=
  (Reset this (-1) s).2.

End FileDescriptor.

(** What a program does with its [FileDescriptor] objects. *)
Inductive fd_call :=
| CallConstruct (fd : Z)
| CallRelease (this : nat)
| CallReset (this : nat) (newFd : Z)
| CallMoveConstruct (other : nat)
| CallMoveAssign (this other : nat)
| CallDestroy (this : nat).

Definition call (c : fd_call) (s : Descriptors) : Descriptors :=
  match c with
  | CallConstruct fd => FileDescriptor.Construct fd s
  | CallRelease this => (FileDescriptor.Release this s).2
  | CallReset this newFd => (FileDescriptor.Reset this newFd s).2
  | CallMoveConstruct other => FileDescriptor.MoveConstruct other s
  | CallMoveAssign this other => FileDescriptor.MoveAssign this other s
  | CallDestroy this => FileDescriptor.Destroy this s
  end.

(** A descriptor the program hands to an object is its to give: no object
    holds it (unless it is the object's own) and it has not been closed. *)
Definition fresh (fd : Z) (s : Descriptors) : Prop :=
  fd < 0 \/ ((fd ∉ objects s) /\ (fd ∉ closed s)).

Definition allowed (c : fd_call) (s : Descriptors) : Prop :=
  match c with
  | CallConstruct fd => fresh fd s
  | CallReset this newFd => objects s !! this = Some newFd \/ fresh newFd s
  | CallRelease this | CallMoveConstruct this | CallDestroy this =>
      this < length (objects s)
  | CallMoveAssign this other =>
      this < length (objects s) /\ other < length (objects s)
  end%nat.

Fixpoint run (calls : list fd_call) (s : Descriptors) : Descriptors :=
  match calls with
  | [] => s
  | c :: rest => run rest (call c s)
  end.

Fixpoint all_allowed (calls : list fd_call) (s : Descriptors) : Prop :=
  match calls with
  | [] => True
  | c :: rest => allowed c s /\ all_allowed rest (call c s)
  end.

(** No two objects hold the same open descriptor, no object holds a
    closed one, and no descriptor has been closed twice. *)
Definition well_owned (s : Descriptors) : Prop :=
  (forall i j fd, objects s !! i = Some fd -> objects s !! j = Some fd ->
                  0 <= fd -> i = j)
  /\ (forall fd, fd ∈ closed s -> 0 <= fd /\ (fd ∉ objects s))
  /\ NoDup (closed s).
(** ** Tables and files given by their lines *)

(** The text of a file whose lines are [lines], each ended by a newline. *)
Definition lines_text (lines : list string) : string :=
  fold_right (fun line text => line +:+ String "010" text) "" lines.

(** A row of /proc/net/route: the interface, the destination, and the
    further columns, with tabs between them. *)
Record route := {
  route_iface : string;
  route_dest : string;
  route_more : string;
}.

Definition route_row (r : route) : string :=
  route_iface r +:+ String "009" (route_dest r +:+ String "009" (route_more r)).

(** A word of a table: not empty, and without white space. *)
Definition word (s : string) : Prop :=
  s <> "" /\ Str.all_of (fun c => negb (Str.isspace c)) s = true.

Definition route_ok (r : route) : Prop :=
  word (route_iface r) /\ word (route_dest r)
  /\ Str.find_char "010" (route_more r) = None.
(** ** The header of the report: operating system and CPU model *)

(** [s.substr(pos, count)]: at most [count] characters from [pos] on, as
    many as there are. *)
Definition substr_count (pos : nat) (count : N) (s : string) : string :=
  String.substring pos
    (N.to_nat (N.min count (N.of_nat (String.length s - pos)))) s.

(** The removal of a pair of double quotes around a value, as
    [GetOSInfo] does it for each of the three keys. *)
Definition unquote (value : string) : string :=
  match value, Str.rev value with
  | String front _, String back _ =>
      if Ascii.eqb front "034" && Ascii.eqb back "034"
      then substr_count 1 (size_t (2 ^ 64 + N.of_nat (String.length value) - 2))
             value
      else value
  | _, _ => value
  end.

(** The body of the second loop of [GetOSInfo]; its state is [name] and
    [version]. *)
Definition os_release_line (st : string * string) (line : string)
  : string * string :=
  let '(name, version) := st in
  if Str.starts_with "NAME=" line then (unquote (Str.substr_from 5 line), version)
  else if Str.starts_with "VERSION=" line
  then (name, unquote (Str.substr_from 8 line))
  else st.

Definition GetOSInfo (h : Host) : string :=
  match Slurp (host_files h) "/etc/os-release" (MaxFileSize h) with
  | None => "OS: unknown"
  | Some content =>
      let lines := Str.getlines "010" content in
      match List.find (Str.starts_with "PRETTY_NAME=") lines with
      | Some line => "OS: " +:+ unquote (Str.substr_from 12 line)
      | None =>
          let '(name, version) := fold_left os_release_line lines ("", "") in
          if negb (Str.empty name)
          then "OS: " +:+ name
               +:+ (if negb (Str.empty version) then " " +:+ version else "")
          else "OS: unknown"
      end
  end.

(** What [CpuModelString] asks of the machine besides its files: the
    output collected from [lscpu] ([None] if [popen] fails) and the
    [machine] member of [uname] ([None] if [uname] fails). *)
Record CpuSources := {
  lscpu_output : option string;
  uname_machine : option string;
}.

(** The lambda [take_after_colon]. *)
Definition take_after_colon (s : string) : string :=
  match Str.find ":" s with
  | None => ""
  | Some pos => Trim (Str.substr_from (pos + 1) s)
  end.

(** One of the three loops over the output of [lscpu]: the value of the
    first line that begins with [key] and has a value. *)
Fixpoint lscpu_value (key : string) (lines : list string) : option string :=
  match lines with
  | [] => None
  | line :: rest =>
      if Str.starts_with key line && negb (Str.empty (take_after_colon line))
      then Some (take_after_colon line)
      else lscpu_value key rest
  end.

(** The loop over the keys for a line of /proc/cpuinfo. *)
Fixpoint cpuinfo_keys (keys : list string) (line : string) : option string :=
  match keys with
  | [] => None
  | k :: rest =>
      if Str.starts_with k line then
        match Str.find ":" line with
        | Some pos =>
            let v := Trim (Str.substr_from (pos + 1) line) in
            if negb (Str.empty v) then Some v else cpuinfo_keys rest line
        | None => cpuinfo_keys rest line
        end
      else cpuinfo_keys rest line
  end.

Fixpoint cpuinfo_model (lines : list string) : option string :=
  match lines with
  | [] => None
  | line :: rest =>
      match cpuinfo_keys ["model name"; "Hardware"; "Processor"; "cpu model"] line with
      | Some v => Some v
      | None => cpuinfo_model rest
      end
  end.

Definition CpuModelString (h : Host) (sources : CpuSources) : string :=
  let from_uname :=
    match uname_machine sources with
    | Some machine => machine
    | None => "Unknown CPU"
    end in
  let from_cpuinfo :=
    match Slurp (host_files h) "/proc/cpuinfo" (MaxFileSize h) with
    | Some ci =>
        match cpuinfo_model (Str.getlines "010" ci) with
        | Some v => v
        | None => from_uname
        end
    | None => from_uname
    end in
  match lscpu_output sources with
  | Some output =>
      if negb (Str.empty output) then
        let lines := Str.getlines "010" output in
        match lscpu_value "Model name:" lines with
        | Some value => value
        | None =>
            match lscpu_value "Hardware:" lines with
            | Some value => value
            | None =>
                match lscpu_value "Architecture:" lines with
                | Some value => value
                | None => from_cpuinfo
                end
            end
        end
      else from_cpuinfo
  | None => from_cpuinfo
  end.

(** A line of the output of [lscpu] that names no model: it does not begin
    with [Model name:], or nothing but white space follows the colon. *)
Definition names_no_model (line : string) : Prop :=
  Str.starts_with "Model name:" line = false
  \/ exists blank,
       line = "Model name:" +:+ blank /\ Str.all_of Str.isspace blank = true.

(** * Properties *)

(** ** Strings *)

Lemma index_char_cons (c a : ascii) (s : string) :
  String.index 0 (String c EmptyString) (String a s) =
  if Ascii.eqb c a then Some 0%nat
  else S <$> String.index 0 (String c EmptyString) s.
Proof.
  cbn [String.index String.prefix].
  destruct (ascii_dec c a) as [->|Hne].
  - rewrite Ascii.eqb_refl. by destruct s.
  - apply Ascii.eqb_neq in Hne. rewrite Hne.
    by destruct (String.index 0 (String c EmptyString) s).
Qed.

Lemma append_cons (x : ascii) (a b : string) :
  String x a +:+ b = String x (a +:+ b).
Proof. reflexivity. Qed.

Lemma append_nil (b : string) : EmptyString +:+ b = b.
Proof. reflexivity. Qed.

Lemma find_char_cons (c a : ascii) (s : string) :
  Str.find_char c (String a s) =
  if Ascii.eqb c a then Some 0%nat else S <$> Str.find_char c s.
Proof. apply index_char_cons. Qed.

(** A string without [c], then [c]: the first [c] is found right there. *)
Lemma find_char_app (c : ascii) (a b : string) :
  Str.find_char c a = None ->
  Str.find_char c (a +:+ String c b) = Some (String.length a).
Proof.
  induction a as [|x a IH]; intros Hnone.
  - rewrite append_nil, find_char_cons, Ascii.eqb_refl. done.
  - rewrite find_char_cons in Hnone. rewrite append_cons, find_char_cons.
    destruct (Ascii.eqb c x); [done|].
    destruct (Str.find_char c a) eqn:E; [done|].
    by rewrite IH.
Qed.

(** Where [find_char] answers [n], the string splits there. *)
Lemma find_char_split (c : ascii) (s : string) (n : nat) :
  Str.find_char c s = Some n ->
  exists a b, s = a +:+ String c b /\ String.length a = n
              /\ Str.find_char c a = None.
Proof.
  revert n. induction s as [|x s IH]; intros n Hfind.
  - done.
  - rewrite find_char_cons in Hfind.
    destruct (Ascii.eqb c x) eqn:Ecx.
    + apply Ascii.eqb_eq in Ecx as ->. injection Hfind as <-.
      by exists EmptyString, s.
    + destruct (Str.find_char c s) as [m|] eqn:E; [|done].
      injection Hfind as <-.
      destruct (IH m eq_refl) as (a & b & -> & Hlen & Hnone).
      exists (String x a), b. rewrite append_cons, find_char_cons, Ecx, Hnone.
      cbn [String.length]. by rewrite Hlen.
Qed.

Lemma find_char_none_app (c : ascii) (a b : string) :
  Str.find_char c (a +:+ String c b) <> None.
Proof.
  induction a as [|x a IH].
  - by rewrite append_nil, find_char_cons, Ascii.eqb_refl.
  - rewrite append_cons, find_char_cons.
    destruct (Ascii.eqb c x); [done|].
    by destruct (Str.find_char c (a +:+ String c b)).
Qed.

Lemma substr_prefix (a r : string) :
  Str.substr 0 (String.length a) (a +:+ r) = a.
Proof.
  unfold Str.substr. induction a as [|x a IH].
  - by destruct r.
  - rewrite append_cons. cbn [String.length String.substring]. by rewrite IH.
Qed.

Lemma substring_all (s : string) : String.substring 0 (String.length s) s = s.
Proof. induction s as [|x s IH]; cbn; [done|by rewrite IH]. Qed.

Lemma length_append (a b : string) :
  String.length (a +:+ b) = (String.length a + String.length b)%nat.
Proof.
  induction a as [|x a IH]; [done|].
  rewrite append_cons. cbn [String.length]. by rewrite IH.
Qed.

Lemma substr_from_suffix (a : string) (c : ascii) (b : string) :
  Str.substr_from (String.length a + 1) (a +:+ String c b) = b.
Proof.
  unfold Str.substr_from. rewrite length_append. cbn [String.length].
  replace (String.length a + S (String.length b) - (String.length a + 1))%nat
    with (String.length b) by lia.
  induction a as [|x a IH].
  - apply substring_all.
  - rewrite append_cons. exact IH.
Qed.

Lemma starts_with_app (p r : string) : Str.starts_with p (p +:+ r) = true.
Proof.
  unfold Str.starts_with. induction p as [|x p IH].
  - by destruct r.
  - rewrite append_cons. cbn [String.prefix].
    destruct (ascii_dec x x); [exact IH|done].
Qed.

Lemma starts_with_split (p s : string) :
  Str.starts_with p s = true -> exists r, s = p +:+ r.
Proof.
  unfold Str.starts_with. revert s. induction p as [|x p IH]; intros s H.
  - by exists s.
  - destruct s as [|y s]; [done|]. cbn in H.
    destruct (ascii_dec x y) as [->|]; [|done].
    destruct (IH s H) as [r ->]. by exists r.
Qed.

Lemma append_assoc (a b c : string) : (a +:+ b) +:+ c = a +:+ (b +:+ c).
Proof.
  induction a as [|x a IH]; [done|]. by rewrite !append_cons, IH.
Qed.

(** The split at the first [c] is unique. *)
Lemma first_split_unique (c : ascii) (a a' b b' : string) :
  Str.find_char c a = None -> Str.find_char c a' = None ->
  a +:+ String c b = a' +:+ String c b' -> a = a' /\ b = b'.
Proof.
  revert a'. induction a as [|x a IH]; intros [|x' a'] Ha Ha' Heq;
    rewrite ?append_cons, ?append_nil in Heq.
  - by injection Heq as ->.
  - injection Heq as <- _. rewrite find_char_cons, Ascii.eqb_refl in Ha'. done.
  - injection Heq as -> _. rewrite find_char_cons, Ascii.eqb_refl in Ha. done.
  - injection Heq as -> Heq.
    rewrite find_char_cons in Ha, Ha'.
    destruct (Ascii.eqb c x'); [done|].
    destruct (Str.find_char c a) eqn:Ea; [done|].
    destruct (Str.find_char c a') eqn:Ea'; [done|].
    destruct (IH a' eq_refl Ea' Heq) as [-> ->]. done.
Qed.

(** The library functions on some inputs. *)
Lemma getlines_examples :
  Str.getlines "," "a,,b," = ["a"; ""; "b"]
  /\ Str.getlines "," "" = []
  /\ Str.getlines "," "," = [""]
  /\ Str.getlines "010" ("x" +:+ newline +:+ newline +:+ "y") = ["x"; ""; "y"].
Proof. by vm_compute. Qed.

Lemma tokens_examples :
  Str.tokens "  a foo=bar   baz " = ["a"; "foo=bar"; "baz"]
  /\ Str.extractions " 7  IO-APIC  2-edge"
     = [("7", "  IO-APIC  2-edge"); ("IO-APIC", "  2-edge"); ("2-edge", "")]
  /\ Trim "  a b  " = "a b".
Proof. by vm_compute. Qed.

Lemma stoi_examples :
  stoi "42" = Some 42 /\ stoi " -12" = Some (-12) /\ stoi "+7" = Some 7
  /\ stoi "3x" = Some 3 /\ stoi "2-3" = Some 2
  /\ stoi "" = None /\ stoi "abc" = None /\ stoi "-" = None
  /\ stoi "2147483648" = None /\ stoll "2147483648" = Some 2147483648.
Proof. by vm_compute. Qed.

(** The tokens that [stream >> token] yields are not empty and hold no
    white space. *)
Lemma extractions_tokens (s : string) :
  Forall (fun e => e.1 <> ""
                   /\ Str.all_of (fun c => negb (Str.isspace c)) e.1 = true)
    (Str.extractions s).
Proof.
  induction s as [|c s IH]; [constructor|]. cbn [Str.extractions].
  destruct (Str.isspace c) eqn:Hc; [done|].
  destruct (Str.begins_token s).
  - destruct (Str.extractions s) as [|[tok rest] more].
    + apply Forall_singleton. cbn. by rewrite Hc.
    + apply Forall_cons in IH as [[_ Htok] IH]. apply Forall_cons.
      split; [|done]. cbn in *. by rewrite Hc, Htok.
  - apply Forall_cons. split; [|done]. cbn. by rewrite Hc.
Qed.

(** ** The kernel command line (claim C8) *)

(** On one token, and for a key without [=], the test of [GetCmdLineParam]
    and the wording of the specification agree. *)
Lemma ScanCmdLine_step (key tok : string) (rest : list string) :
  Str.find_char "=" key = None ->
  ScanCmdLine key (tok :: rest) =
  if Str.eqb tok key then Some EmptyString
  else if Str.starts_with (key +:+ "=") tok
  then Some (Str.substr_from (String.length key + 1) tok)
  else ScanCmdLine key rest.
Proof.
  intros Hkey. cbn [ScanCmdLine]. unfold Str.eqb.
  assert (Hsep : forall r, (key +:+ "=") +:+ r = key +:+ String "=" r).
  { intros r. by rewrite append_assoc. }
  destruct (Str.find_char "=" tok) as [eq|] eqn:Htok.
  - destruct (find_char_split _ _ _ Htok) as (a & b & -> & <- & Ha).
    rewrite substr_prefix, substr_from_suffix.
    rewrite (bool_decide_eq_false_2 (a +:+ String "=" b = key)); last first.
    { intros <-. by apply find_char_none_app in Hkey. }
    case_bool_decide as Hak.
    + subst a. rewrite substr_from_suffix, <- (Hsep b), starts_with_app. done.
    + destruct (Str.starts_with (key +:+ "=") (a +:+ String "=" b)) eqn:Hpre; [|done].
      apply starts_with_split in Hpre as [r Hr]. rewrite Hsep in Hr.
      by destruct (first_split_unique _ _ _ _ _ Ha Hkey Hr).
  - case_bool_decide; [done|].
    destruct (Str.starts_with (key +:+ "=") tok) eqn:Hpre; [|done].
    apply starts_with_split in Hpre as [r ->]. rewrite Hsep in Htok.
    by apply find_char_none_app in Htok.
Qed.

(** C8 (as amended).  For every key that contains no [=], [GetCmdLineParam]
    on a readable command line is the scan the specification describes:
    over the whitespace-separated tokens in order, the first token equal to
    the key yields the empty string, the first token that starts with the
    key followed by [=] yields the rest of that token, and no match yields
    [None]. *)
Theorem GetCmdLineParam_scan (cmd key : string) :
  Str.find_char "=" key = None ->
  GetCmdLineParam (Some cmd) key = cmdline_param key (Str.tokens cmd).
Proof.
  intros Hkey. unfold GetCmdLineParam.
  induction (Str.tokens cmd) as [|tok rest IH]; [done|].
  rewrite ScanCmdLine_step by done. cbn [cmdline_param]. by rewrite IH.
Qed.

Lemma GetCmdLineParam_scan_witness :
  GetCmdLineParam (Some "a foo=bar baz") "foo"
  = cmdline_param "foo" (Str.tokens "a foo=bar baz").
Proof. apply GetCmdLineParam_scan. reflexivity. Defined.

(** The three cases the specification lists for the key [foo]. *)
Lemma GetCmdLineParam_examples :
  GetCmdLineParam (Some "a foo=bar baz") "foo" = Some "bar"
  /\ GetCmdLineParam (Some "a foo baz") "foo" = Some ""
  /\ GetCmdLineParam (Some "a bar") "foo" = None.
Proof. by vm_compute. Qed.

(** C8 (as stated) fails for a key that contains [=]: the code compares the
    key with the part of a token before its first [=], so a token equal to
    such a key, or starting with the key followed by [=], is not matched. *)
Lemma GetCmdLineParam_key_with_equals :
  GetCmdLineParam (Some "ro cpuidle.off=1 quiet") "cpuidle.off=1" = None
  /\ cmdline_param "cpuidle.off=1" (Str.tokens "ro cpuidle.off=1 quiet") = Some ""
  /\ GetCmdLineParam (Some "a x=1=2") "x=1" = None
  /\ cmdline_param "x=1" (Str.tokens "a x=1=2") = Some "2".
Proof. by vm_compute. Qed.

(** ** The CPU-list parser (claim C3) *)

(** The five inputs of the specification's test list. *)
Lemma ParseCpuList_examples :
  ParseCpuList "1-3,5,7-8" = Some {[ 1; 2; 3; 5; 7; 8 ]}
  /\ ParseCpuList "5-3" = Some {[ 3; 4; 5 ]}
  /\ ParseCpuList "" = Some ∅
  /\ ParseCpuList "2,abc,4" = Some {[ 2; 4 ]}
  /\ ParseCpuList " 1 , 2 " = Some {[ 1; 2 ]}.
Proof. by vm_compute. Qed.

(** C3.  Tokens that are not of the form N or N-M are not all dropped:
    [std::stoi] reads the longest numeric prefix and ignores what follows,
    and a second dash is taken for a sign or for trailing text.  So a token
    with extra dashes expands to a range, possibly with negative members,
    and a token with a non-numeric tail counts as its prefix. *)
Theorem ParseCpuList_keeps_malformed_tokens :
  ParseCpuList "1-2-3" = Some {[ 1; 2 ]}
  /\ ParseCpuList "1--3" = Some {[ -3; -2; -1; 0; 1 ]}
  /\ ParseCpuList "2,3x,4" = Some {[ 2; 3; 4 ]}.
Proof. by vm_compute. Qed.

(** ** CoreIsolated on CPU0 (claim C4) *)

(** C4 (as amended).  With CPU 0 as the subject: when
    /sys/devices/system/cpu/isolated cannot be read the result is Unknown;
    when it can be read (and its list parses within defined behaviour) the
    status is Fail whatever the list holds, and the reason is "CPU0
    selected; choose non-CPU0" exactly when CPU 0 is not in the list,
    "CPU0 is isolated but should not be your RT core" when it is. *)
Theorem CoreIsolated_cpu0 (h : Host) (checkContext : CheckContext)
    (dataSource : IDataSource) :
  cpu checkContext = Some 0 ->
  (Read dataSource "/sys/devices/system/cpu/isolated" = None ->
   CoreIsolatedCheck.Evaluate h checkContext dataSource
   = answer CoreIsolated "RT core isolated" Unknown "no /sys/.../isolated")
  /\ (forall content set,
        Read dataSource "/sys/devices/system/cpu/isolated" = Some content ->
        ParseCpuList (Trim content) = Some set ->
        CoreIsolatedCheck.Evaluate h checkContext dataSource
        = answer CoreIsolated "RT core isolated" Fail
            (if bool_decide (0 ∈ set)
             then "CPU0 is isolated but should not be your RT core"
             else "CPU0 selected; choose non-CPU0")).
Proof.
  intros Hcpu. unfold CoreIsolatedCheck.Evaluate. rewrite Hcpu.
  split.
  - by intros ->.
  - intros content set -> ->. cbn. by case_bool_decide.
Qed.

Lemma CoreIsolated_cpu0_witness :
  CoreIsolatedCheck.Evaluate (stock_host ∅) (core 0)
    (StubDataSource {[ "/sys/devices/system/cpu/isolated" := "2-3" ]} "")
  = answer CoreIsolated "RT core isolated" Fail "CPU0 selected; choose non-CPU0".
Proof.
  rewrite (proj2 (CoreIsolated_cpu0 (stock_host ∅) (core 0)
             (StubDataSource {[ "/sys/devices/system/cpu/isolated" := "2-3" ]} "")
             eq_refl) "2-3" {[ 2; 3 ]}).
  - vm_compute. reflexivity.
  - vm_compute. reflexivity.
  - vm_compute. reflexivity.
Defined.

(** C4 (as stated) fails in two ways: an unreadable file gives Unknown, not
    Fail, and a list that holds CPU 0 gives Fail with another reason. *)
Lemma CoreIsolated_cpu0_other_answers :
  CoreIsolatedCheck.Evaluate (stock_host ∅) (core 0) (StubDataSource ∅ "")
  = answer CoreIsolated "RT core isolated" Unknown "no /sys/.../isolated"
  /\ CoreIsolatedCheck.Evaluate (stock_host ∅) (core 0)
       (StubDataSource {[ "/sys/devices/system/cpu/isolated" := "0-3" ]} "")
     = answer CoreIsolated "RT core isolated" Fail
         "CPU0 is isolated but should not be your RT core".
Proof. by vm_compute. Qed.

(** ** The frequency check (claim C6) *)

Lemma int64_in_range (z : Z) : in_int64 z -> int64 z = Some z.
Proof. intros H. unfold int64. by rewrite bool_decide_eq_true_2. Qed.

(** The tolerance as the check computes it, [(max * 5) / 100] with the
    division of C++ that truncates toward zero, against the exact 5%: the
    two decide alike, except that from -19 to -1 the truncated tolerance is
    0, which a distance of 0 meets. *)
Lemma truncated_tolerance (distance max_freq : Z) :
  0 <= distance ->
  distance <= Z.quot (max_freq * 5) 100
  <-> within_five_percent distance max_freq
      \/ (distance = 0 /\ -20 < max_freq < 0).
Proof.
  intros Hdistance. unfold within_five_percent.
  destruct (Z.le_gt_cases 0 max_freq) as [Hmax|Hmax].
  - rewrite Z.quot_div_nonneg by lia.
    pose proof (Z.div_mod (max_freq * 5) 100 ltac:(lia)) as Hdm.
    pose proof (Z.mod_pos_bound (max_freq * 5) 100 ltac:(lia)) as Hb.
    split; [intros H; left|intros [H|H]]; lia.
  - replace (max_freq * 5) with (- (- max_freq * 5)) by lia.
    rewrite Z.quot_opp_l by lia. rewrite Z.quot_div_nonneg by lia.
    pose proof (Z.div_mod (- max_freq * 5) 100 ltac:(lia)) as Hdm.
    pose proof (Z.mod_pos_bound (- max_freq * 5) 100 ltac:(lia)) as Hb.
    split; [intros H; right|intros [H|H]]; lia.
Qed.

Lemma cpufreq_path (cpu : Z) (file : string) :
  ("/sys/devices/system/cpu/cpu" +:+ to_string cpu +:+ "/cpufreq/") +:+ file
  = cpufreq cpu file.
Proof. unfold cpufreq. by rewrite !append_assoc. Qed.

(** C6 (as amended).  When the three frequency files all convert to
    integers (and the check's 64-bit arithmetic on them stays in range),
    the result is Pass exactly when min = max and the distance of cur from
    max is at most 5% of max, or when the three are the same number from
    -19 to -1, where the tolerance of the check, truncated toward zero, is
    0; in every other case it is Fail, that is when min = max with cur
    outside the tolerance and when min differs from max.  For a max that is
    not negative this is the rule as stated.  When not all three convert,
    the result is Unknown. *)
Theorem CpuFrequency_decision (h : Host) (checkContext : CheckContext)
    (dataSource : IDataSource) (cpu_id : Z) :
  cpu checkContext = Some cpu_id ->
  let read file := CpuFrequencyCheck.read_int64 dataSource (cpufreq cpu_id file) in
  (forall cur mn mx,
     read "scaling_cur_freq" = Some cur ->
     read "scaling_min_freq" = Some mn ->
     read "scaling_max_freq" = Some mx ->
     (mn = mx -> in_int64 (mx * 5) /\ in_int64 (cur - mx)
                 /\ in_int64 (Z.abs (cur - mx))) ->
     exists result,
       CpuFrequencyCheck.Evaluate h checkContext dataSource = Some result
       /\ kind result = CpuFrequency
       /\ (status result = Pass
           <-> locked cur mn mx \/ passes_unlocked cur mn mx)
       /\ (status result = Fail
           <-> ~ (locked cur mn mx \/ passes_unlocked cur mn mx))
       /\ (0 <= mx ->
           (status result = Pass <-> locked cur mn mx)
           /\ (status result = Fail <-> ~ locked cur mn mx)))
  /\ ((read "scaling_cur_freq" = None \/ read "scaling_min_freq" = None
       \/ read "scaling_max_freq" = None) ->
      exists result,
        CpuFrequencyCheck.Evaluate h checkContext dataSource = Some result
        /\ kind result = CpuFrequency
        /\ status result = Unknown).
Proof.
  intros Hcpu read. subst read. unfold CpuFrequencyCheck.Evaluate.
  rewrite Hcpu. cbv zeta. rewrite !cpufreq_path. split.
  - intros cur mn mx -> -> -> Hrange. unfold locked, passes_unlocked.
    destruct (Z.eqb_spec mn mx) as [->|Hne].
    + destruct (Hrange eq_refl) as (H5 & Hd & Ha).
      rewrite (int64_in_range _ H5). cbn [mbind option_bind].
      rewrite (int64_in_range _ Hd). cbn [mbind option_bind].
      rewrite (int64_in_range _ Ha). cbn [mbind option_bind].
      pose proof (truncated_tolerance (Z.abs (cur - mx)) mx ltac:(lia)) as Htol.
      unfold within_five_percent in *.
      destruct (Z.leb_spec (Z.abs (cur - mx)) (Z.quot (mx * 5) 100)) as [Hle|Hgt].
      * eexists. split; [reflexivity|]. cbn. split_and!; try done; try lia;
          intuition (done || lia).
      * eexists. split; [reflexivity|]. cbn. split_and!; try done; try lia;
          intuition (done || lia).
    + eexists. split; [reflexivity|]. cbn. intuition (done || lia).
  - intros Hsome.
    destruct (CpuFrequencyCheck.read_int64 dataSource (cpufreq cpu_id "scaling_cur_freq")),
      (CpuFrequencyCheck.read_int64 dataSource (cpufreq cpu_id "scaling_min_freq")),
      (CpuFrequencyCheck.read_int64 dataSource (cpufreq cpu_id "scaling_max_freq"));
      try (eexists; split; [reflexivity|done]).
    + by destruct Hsome as [|[|]].
    + unfold CpuFrequencyCheck.from_cpuinfo.
      destruct (Read dataSource "/proc/cpuinfo");
        [destruct (fold_left _ _ _).2|]; eexists; (split; [reflexivity|done]).
Qed.

Lemma CpuFrequency_decision_witness :
  exists result,
    CpuFrequencyCheck.Evaluate (stock_host ∅) (core 3) scenario_C = Some result
    /\ kind result = CpuFrequency
    /\ (status result = Pass
        <-> locked 2600000 2400000 2400000
            \/ passes_unlocked 2600000 2400000 2400000)
    /\ (status result = Fail
        <-> ~ (locked 2600000 2400000 2400000
               \/ passes_unlocked 2600000 2400000 2400000))
    /\ (0 <= 2400000 ->
        (status result = Pass <-> locked 2600000 2400000 2400000)
        /\ (status result = Fail <-> ~ locked 2600000 2400000 2400000)).
Proof.
  apply (proj1 (CpuFrequency_decision (stock_host ∅) (core 3) scenario_C 3 eq_refl)).
  - vm_compute. reflexivity.
  - vm_compute. reflexivity.
  - vm_compute. reflexivity.
  - intros _. unfold in_int64, INT64_MIN, INT64_MAX. lia.
Defined.

(** C6 (as stated) fails where max is negative: with the three files of the
    core holding -1 the check answers Pass, and the distance 0 of cur from
    max is not within 5% of -1. *)
Lemma CpuFrequency_passes_outside_five_percent :
  CpuFrequencyCheck.read_int64 minus_one_kHz (cpufreq 3 "scaling_cur_freq")
  = Some (-1)
  /\ CpuFrequencyCheck.read_int64 minus_one_kHz (cpufreq 3 "scaling_min_freq")
     = Some (-1)
  /\ CpuFrequencyCheck.read_int64 minus_one_kHz (cpufreq 3 "scaling_max_freq")
     = Some (-1)
  /\ CpuFrequencyCheck.Evaluate (stock_host ∅) (core 3) minus_one_kHz
     = answer CpuFrequency "CPU current frequency" Pass "-1 kHz (locked)"
  /\ ~ within_five_percent (Z.abs (-1 - -1)) (-1)
  /\ ~ locked (-1) (-1) (-1).
Proof.
  split_and!; try (by vm_compute).
  unfold locked, within_five_percent. lia.
Qed.

(** Scenario C: 5% of 2400000 is 120000, the drift 200000 exceeds it, the
    result is Fail. *)
Lemma CpuFrequency_scenario_C :
  (forall distance, within_five_percent distance 2400000 <-> distance <= 120000)
  /\ Z.abs (2600000 - 2400000) = 200000
  /\ CpuFrequencyCheck.Evaluate (stock_host ∅) (core 3) scenario_C
     = answer CpuFrequency "CPU current frequency" Fail
         "cur=2600000 kHz, locked=2400000 kHz".
Proof.
  split_and!; [|by vm_compute..].
  intros distance. unfold within_five_percent. lia.
Qed.

(** ** Missing evidence (claim C5) *)

Lemma append_not_empty_l (a b : string) : a <> "" -> a +:+ b <> "".
Proof. destruct a; [done|]. by rewrite append_cons. Qed.

Lemma append_not_empty_r (a b : string) : b <> "" -> a +:+ b <> "".
Proof.
  destruct a as [|x a]; [by rewrite append_nil|]. by rewrite append_cons.
Qed.

Lemma NicExists_unreadable (h : Host) (dataSource : IDataSource) (nic : string) :
  Forall (unreadable h dataSource) (nic_files nic) ->
  NicExists dataSource nic = false.
Proof.
  unfold nic_files, NicExists. rewrite !Forall_cons. cbn [unreadable].
  by intros (-> & -> & -> & _).
Qed.

(** Splits the hypothesis that some group of evidence is unreadable into
    the reads that fail. *)
Ltac split_evidence H :=
  unfold missing_evidence, evidence in H;
  repeat match type of H with
    | Exists _ (_ :: _) => apply Exists_cons in H as [H|H]
    | Exists _ [] => by apply Exists_nil in H
    end;
  try match type of H with
    | Forall _ (nic_files _) => apply NicExists_unreadable in H
    end;
  repeat match type of H with
    | Forall _ (_ :: _) =>
        let H1 := fresh "Hread" in
        apply Forall_cons in H as [H1 H]; cbn [unreadable] in H1
    | Forall _ [] => clear H
    end.

Ltac unknown_answer :=
  eexists; split; [reflexivity|];
  first [ done
        | apply append_not_empty_l; done
        | apply append_not_empty_r; done ].

Lemma Unknown_when_subject_absent (h : Host) (checkContext : CheckContext)
    (dataSource : IDataSource) (c : ICheck) :
  c ∈ catalog ->
  subject_absent (Kind c) checkContext ->
  exists why,
    Evaluate c h checkContext dataSource
    = answer (Kind c) (Name c) Unknown why /\ why <> "".
Proof.
  intros Hin Habsent. unfold catalog, system_checks, core_checks, nic_checks in Hin.
  cbn [app] in Hin.
  repeat (apply elem_of_cons in Hin as [->|Hin]);
    try (by apply elem_of_nil in Hin);
    destruct Habsent as [[Hneeds Hnone]|[Hneeds Hnone]];
    try discriminate Hneeds;
    cbn [Evaluate Kind Name NohzFullCheck.check NicPresenceCheck.check
         NicLinkUpCheck.check CoreIsolatedCheck.check CpuGovernorCheck.check
         CpuFrequencyCheck.check RcuNoCbsCheck.check
         IrqAffinityDefaultAvoidsRtCheck.check NoUnrelatedIrqsOnRtCheck.check
         NicIrqsPinnedCheck.check RpsDisabledCheck.check NicQuietCheck.check
         SmtSiblingIsolatedCheck.check];
    unfold NohzFullCheck.Evaluate, NicPresenceCheck.Evaluate,
      NicLinkUpCheck.Evaluate, CoreIsolatedCheck.Evaluate,
      CpuGovernorCheck.Evaluate, CpuFrequencyCheck.Evaluate,
      RcuNoCbsCheck.Evaluate, IrqAffinityDefaultAvoidsRtCheck.Evaluate,
      NoUnrelatedIrqsOnRtCheck.Evaluate, NicIrqsPinnedCheck.Evaluate,
      RpsDisabledCheck.Evaluate, NicQuietCheck.Evaluate,
      SmtSiblingIsolatedCheck.Evaluate;
    rewrite Hnone; try unknown_answer.
  destruct (cpu checkContext); unknown_answer.
Qed.

Ltac unfold_checks :=
  cbn [Evaluate Kind Name NohzFullCheck.check NicPresenceCheck.check
       NicLinkUpCheck.check CoreIsolatedCheck.check CpuGovernorCheck.check
       CpuFrequencyCheck.check RcuNoCbsCheck.check
       IrqAffinityDefaultAvoidsRtCheck.check NoUnrelatedIrqsOnRtCheck.check
       NicIrqsPinnedCheck.check RpsDisabledCheck.check NicQuietCheck.check
       SmtSiblingIsolatedCheck.check PreemptRTActiveCheck.check
       SwapDisabledCheck.check TimerMigrationCheck.check
       RtThrottlingCheck.check ClocksourceCheck.check
       CStatesCappedCheck.check TurboPolicyCheck.check] in *;
  unfold NohzFullCheck.Kind, NicPresenceCheck.Kind, NicLinkUpCheck.Kind,
    CoreIsolatedCheck.Kind, CpuGovernorCheck.Kind, CpuFrequencyCheck.Kind,
    RcuNoCbsCheck.Kind, IrqAffinityDefaultAvoidsRtCheck.Kind,
    NoUnrelatedIrqsOnRtCheck.Kind, NicIrqsPinnedCheck.Kind,
    RpsDisabledCheck.Kind, NicQuietCheck.Kind, SmtSiblingIsolatedCheck.Kind,
    PreemptRTActiveCheck.Kind, SwapDisabledCheck.Kind,
    TimerMigrationCheck.Kind, RtThrottlingCheck.Kind, ClocksourceCheck.Kind,
    CStatesCappedCheck.Kind, TurboPolicyCheck.Kind in *;
  unfold NohzFullCheck.Evaluate, NicPresenceCheck.Evaluate,
    NicLinkUpCheck.Evaluate, CoreIsolatedCheck.Evaluate,
    CpuGovernorCheck.Evaluate, CpuFrequencyCheck.Evaluate,
    RcuNoCbsCheck.Evaluate, IrqAffinityDefaultAvoidsRtCheck.Evaluate,
    NoUnrelatedIrqsOnRtCheck.Evaluate, NicIrqsPinnedCheck.Evaluate,
    RpsDisabledCheck.Evaluate, NicQuietCheck.Evaluate,
    SmtSiblingIsolatedCheck.Evaluate, PreemptRTActiveCheck.Evaluate,
    SwapDisabledCheck.Evaluate, TimerMigrationCheck.Evaluate,
    RtThrottlingCheck.Evaluate, ClocksourceCheck.Evaluate,
    CStatesCappedCheck.Evaluate, TurboPolicyCheck.Evaluate,
    NicLinkUpCheck.from_carrier, CStatesCappedCheck.from_module,
    TurboPolicyCheck.from_pstate, CpuFrequencyCheck.read_int64.

Lemma Unknown_when_evidence_missing (h : Host) (checkContext : CheckContext)
    (dataSource : IDataSource) (c : ICheck) :
  c ∈ catalog ->
  Kind c <> PreemptRTActive ->
  missing_evidence h (Kind c) checkContext dataSource ->
  exists why,
    Evaluate c h checkContext dataSource
    = answer (Kind c) (Name c) Unknown why /\ why <> "".
Proof.
  intros Hin Hkind Hmiss.
  unfold catalog, system_checks, core_checks, nic_checks in Hin.
  cbn [app] in Hin.
  repeat (apply elem_of_cons in Hin as [->|Hin]);
    try (by apply elem_of_nil in Hin);
    try (by destruct Hkind);
    clear Hkind; unfold_checks;
    unfold missing_evidence, evidence in Hmiss;
    destruct (cpu checkContext) as [cpu_id|] eqn:Hcpu,
             (nic checkContext) as [nic_name|] eqn:Hnic;
    try unknown_answer;
    cbn [default from_option id] in Hmiss;
    unfold thread_siblings_list, queues_directory in Hmiss;
    split_evidence Hmiss;
    rewrite ?cpufreq_path; rewrite ?Hmiss, ?Hread, ?Hread0, ?Hread1;
    cbn [negb]; try unknown_answer;
    try (destruct (NicExists dataSource nic_name); unknown_answer).
  all: unfold CpuFrequencyCheck.from_cpuinfo;
    repeat case_match; simplify_eq; unknown_answer.
Qed.

Lemma PreemptRTActive_without_files (h : Host) (checkContext : CheckContext)
    (dataSource : IDataSource) :
  missing_evidence h PreemptRTActive checkContext dataSource ->
  exists why,
    PreemptRTActiveCheck.Evaluate h checkContext dataSource
    = answer PreemptRTActive "PREEMPT_RT active"
        (if uname_reports_rt h then Pass else Fail) why
    /\ (uname_reports_rt h = false -> why = "No evidence of RT kernel").
Proof.
  intros Hmiss. unfold missing_evidence, evidence in Hmiss.
  apply Exists_cons in Hmiss as [Hmiss|Hmiss]; [|by apply Exists_nil in Hmiss].
  apply Forall_cons in Hmiss as [Hrt Hmiss]. cbn [unreadable] in Hrt.
  unfold PreemptRTActiveCheck.Evaluate, PreemptRTActiveCheck.from_uname,
    uname_reports_rt.
  rewrite Hrt. destruct (host_uname h) as [uname_info|]; [|by eexists].
  apply Forall_cons in Hmiss as [Hconfig _]. cbn [unreadable] in Hconfig.
  rewrite Hconfig.
  destruct (Str.contains "PREEMPT RT" (version uname_info)
            || Str.contains "PREEMPT_RT" (version uname_info)); by eexists.
Qed.

(** The loop over the IRQs of the interface stops at the first whose
    affinity list cannot be read, whatever it has found before. *)
Lemma audit_unreadable (dataSource : IDataSource) (cpu irq : Z)
    (bad_irqs nic_irqs : list Z) :
  irq ∈ nic_irqs ->
  Read dataSource (smp_affinity_list irq) = None ->
  (forall other value,
     other ∈ nic_irqs ->
     Read dataSource (smp_affinity_list other) = Some value ->
     is_Some (ParseCpuList value)) ->
  exists first,
    NicIrqsPinnedCheck.audit dataSource cpu bad_irqs nic_irqs = Some (inl first).
Proof.
  intros Hin Hnone. revert bad_irqs.
  induction nic_irqs as [|i rest IH]; intros bad_irqs Hparse;
    [by apply elem_of_nil in Hin|].
  cbn [NicIrqsPinnedCheck.audit]. fold (smp_affinity_list i).
  destruct (Read dataSource (smp_affinity_list i)) as [value|] eqn:Hread;
    [|by eexists].
  destruct (Hparse i value) as [set Hset]; [by left|done|].
  rewrite Hset. cbn [mbind option_bind].
  assert (Hrest : irq ∈ rest).
  { apply elem_of_cons in Hin as [->|Hin]; [congruence|done]. }
  assert (Hparse' : forall other v, other ∈ rest ->
            Read dataSource (smp_affinity_list other) = Some v ->
            is_Some (ParseCpuList v)).
  { intros other v Hother. apply Hparse. by right. }
  destruct (bool_decide (size set = 1%nat) && bool_decide (cpu ∈ set));
    by apply IH.
Qed.

(** The loop over the queues directory stops at the first receive queue
    whose RPS mask cannot be read. *)
Lemma scan_queues_unreadable (dataSource : IDataSource)
    (queue_directory queue_name : string) (any_bad : bool) (checked : Z)
    (entries : list (string * bool)) :
  (queue_name, true) ∈ entries ->
  Str.starts_with "rx-" queue_name = true ->
  Read dataSource
    (path_append (path_append queue_directory queue_name) "rps_cpus") = None ->
  exists path,
    RpsDisabledCheck.scan_queues dataSource queue_directory any_bad checked
      entries = inl path.
Proof.
  intros Hin Hrx Hnone. revert any_bad checked.
  induction entries as [|[name is_directory] rest IH]; intros any_bad checked;
    [by apply elem_of_nil in Hin|].
  cbn [RpsDisabledCheck.scan_queues].
  apply elem_of_cons in Hin as [[= <- <-]|Hin].
  - cbn [negb]. rewrite Hrx. unfold RpsDisabledCheck.all_zero_mask.
    rewrite Hnone. by eexists.
  - destruct is_directory; cbn [negb]; [|by apply IH].
    destruct (Str.starts_with "rx-" name); [|by apply IH].
    destruct (RpsDisabledCheck.all_zero_mask dataSource _); [by apply IH|].
    by eexists.
Qed.

(** C5 (as amended).  Every check of the catalog other than PreemptRTActive
    answers Unknown, with a reason, when the subject it requires (cpu or
    nic) is absent from the context or when evidence it needs cannot be
    read: a file or kernel parameter, the queues directory, the address
    list.  The same holds of what a check reads only once other evidence
    calls for it: the isolated list when the core has a sibling, the
    affinity list of an IRQ of the interface, the RPS mask of a receive
    queue.  PreemptRTActive, which has no subject, does not: with neither
    /sys/kernel/realtime nor the boot configuration readable it answers
    Pass if uname reports a PREEMPT_RT kernel and otherwise Fail with
    "No evidence of RT kernel". *)
Theorem Unknown_on_missing_evidence (h : Host) (checkContext : CheckContext)
    (dataSource : IDataSource) :
  (forall c, c ∈ catalog -> Kind c <> PreemptRTActive ->
     subject_absent (Kind c) checkContext
     \/ missing_evidence h (Kind c) checkContext dataSource ->
     exists why,
       Evaluate c h checkContext dataSource
       = answer (Kind c) (Name c) Unknown why /\ why <> "")
  /\ (missing_evidence h PreemptRTActive checkContext dataSource ->
      exists why,
        Evaluate PreemptRTActiveCheck.check h checkContext dataSource
        = answer PreemptRTActive "PREEMPT_RT active"
            (if uname_reports_rt h then Pass else Fail) why
        /\ (uname_reports_rt h = false -> why = "No evidence of RT kernel"))
  /\ (forall cpu_id siblings_value siblings sibling,
        cpu checkContext = Some cpu_id ->
        Read dataSource (thread_siblings_list cpu_id) = Some siblings_value ->
        ParseCpuList siblings_value = Some siblings ->
        sibling ∈ siblings -> sibling <> cpu_id ->
        unreadable h dataSource (File "/sys/devices/system/cpu/isolated") ->
        Evaluate SmtSiblingIsolatedCheck.check h checkContext dataSource
        = answer SmtSiblingIsolated "SMT sibling isolated/disabled" Unknown
            "cannot read isolated")
  /\ (forall cpu_id nic_name content irq,
        cpu checkContext = Some cpu_id ->
        nic checkContext = Some nic_name ->
        Read dataSource "/proc/interrupts" = Some content ->
        irq ∈ irqs_of_nic nic_name content ->
        unreadable h dataSource (File (smp_affinity_list irq)) ->
        (forall other value,
           other ∈ irqs_of_nic nic_name content ->
           Read dataSource (smp_affinity_list other) = Some value ->
           is_Some (ParseCpuList value)) ->
        exists why,
          Evaluate NicIrqsPinnedCheck.check h checkContext dataSource
          = answer NicIrqsPinned "NIC IRQs pinned to RT core" Unknown why
          /\ why <> "")
  /\ (forall nic_name queue_name,
        nic checkContext = Some nic_name ->
        (queue_name, true) ∈ host_entries h (queues_directory nic_name) ->
        Str.starts_with "rx-" queue_name = true ->
        unreadable h dataSource (File (rps_cpus nic_name queue_name)) ->
        exists why,
          Evaluate RpsDisabledCheck.check h checkContext dataSource
          = answer RpsDisabled "RPS disabled on NIC" Unknown why
          /\ why <> "").
Proof.
  split_and!.
  - intros c Hin Hkind [Habsent|Hmiss].
    + by apply Unknown_when_subject_absent.
    + by apply Unknown_when_evidence_missing.
  - apply PreemptRTActive_without_files.
  - intros cpu_id siblings_value siblings sibling Hcpu Hread Hparse Hin Hne
      Hisolated.
    cbn [unreadable] in Hisolated. unfold thread_siblings_list in Hread.
    cbn [Evaluate SmtSiblingIsolatedCheck.check].
    unfold SmtSiblingIsolatedCheck.Evaluate.
    rewrite Hcpu, Hread, Hparse. cbn [mbind option_bind].
    rewrite bool_decide_eq_false_2, Hisolated; [done|].
    intros Hempty. apply (not_elem_of_empty (C := gset Z) sibling).
    rewrite <- Hempty. apply elem_of_difference. split; [done|].
    by rewrite elem_of_singleton.
  - intros cpu_id nic_name content irq Hcpu Hnic Hread Hin Hnone Hparse.
    cbn [unreadable] in Hnone.
    cbn [Evaluate NicIrqsPinnedCheck.check].
    unfold NicIrqsPinnedCheck.Evaluate, NicIrqsPinnedCheck.Kind,
      NicIrqsPinnedCheck.Name.
    rewrite Hcpu, Hnic, Hread. fold (irqs_of_nic nic_name content).
    destruct (NicExists dataSource nic_name); cbn [negb]; [|unknown_answer].
    rewrite bool_decide_eq_false_2
      by (intros Hnil; rewrite Hnil in Hin; by apply elem_of_nil in Hin).
    destruct (audit_unreadable dataSource cpu_id irq [] _ Hin Hnone Hparse)
      as [first ->].
    cbn [mbind option_bind]. unknown_answer.
  - intros nic_name queue_name Hnic Hin Hrx Hnone.
    cbn [unreadable] in Hnone. unfold rps_cpus, queues_directory in *.
    cbn [Evaluate RpsDisabledCheck.check].
    unfold RpsDisabledCheck.Evaluate, RpsDisabledCheck.Kind,
      RpsDisabledCheck.Name.
    rewrite Hnic. cbv zeta.
    destruct (NicExists dataSource nic_name); cbn [negb]; [|unknown_answer].
    destruct (host_exists h _); cbn [negb]; [|unknown_answer].
    destruct (scan_queues_unreadable dataSource _ queue_name false 0 _
                Hin Hrx Hnone) as [path ->].
    unknown_answer.
Qed.

Lemma Unknown_on_missing_evidence_witness :
  exists why,
    Evaluate NohzFullCheck.check (stock_host ∅) (core 3) nothing_readable
    = answer NohzFull "nohz_full on RT core" Unknown why /\ why <> "".
Proof.
  apply (proj1 (Unknown_on_missing_evidence (stock_host ∅) (core 3)
                  nothing_readable) NohzFullCheck.check).
  - unfold catalog, system_checks, core_checks. cbn [app]. set_solver.
  - vm_compute. discriminate.
  - right. apply Exists_cons_hd. repeat constructor.
Defined.

(** C5 (as stated) fails for PreemptRTActive: it is in the catalog, none of
    its file evidence can be read, and it answers Fail. *)
Lemma PreemptRTActive_fails_without_evidence :
  PreemptRTActiveCheck.check ∈ catalog
  /\ missing_evidence (stock_host ∅) PreemptRTActive (core 3) nothing_readable
  /\ Evaluate PreemptRTActiveCheck.check (stock_host ∅) (core 3) nothing_readable
     = answer PreemptRTActive "PREEMPT_RT active" Fail "No evidence of RT kernel".
Proof.
  split; [|split].
  - unfold catalog, system_checks. cbn [app]. set_solver.
  - apply Exists_cons_hd. repeat constructor.
  - by vm_compute.
Qed.

(** The evidence that is read later, each kind missing in turn: the
    isolated list for a core with a sibling, the affinity list of an IRQ of
    the interface, the queues directory, the RPS mask of a receive queue,
    the address list. *)
Lemma Unknown_without_later_evidence :
  let interrupts :=
    "           CPU0       CPU1" +:+ newline
    +:+ " 41:          0          9   PCI-MSI  eth0-rx-0" in
  let with_queues :=
    {| host_uname := Some generic_uname;
       host_ifaddrs := None;
       host_exists := fun _ => true;
       host_entries := fun _ => [("rx-0", true); ("tx-0", true)];
       host_nprocessors_conf := 4;
       host_stod_to_string := fun _ => None;
       host_files := eth0_up;
       MaxFileSize := 4194304 |} in
  Evaluate SmtSiblingIsolatedCheck.check (stock_host ∅) (core 3)
    (StubDataSource {[ thread_siblings_list 3 := "3,7" ]} "")
  = answer SmtSiblingIsolated "SMT sibling isolated/disabled" Unknown
      "cannot read isolated"
  /\ Evaluate NicIrqsPinnedCheck.check (stock_host ∅) (core_with_nic 1 "eth0")
       (StubDataSource (<[ "/proc/interrupts" := interrupts ]> eth0_up) "")
     = answer NicIrqsPinned "NIC IRQs pinned to RT core" Unknown
         "cannot read smp_affinity_list for IRQ 41"
  /\ Evaluate RpsDisabledCheck.check (stock_host ∅) (core_with_nic 1 "eth0")
       (StubDataSource eth0_up "")
     = answer RpsDisabled "RPS disabled on NIC" Unknown "no queues dir"
  /\ Evaluate RpsDisabledCheck.check with_queues (core_with_nic 1 "eth0")
       (StubDataSource eth0_up "")
     = answer RpsDisabled "RPS disabled on NIC" Unknown
         "cannot read /sys/class/net/eth0/queues/rx-0/rps_cpus"
  /\ Evaluate NicQuietCheck.check with_queues (core_with_nic 1 "eth0")
       (StubDataSource eth0_up "")
     = answer NicQuiet "NIC is quiet" Unknown "addr=?, def4=no, def6=no".
Proof. by vm_compute. Qed.

(** Route tables are no evidence in that sense for NicQuiet: when they
    cannot be read, the check takes it that there is no default route. *)
Lemma NicQuiet_without_route_tables :
  let dataSource :=
    StubDataSource {[ "/sys/class/net/eth0/operstate" := "up" ]} "" in
  Read dataSource "/proc/net/route" = None
  /\ Read dataSource "/proc/net/ipv6_route" = None
  /\ Evaluate NicQuietCheck.check (stock_host ∅) (core_with_nic 3 "eth0")
       dataSource
     = answer NicQuiet "NIC is quiet" Pass "no IPs, no default route".
Proof. by vm_compute. Qed.

(** ** The report driver (claim C7) *)

(** A result carries the kind and the name of the check that produced
    it. *)
Lemma Evaluate_kind (h : Host) (checkContext : CheckContext)
    (dataSource : IDataSource) (c : ICheck) (result : CheckResult) :
  c ∈ catalog ->
  Evaluate c h checkContext dataSource = Some result ->
  kind result = Kind c /\ name result = Name c.
Proof.
  intros Hin. unfold catalog, system_checks, core_checks, nic_checks in Hin.
  cbn [app] in Hin.
  repeat (apply elem_of_cons in Hin as [->|Hin]);
    try (by apply elem_of_nil in Hin);
    unfold_checks;
    unfold PreemptRTActiveCheck.from_uname, CpuFrequencyCheck.from_cpuinfo,
      RcuNoCbsCheck.decide_on, answer;
    intros Heval; repeat case_match; simplify_option_eq; try done.
  all: repeat case_match; by simplify_eq.
Qed.

Lemma kinds_printed_app (a b : list Printed) :
  kinds_printed (a ++ b) = kinds_printed a ++ kinds_printed b.
Proof. unfold kinds_printed. by rewrite fmap_app, concat_app. Qed.

Lemma run_checks_kinds (h : Host) (checkContext : CheckContext)
    (dataSource : IDataSource) (checks : list ICheck) (printed : list Printed) :
  Forall (fun c => c ∈ catalog) checks ->
  run_checks h checkContext dataSource checks = Some printed ->
  kinds_printed printed = Kind <$> checks.
Proof.
  revert printed. induction checks as [|c checks IH]; intros printed Hall Hrun.
  - cbn in Hrun. by simplify_eq.
  - apply Forall_cons in Hall as [Hc Hall]. cbn [run_checks] in Hrun.
    destruct (Evaluate c h checkContext dataSource) as [result|] eqn:Heval;
      [|done].
    cbn [mbind option_bind] in Hrun.
    destruct (run_checks h checkContext dataSource checks) as [rest|]; [|done].
    cbn in Hrun. simplify_eq.
    destruct (Evaluate_kind _ _ _ _ _ Hc Heval) as [Hkind _].
    change (kinds_printed (Result result :: rest))
      with (kind result :: kinds_printed rest).
    rewrite Hkind, (IH rest); done.
Qed.

Lemma catalog_sections :
  Forall (fun c => c ∈ catalog) system_checks
  /\ Forall (fun c => c ∈ catalog) core_checks
  /\ Forall (fun c => c ∈ catalog) nic_checks
  /\ NicPresenceCheck.check ∈ catalog.
Proof.
  unfold catalog, system_checks, core_checks, nic_checks. cbn [app].
  repeat split; repeat (apply Forall_cons; split); try apply Forall_nil;
    set_solver.
Qed.

(** The kinds a report holds, section by section. *)
Lemma report_sections_kinds (h : Host) (checkContext : CheckContext)
    (dataSource : IDataSource) (printed : list Printed) :
  report_sections h checkContext dataSource = Some printed ->
  kinds_printed printed =
    (Kind <$> system_checks) ++ (Kind <$> core_checks)
    ++ match nic checkContext,
             Evaluate NicPresenceCheck.check h checkContext dataSource with
       | Some _, Some presence =>
           NicPresent :: (if bool_decide (status presence = Pass)
                          then Kind <$> nic_checks else [])
       | _, _ => []
       end.
Proof.
  destruct catalog_sections as (Hsys & Hcore & Hnic & Hpresence).
  unfold report_sections, nic_section. intros Hreport.
  destruct (run_checks h checkContext dataSource system_checks)
    as [system|] eqn:Hs; [|done].
  destruct (run_checks h checkContext dataSource core_checks)
    as [core_results|] eqn:Hc; [|done].
  cbn [mbind option_bind] in Hreport.
  apply run_checks_kinds in Hs; [|done]. apply run_checks_kinds in Hc; [|done].
  destruct (nic checkContext) as [nic_name|].
  - destruct (Evaluate NicPresenceCheck.check h checkContext dataSource)
      as [presence|] eqn:Hp; [|done].
    cbn [mbind option_bind] in Hreport.
    destruct (Evaluate_kind _ _ _ _ _ Hpresence Hp) as [Hkind _].
    case_bool_decide.
    + destruct (run_checks h checkContext dataSource nic_checks)
        as [dependents|] eqn:Hd; [|done].
      apply run_checks_kinds in Hd; [|done].
      cbn [mbind option_bind] in Hreport. simplify_eq.
      change (SectionHeader "System Checks" :: ?a) with ([SectionHeader "System Checks"] ++ a).
      rewrite !kinds_printed_app, Hs.
      change (kinds_printed (SectionHeader ?t :: ?a)) with (kinds_printed a).
      rewrite !kinds_printed_app, Hc.
      change (kinds_printed (SectionHeader ?t :: ?a)) with (kinds_printed a).
      change (kinds_printed (Result presence :: dependents))
        with (kind presence :: kinds_printed dependents).
      by rewrite Hkind, Hd.
    + cbn [mbind option_bind] in Hreport. simplify_eq.
      change (SectionHeader "System Checks" :: ?a) with ([SectionHeader "System Checks"] ++ a).
      rewrite !kinds_printed_app, Hs.
      change (kinds_printed (SectionHeader ?t :: ?a)) with (kinds_printed a).
      rewrite !kinds_printed_app, Hc.
      change (kinds_printed (SectionHeader ?t :: ?a)) with (kinds_printed a).
      change (kinds_printed [Result presence]) with [kind presence].
      by rewrite Hkind.
  - cbn [mbind option_bind] in Hreport. simplify_eq.
    change (SectionHeader "System Checks" :: ?a) with ([SectionHeader "System Checks"] ++ a).
    rewrite !kinds_printed_app, Hs.
    change (kinds_printed (SectionHeader ?t :: ?a)) with (kinds_printed a).
    rewrite !kinds_printed_app, Hc. done.
Qed.

(** In a report, the dependent NIC checks appear exactly when NicPresent has
    evaluated to Pass. *)
Lemma report_sections_gating (h : Host) (checkContext : CheckContext)
    (dataSource : IDataSource) (printed : list Printed) (k : CheckKind) :
  report_sections h checkContext dataSource = Some printed ->
  dependent_on_presence k = true ->
  reported k printed <->
  exists nic_name presence,
    nic checkContext = Some nic_name
    /\ Evaluate NicPresenceCheck.check h checkContext dataSource = Some presence
    /\ status presence = Pass.
Proof.
  intros Hreport Hk. unfold reported.
  rewrite (report_sections_kinds _ _ _ _ Hreport).
  destruct (nic checkContext) as [nic_name|];
    [destruct (Evaluate NicPresenceCheck.check h checkContext dataSource)
       as [presence|]; [case_bool_decide as Hpass|]|].
  - split; [by exists nic_name, presence|intros _].
    destruct k; try discriminate Hk;
      by refine (bool_decide_unpack _ _); vm_compute.
  - split; [|by intros (? & ? & ? & ? & ?); simplify_eq].
    intros Hin. destruct k; try discriminate Hk;
      by apply (bool_decide_pack _) in Hin; vm_compute in Hin.
  - split; [|by intros (? & ? & ? & ? & ?)].
    intros Hin. destruct k; try discriminate Hk;
      by apply (bool_decide_pack _) in Hin; vm_compute in Hin.
  - split; [|by intros (? & ? & ? & ? & ?)].
    intros Hin. destruct k; try discriminate Hk;
      by apply (bool_decide_pack _) in Hin; vm_compute in Hin.
Qed.

(** The loop over a list of checks yields a result for each when each
    check does. *)
Lemma run_checks_defined (h : Host) (checkContext : CheckContext)
    (dataSource : IDataSource) (checks : list ICheck) :
  Forall (fun c => is_Some (Evaluate c h checkContext dataSource)) checks ->
  is_Some (run_checks h checkContext dataSource checks).
Proof.
  induction 1 as [|c checks [result Hresult] _ [printed Hprinted]]; [by eexists|].
  cbn [run_checks]. rewrite Hresult, Hprinted. by eexists.
Qed.

(** A report is produced when every check of the catalog has a result. *)
Lemma report_sections_defined (h : Host) (checkContext : CheckContext)
    (dataSource : IDataSource) :
  all_defined h checkContext dataSource ->
  is_Some (report_sections h checkContext dataSource).
Proof.
  intros Hall. destruct catalog_sections as (Hsys & Hcore & Hnic & Hpresence).
  assert (Hrun : forall checks, Forall (fun c => c ∈ catalog) checks ->
            is_Some (run_checks h checkContext dataSource checks)).
  { intros checks Hin. apply run_checks_defined.
    eapply Forall_impl; [exact Hin|]. intros c Hc. by apply Hall. }
  unfold report_sections, nic_section.
  destruct (Hrun _ Hsys) as [system ->], (Hrun _ Hcore) as [core_results ->].
  cbn [mbind option_bind].
  destruct (nic checkContext) as [nic_name|]; [|by eexists].
  destruct (Hall _ Hpresence) as [presence ->]. cbn [mbind option_bind].
  case_bool_decide; [|by eexists].
  destruct (Hrun _ Hnic) as [dependents ->]. by eexists.
Qed.

(** C7.  With a NIC named in the context whose operstate, carrier and
    address cannot be read, NicPresent is Unknown, not Fail.  And in the
    report, a result of one of the dependent NIC checks (NicLinkUp,
    NicQuiet, NicIrqsPinned, RpsDisabled) is present exactly when there is
    a NIC in the context and NicPresent evaluated to Pass; otherwise the
    report has no result of that kind at all.  This holds of the sections
    of the report over any data source, and so of
    [ReportSystemConfiguration] on the files of the machine; and the
    report is produced whenever every check of the catalog has a result,
    so that with NicPresent at Pass the four dependent checks are
    evaluated and reported. *)
Theorem NIC_checks_gated_on_presence (h : Host) :
  (forall checkContext dataSource nic_name,
     nic checkContext = Some nic_name ->
     Forall (unreadable h dataSource) (nic_files nic_name) ->
     Evaluate NicPresenceCheck.check h checkContext dataSource
     = answer NicPresent "NIC interface present" Unknown "interface not found")
  /\ (forall checkContext dataSource printed k,
        report_sections h checkContext dataSource = Some printed ->
        dependent_on_presence k = true ->
        (reported k printed <->
         exists nic_name presence,
           nic checkContext = Some nic_name
           /\ Evaluate NicPresenceCheck.check h checkContext dataSource
              = Some presence
           /\ status presence = Pass))
  /\ (forall cpu_id nicName printed k,
        ReportSystemConfiguration h cpu_id nicName = Some printed ->
        dependent_on_presence k = true ->
        (reported k printed <->
         0 <= cpu_id < CpuCount h
         /\ nicName <> ""
         /\ exists presence,
              Evaluate NicPresenceCheck.check h
                {| cpu := Some cpu_id; nic := Some nicName |}
                (SystemFileSystemDataSource h) = Some presence
              /\ status presence = Pass))
  /\ (forall checkContext dataSource,
        all_defined h checkContext dataSource ->
        exists printed,
          report_sections h checkContext dataSource = Some printed
          /\ forall nic_name presence,
               nic checkContext = Some nic_name ->
               Evaluate NicPresenceCheck.check h checkContext dataSource
               = Some presence ->
               (status presence = Pass ->
                forall k, dependent_on_presence k = true -> reported k printed)
               /\ (status presence <> Pass ->
                   forall k, dependent_on_presence k = true ->
                             ~ reported k printed))
  /\ (forall cpu_id nicName,
        all_defined h (context_of cpu_id nicName) (SystemFileSystemDataSource h) ->
        exists printed,
          ReportSystemConfiguration h cpu_id nicName = Some printed).
Proof.
  split_and!.
  - intros checkContext dataSource nic_name Hnic Hfiles.
    cbn [Evaluate NicPresenceCheck.check]. unfold NicPresenceCheck.Evaluate.
    by rewrite Hnic, (NicExists_unreadable _ _ _ Hfiles).
  - intros checkContext dataSource printed k. apply report_sections_gating.
  - intros cpu_id nicName printed k Hreport Hk.
    unfold ReportSystemConfiguration in Hreport.
    destruct (Z.ltb_spec cpu_id 0) as [Hneg|Hpos]; cbn [orb] in Hreport.
    { injection Hreport as <-. split; [|lia].
      intros Hin. unfold reported in Hin. by apply elem_of_nil in Hin. }
    destruct (Z.leb_spec (CpuCount h) cpu_id) as [Hbig|Hsmall].
    { injection Hreport as <-. split; [|lia].
      intros Hin. unfold reported in Hin. by apply elem_of_nil in Hin. }
    rewrite (report_sections_gating _ _ _ _ _ Hreport Hk). cbn [nic].
    destruct nicName as [|c nicName]; cbn [Str.empty].
    + split; [by intros (? & ? & ? & _)|by intros (_ & ? & _)].
    + split.
      * intros (nic_name & presence & _ & Heval & Hpass).
        split; [lia|]. split; [done|]. by exists presence.
      * intros (_ & _ & presence & Heval & Hpass).
        by exists (String c nicName), presence.
  - intros checkContext dataSource Hall.
    destruct (report_sections_defined _ _ _ Hall) as [printed Hprinted].
    exists printed. split; [done|]. intros nic_name presence Hnic Heval. split.
    + intros Hpass k Hk.
      apply (report_sections_gating _ _ _ _ _ Hprinted Hk).
      by exists nic_name, presence.
    + intros Hpass k Hk Hin.
      apply (report_sections_gating _ _ _ _ _ Hprinted Hk) in Hin
        as (? & ? & ? & ? & ?).
      by simplify_eq.
  - intros cpu_id nicName Hall. unfold ReportSystemConfiguration.
    destruct ((cpu_id <? 0)%Z || (CpuCount h <=? cpu_id)%Z); [by eexists|].
    by apply report_sections_defined.
Qed.

Lemma NIC_checks_gated_on_presence_witness :
  exists printed,
    report_sections (stock_host eth0_up) (core_with_nic 3 "eth0")
      (StubDataSource eth0_up "") = Some printed
    /\ forall nic_name presence,
         nic (core_with_nic 3 "eth0") = Some nic_name ->
         Evaluate NicPresenceCheck.check (stock_host eth0_up)
           (core_with_nic 3 "eth0") (StubDataSource eth0_up "")
         = Some presence ->
         (status presence = Pass ->
          forall k, dependent_on_presence k = true -> reported k printed)
         /\ (status presence <> Pass ->
             forall k, dependent_on_presence k = true -> ~ reported k printed).
Proof.
  apply (proj1 (proj2 (proj2 (proj2
           (NIC_checks_gated_on_presence (stock_host eth0_up)))))
           (core_with_nic 3 "eth0") (StubDataSource eth0_up "")).
  intros c Hin. unfold catalog, system_checks, core_checks, nic_checks in Hin.
  cbn [app] in Hin.
  repeat (apply elem_of_cons in Hin as [->|Hin]);
    try (by apply elem_of_nil in Hin); vm_compute; by eexists.
Defined.

(** Scenario D: NicPresent is Unknown for "eth9", and the report, here of
    [ReportSystemConfiguration] itself on a machine without the files of
    that interface, ends with the NicPresent line. *)
Lemma NIC_absent_scenario_D :
  Evaluate NicPresenceCheck.check (stock_host ∅) scenario_D nothing_readable
  = answer NicPresent "NIC interface present" Unknown "interface not found"
  /\ kinds_printed <$> ReportSystemConfiguration (stock_host ∅) 3 "eth9"
     = Some [ PreemptRTActive; SwapDisabled; TimerMigration;
              RtThrottlingDisabled; ClocksourceStable;
              CoreIsolated; NohzFull; RcuNoCbs; CpuGovernor; CpuFrequency;
              IrqAffinityDefaultAvoidsRt; NoUnrelatedIrqsOnRt;
              SmtSiblingIsolated; DeepCStatesCapped; TurboBoostPolicy;
              NicPresent ].
Proof. by vm_compute. Qed.

(** The other way round: on a machine where "eth0" is up, NicPresent is
    Pass and the report of [ReportSystemConfiguration] goes on with the four
    dependent checks. *)
Lemma NIC_present_report :
  Evaluate NicPresenceCheck.check (stock_host eth0_up) (core_with_nic 3 "eth0")
    (SystemFileSystemDataSource (stock_host eth0_up))
  = answer NicPresent "NIC interface present" Pass "exists"
  /\ kinds_printed <$> ReportSystemConfiguration (stock_host eth0_up) 3 "eth0"
     = Some [ PreemptRTActive; SwapDisabled; TimerMigration;
              RtThrottlingDisabled; ClocksourceStable;
              CoreIsolated; NohzFull; RcuNoCbs; CpuGovernor; CpuFrequency;
              IrqAffinityDefaultAvoidsRt; NoUnrelatedIrqsOnRt;
              SmtSiblingIsolated; DeepCStatesCapped; TurboBoostPolicy;
              NicPresent; NicLinkUp; NicQuiet; NicIrqsPinned; RpsDisabled ].
Proof. by vm_compute. Qed.

(** ** Unrelated IRQs without a NIC (claim C10) *)

Lemma contains_empty (s : string) : Str.contains "" s = true.
Proof. unfold Str.contains, Str.find, Str.find_from. by destruct s. Qed.

Section NoNic.
Import NoUnrelatedIrqsOnRtCheck.

(** With the empty filter the column loop never reports a labeled row. *)
Lemma scan_columns_no_filter (irq_number : string) (cpu_column index value : Z)
    (columns : list (string * string)) :
  scan_columns "" irq_number cpu_column index value columns =
  if has_label columns then Quiet
  else
    let count :=
      if (cpu_column <=? index)%Z then value
      else match columns !! Z.to_nat (cpu_column - index - 1) with
           | Some (token, _) => default 0 (stoll token)
           | None => value
           end in
    if (count >? 0)%Z then Unlabeled (irq_number +:+ " (unlabeled)") else Quiet.
Proof.
  revert index value.
  induction columns as [|[token rest] more IH]; intros index value.
  - cbn. destruct (cpu_column <=? index)%Z; done.
  - cbn [scan_columns]. unfold has_label. cbn [forallb]. unfold numeric at 1.
    cbn [fst]. destruct (Str.all_of Str.isdigit token); cbn [andb negb].
    + rewrite IH. unfold has_label.
      destruct (forallb numeric more); cbn [negb]; [|done].
      destruct (Z.eqb_spec (index + 1) cpu_column) as [Heq|Hne].
      * rewrite (proj2 (Z.leb_le cpu_column (index + 1))) by lia.
        rewrite (proj2 (Z.leb_gt cpu_column index)) by lia.
        replace (Z.to_nat (cpu_column - index - 1)) with 0%nat by lia.
        cbn. by destruct (stoll token).
      * destruct (Z.leb_spec cpu_column index).
        { by rewrite (proj2 (Z.leb_le cpu_column (index + 1))) by lia. }
        rewrite (proj2 (Z.leb_gt cpu_column (index + 1))) by lia.
        replace (Z.to_nat (cpu_column - index - 1))
          with (S (Z.to_nat (cpu_column - (index + 1) - 1))) by lia.
        done.
    + by rewrite contains_empty, andb_false_r.
Qed.

Lemma scan_row_no_filter (cpu_column : Z) (line : string) :
  scan_row "" cpu_column line =
  match irq_row line with
  | Some (irq_number, columns) =>
      if has_label (Str.extractions columns) then Quiet
      else if (rt_count cpu_column (Str.extractions columns) >? 0)%Z
           then Unlabeled (irq_number +:+ " (unlabeled)") else Quiet
  | None => Quiet
  end.
Proof.
  unfold scan_row. destruct (irq_row line) as [[irq_number columns]|]; [|done].
  rewrite scan_columns_no_filter. destruct (has_label _); [done|].
  unfold rt_count. cbv zeta.
  destruct (Z.leb_spec cpu_column (-1)), (Z.ltb_spec cpu_column 0); try lia;
    [done|].
  by replace (cpu_column - -1 - 1) with cpu_column by lia.
Qed.

Lemma scan_line_invariant (nic_filter : string) (cpu_id : Z)
    (lines : list string) (st : table_state) (line : string) :
  line ∈ lines ->
  table_invariant nic_filter lines st ->
  table_invariant nic_filter lines (scan_line nic_filter cpu_id st line).
Proof.
  intros Hline [Hnone Hall]. unfold scan_line.
  destruct (Str.empty line); [done|].
  destruct (header_done st) eqn:Hdone; cbn [negb].
  - split; [done|]. cbn [findings cpu_column].
    apply Forall_app. split; [done|].
    apply Forall_singleton. by exists line.
  - destruct (Str.contains _ line).
    + split; [done|]. cbn [findings]. rewrite Hnone by done. constructor.
    + split; [by rewrite Hdone|done].
Qed.

Lemma scan_lines_invariant (nic_filter : string) (cpu_id : Z)
    (lines rest : list string) (st : table_state) :
  rest ⊆ lines ->
  table_invariant nic_filter lines st ->
  table_invariant nic_filter lines
    (fold_left (scan_line nic_filter cpu_id) rest st).
Proof.
  revert st. induction rest as [|line rest IH]; intros st Hsub Hinv; [done|].
  cbn [fold_left]. apply IH.
  - intros x Hx. apply Hsub. by right.
  - apply scan_line_invariant; [|done]. apply Hsub. by left.
Qed.

Lemma scan_table_invariant (nic_filter : string) (cpu_id : Z) (content : string) :
  table_invariant nic_filter (Str.getlines "010" content)
    (scan_table nic_filter cpu_id content).
Proof.
  apply scan_lines_invariant; [done|]. split; [done|constructor].
Qed.

Lemma offenders_nonempty (fs : list finding) :
  concat (offender_of <$> fs) <> [] ->
  exists f, f ∈ fs /\ f <> Quiet.
Proof.
  induction fs as [|f fs IH]; [done|]. intros Hne.
  destruct f.
  - destruct IH as (f & Hin & Hf); [done|]. exists f. split; [by right|done].
  - eexists. split; [by left|done].
  - eexists. split; [by left|done].
Qed.

(** C10.  With a cpu and no NIC in the context the label filter is the
    empty string.  Then a row of /proc/interrupts that has a label is never
    an offender, whatever its count on the column of the RT core; and when
    the check answers Fail, the table has a row without label whose count
    on that column is positive.  The answer is Fail, Pass with "clean", or
    Unknown with "could not map CPU column". *)
Theorem NoUnrelatedIrqs_without_nic (h : Host) (checkContext : CheckContext)
    (dataSource : IDataSource) (cpu_id : Z) (content : string) :
  cpu checkContext = Some cpu_id ->
  nic checkContext = None ->
  Read dataSource "/proc/interrupts" = Some content ->
  let mapped := cpu_column (scan_table "" cpu_id content) in
  (forall cpu_column line irq_number columns,
     irq_row line = Some (irq_number, columns) ->
     has_label (Str.extractions columns) = true ->
     scan_row "" cpu_column line = Quiet)
  /\ exists result,
       Evaluate h checkContext dataSource = Some result
       /\ (status result = Fail ->
           exists line irq_number columns,
             line ∈ Str.getlines "010" content
             /\ irq_row line = Some (irq_number, columns)
             /\ has_label (Str.extractions columns) = false
             /\ 0 < rt_count mapped (Str.extractions columns))
       /\ (status result = Pass -> reason result = "clean")
       /\ (status result = Unknown -> reason result = "could not map CPU column").
Proof.
  intros Hcpu Hnic Hread mapped. split.
  { intros col line irq_number columns Hrow Hlabel.
    by rewrite scan_row_no_filter, Hrow, Hlabel. }
  unfold Evaluate. rewrite Hcpu, Hnic, Hread. cbn [default from_option].
  fold mapped. destruct (mapped <? 0)%Z; [by eexists|].
  case_bool_decide as Hoff; [by eexists|].
  eexists. split; [reflexivity|]. split; [|done]. intros _.
  destruct (offenders_nonempty _ Hoff) as (f & Hin & Hf).
  destruct (scan_table_invariant "" cpu_id content) as [_ Hall].
  rewrite Forall_forall in Hall. destruct (Hall f Hin) as (line & Hline & ->).
  rewrite scan_row_no_filter in Hf.
  destruct (irq_row line) as [[irq_number columns]|] eqn:Hrow; [|done].
  exists line, irq_number, columns. split; [done|]. split; [done|].
  destruct (has_label (Str.extractions columns)); [done|]. split; [done|].
  fold mapped in Hf. destruct (Z.gtb_spec (rt_count mapped (Str.extractions columns)) 0);
    [lia|done].
Qed.
End NoNic.

Lemma NoUnrelatedIrqs_without_nic_witness :
  exists result,
    NoUnrelatedIrqsOnRtCheck.Evaluate (stock_host ∅) (core 3)
      (interrupts_of busy_usb_table) = Some result
    /\ status result = Pass /\ reason result = "clean".
Proof.
  destruct (NoUnrelatedIrqs_without_nic (stock_host ∅) (core 3)
              (interrupts_of busy_usb_table) 3 busy_usb_table
              eq_refl eq_refl eq_refl) as (_ & result & Heval & _ & Hpass & _).
  exists result. split; [exact Heval|].
  vm_compute in Heval. injection Heval as <-. split; reflexivity.
Defined.

(** The labeled IRQ 16 has fired 500 times on CPU3: without a NIC the
    check answers Pass, with a NIC named it lists the row; and a row without
    label is listed without a NIC too. *)
Lemma NoUnrelatedIrqs_examples :
  NoUnrelatedIrqsOnRtCheck.Evaluate (stock_host ∅) (core 3)
    (interrupts_of busy_usb_table)
  = answer NoUnrelatedIrqsOnRt "No unrelated IRQs on RT core" Pass "clean"
  /\ NoUnrelatedIrqsOnRtCheck.Evaluate (stock_host ∅) (core_with_nic 3 "eth0")
       (interrupts_of busy_usb_table)
     = answer NoUnrelatedIrqsOnRt "No unrelated IRQs on RT core" Fail
         "16 IO-APIC   16-fasteoi   ehci_hcd:usb1"
  /\ NoUnrelatedIrqsOnRtCheck.Evaluate (stock_host ∅) (core 3)
       (interrupts_of unlabeled_table)
     = answer NoUnrelatedIrqsOnRt "No unrelated IRQs on RT core" Fail
         "25 (unlabeled)".
Proof. by vm_compute. Qed.

(** ** The sender's deadline (claims C1 and C9) *)

Lemma u64_range (z : Z) : 0 <= u64 z < 2 ^ 64.
Proof. unfold u64. apply Z.mod_pos_bound. lia. Qed.

Lemma u64_small (z : Z) : 0 <= z < 2 ^ 64 -> u64 z = z.
Proof. unfold u64. apply Z.mod_small. Qed.

Lemma ToEpoch_range (time : timespec) : 0 <= ToEpoch time < 2 ^ 64.
Proof. apply u64_range. Qed.

(** The normalization into seconds and nanoseconds keeps the epoch. *)
Lemma ToEpoch_AddNanoToTimespec (time : timespec) (nanos : Z) :
  ToEpoch (AddNanoToTimespec time nanos) = u64 (ToEpoch time + nanos).
Proof.
  unfold AddNanoToTimespec. set (e := u64 (ToEpoch time + nanos)).
  unfold ToEpoch at 1. cbn [tv_sec tv_nsec].
  assert (e `div` NanoPerSec * NanoPerSec + e `mod` NanoPerSec = e) as ->.
  { pose proof (Z.div_mod e NanoPerSec). unfold NanoPerSec in *. lia. }
  apply u64_small, u64_range.
Qed.

Lemma ToEpoch_advance (sleep : Z) (st : SenderState) :
  ToEpoch (next (advance sleep st)) = u64 (ToEpoch (next st) + sleep).
Proof. apply ToEpoch_AddNanoToTimespec. Qed.

Lemma advance_trace_ok (sleep : Z) (st : SenderState) :
  0 <= sleep -> ToEpoch (next st) + sleep < 2 ^ 64 ->
  trace_ok st -> trace_ok (advance sleep st).
Proof.
  intros Hsleep Hfit [Hsorted Hhead].
  pose proof (ToEpoch_range (next st)).
  split; [|done]. cbn [deadlines advance].
  apply Sorted_cons; [done|].
  destruct (deadlines st) as [|d ds]; [constructor|].
  cbn in Hhead. injection Hhead as ->. constructor.
  rewrite ToEpoch_AddNanoToTimespec, u64_small; lia.
Qed.

(** What the catch-up loop has done when it ends: a number [k] of further
    periods were added, none of the deadlines passed over had reached
    [current], and the one it stops at has. *)
Lemma catch_up_sound (fuel : nat) (current sleep : Z) (st st' : SenderState) :
  0 < sleep -> current + sleep <= 2 ^ 64 ->
  catch_up fuel current sleep st = Some st' ->
  exists k,
    0 <= k
    /\ ToEpoch (next st') = ToEpoch (next st) + k * sleep
    /\ current <= ToEpoch (next st')
    /\ (forall j, 0 <= j < k -> ToEpoch (next st) + j * sleep < current)
    /\ index st' = index st /\ previous st' = previous st
    /\ SendData st' = SendData st
    /\ (trace_ok st -> trace_ok st').
Proof.
  intros Hsleep Hfit. revert st.
  induction fuel as [|fuel IH]; intros st Hrun; cbn [catch_up] in Hrun;
    destruct (Z.gtb_spec current (ToEpoch (next st))) as [Hbehind|Hreached];
    try discriminate Hrun.
  - injection Hrun as <-. exists 0. split_and!; try done; intros; lia.
  - pose proof (ToEpoch_range (next st)) as Hrange.
    destruct (IH _ Hrun) as (k & Hk & Hnext & Hcur & Hpassed & Hi & Hp & Hd & Ht).
    rewrite ToEpoch_advance, u64_small in Hnext, Hpassed by lia.
    exists (k + 1). split_and!; try done; try lia.
    + intros j Hj. destruct (Z.eq_dec j 0) as [->|]; [lia|].
      specialize (Hpassed (j - 1)). lia.
    + intros Hok. apply Ht, advance_trace_ok; [lia|lia|done].
  - injection Hrun as <-. exists 0. split_and!; try done; intros; lia.
Qed.

(** The catch-up loop ends: with a positive period, and as long as
    [current + sleep] fits 64 bits, [fuel] passes are enough when [fuel]
    periods cover the distance from [next] to [current]. *)
Lemma catch_up_terminates (fuel : nat) (current sleep : Z) (st : SenderState) :
  0 < sleep -> current + sleep <= 2 ^ 64 ->
  current - ToEpoch (next st) <= Z.of_nat fuel * sleep ->
  is_Some (catch_up fuel current sleep st).
Proof.
  intros Hsleep Hfit. revert st.
  induction fuel as [|fuel IH]; intros st Hfuel; cbn [catch_up];
    destruct (Z.gtb_spec current (ToEpoch (next st))) as [Hbehind|Hreached];
    try done; [lia|].
  pose proof (ToEpoch_range (next st)) as Hrange.
  apply IH. rewrite ToEpoch_advance, u64_small by lia. lia.
Qed.

(** C1 (as amended).  With a positive period, and as long as neither
    [next + send_sleep_ns] nor [current + send_sleep_ns] leaves the 64-bit
    range, advancing [next] once and then while [current > next] ends, and
    the deadline it yields is the first point [next + k * send_sleep_ns],
    [k >= 1], that is not before [current]. *)
Theorem next_deadline_first_grid_point (fuel : nat) (current sleep : Z)
    (st : SenderState) :
  0 < sleep ->
  ToEpoch (next st) + sleep < 2 ^ 64 ->
  current + sleep <= 2 ^ 64 ->
  current - ToEpoch (next st) <= (Z.of_nat fuel + 1) * sleep ->
  exists st' k,
    next_deadline fuel current sleep st = Some st'
    /\ 1 <= k
    /\ ToEpoch (next st') = ToEpoch (next st) + k * sleep
    /\ current <= ToEpoch (next st')
    /\ (forall j, 1 <= j < k -> ToEpoch (next st) + j * sleep < current).
Proof.
  intros Hsleep Hnext Hcurrent Hfuel. unfold next_deadline.
  pose proof (ToEpoch_range (next st)) as Hrange.
  assert (Hadv : ToEpoch (next (advance sleep st)) = ToEpoch (next st) + sleep).
  { rewrite ToEpoch_advance, u64_small; lia. }
  destruct (catch_up_terminates fuel current sleep (advance sleep st))
    as [st' Hrun]; [done|done|lia|].
  destruct (catch_up_sound _ _ _ _ _ Hsleep Hcurrent Hrun)
    as (k & Hk & Hto & Hreached & Hpassed & _).
  rewrite Hadv in Hto, Hpassed.
  exists st', (k + 1). split_and!; [done|lia|lia|done|].
  intros j Hj. specialize (Hpassed (j - 1)). lia.
Qed.

Lemma next_deadline_first_grid_point_witness :
  exists st' k,
    next_deadline 5 5300000 1000000
      (waiting_for {| tv_sec := 0; tv_nsec := 1000000 |}) = Some st'
    /\ 1 <= k
    /\ ToEpoch (next st') = 1000000 + k * 1000000
    /\ 5300000 <= ToEpoch (next st')
    /\ (forall j, 1 <= j < k -> 1000000 + j * 1000000 < 5300000).
Proof.
  apply (next_deadline_first_grid_point 5 5300000 1000000
           (waiting_for {| tv_sec := 0; tv_nsec := 1000000 |})).
  - lia.
  - vm_compute. reflexivity.
  - vm_compute. discriminate.
  - vm_compute. discriminate.
Defined.

(** The case of the specification: period 1 ms, deadline at 1 ms, wake at
    5.3 ms; the next deadline is 6 ms. *)
Lemma next_deadline_after_late_wake :
  ToEpoch <$> (next <$> next_deadline 5 5300000 1000000
                 (waiting_for {| tv_sec := 0; tv_nsec := 1000000 |}))
  = Some 6000000.
Proof. by vm_compute. Qed.

(** C1 (as stated) fails when the 64-bit epoch wraps around.  With a period
    of 18446744073709551 microseconds, a deadline at 1000 ns and a wake at
    1300 ns, the loop passes over 384 and stops at 2^64 - 232, which is not
    [1000 + k * period] for any [k >= 1]. *)
Lemma next_deadline_wraps :
  let period := 18446744073709551 * NanoPerMicro in
  ToEpoch <$> (next <$> next_deadline 5 1300 period
                 (waiting_for {| tv_sec := 0; tv_nsec := 1000 |}))
  = Some (2 ^ 64 - 232)
  /\ 0 < period < 2 ^ 64
  /\ forall k, 1 <= k -> 1000 + k * period <> 2 ^ 64 - 232.
Proof.
  split; [by vm_compute|]. split; [by vm_compute|].
  intros k Hk. unfold NanoPerMicro. lia.
Qed.

Lemma catch_up_fields (fuel : nat) (current sleep : Z) (st st' : SenderState) :
  catch_up fuel current sleep st = Some st' ->
  index st' = index st /\ previous st' = previous st
  /\ SendData st' = SendData st.
Proof.
  revert st. induction fuel as [|fuel IH]; intros st Hrun;
    cbn [catch_up] in Hrun;
    destruct (current >? ToEpoch (next st))%Z; try discriminate Hrun;
    try (by injection Hrun as <-).
  by destruct (IH _ Hrun) as (-> & -> & ->).
Qed.

(** What a pass of the loop leaves in the state, apart from the deadline. *)
Lemma iteration_fields (fuel : nat) (params : TestParameters) (tick : Tick)
    (st st' : SenderState) :
  iteration fuel params tick st = Some st' ->
  index st' = u64 (index st + 1)
  /\ previous st' = u64 (now tick)
  /\ SendData st' =
       if recordTime params (index st)
       then AddObservation (SendData st)
              (u64 (u64 (now tick) - previous st)) (index st)
       else SendData st.
Proof.
  unfold iteration, next_deadline. intros Hrun.
  destruct (catch_up _ _ _ _) as [st1|] eqn:Hcatch; [|done].
  cbn in Hrun. injection Hrun as <-. cbn [index previous SendData].
  by destruct (catch_up_fields _ _ _ _ _ Hcatch) as (-> & _ & ->).
Qed.

(** The deadline after a pass: later than before, in order in the trace,
    and at most one period past the later of the old deadline and the
    clock. *)
Lemma iteration_deadline (fuel : nat) (params : TestParameters) (tick : Tick)
    (st st' : SenderState) :
  0 < SendSleep params ->
  ToEpoch (next st) + SendSleep params < 2 ^ 64 ->
  u64 (now tick) + SendSleep params <= 2 ^ 64 ->
  iteration fuel params tick st = Some st' ->
  ToEpoch (next st) < ToEpoch (next st')
  /\ ToEpoch (next st')
     <= Z.max (ToEpoch (next st)) (u64 (now tick)) + SendSleep params
  /\ (trace_ok st -> trace_ok st').
Proof.
  intros Hsleep Hnext Hnow. unfold iteration, next_deadline. intros Hrun.
  destruct (catch_up _ _ _ _) as [st1|] eqn:Hcatch; [|done].
  cbn in Hrun. injection Hrun as <-. cbn [next].
  pose proof (ToEpoch_range (next st)) as Hrange.
  destruct (catch_up_sound _ _ _ _ _ Hsleep Hnow Hcatch)
    as (k & Hk & Hto & Hreached & Hpassed & _ & _ & _ & Htrace).
  rewrite ToEpoch_advance in Hto, Hpassed. cbn [next] in Hto, Hpassed.
  rewrite u64_small in Hto, Hpassed by lia.
  split_and!.
  - nia.
  - destruct (Z.eq_dec k 0) as [->|]; [lia|].
    specialize (Hpassed (k - 1)). nia.
  - intros [Hsorted Hhead]. destruct Htrace as [Hsorted' Hhead'].
    + by apply (advance_trace_ok _ {| next := next st |}); [lia|..].
    + done.
Qed.

(** ** First and last iteration (claim C2) *)

Lemma recorded_AddObservation (report : ReportData) (observation index : Z) :
  recorded (AddObservation report observation index) = recorded report ++ [index].
Proof. unfold recorded, AddObservation. by rewrite fmap_app. Qed.

Lemma seqZ_snoc (m n : Z) : 0 <= n -> seqZ m (n + 1) = seqZ m n ++ [m + n].
Proof. intros Hn. by rewrite seqZ_app by lia. Qed.

(** The indices recorded so far are those from 1 up to the one before the
    current index, the last index left out. *)
Lemma SenderLoop_recorded (fuel : nat) (params : TestParameters) (tester : bool)
    (ticks : list Tick) (st : SenderState) (ending : Ending) (st' : SenderState) :
  2 <= Iterations params < RunIndefinitely ->
  0 <= index st <= Iterations params ->
  recorded (SendData st)
  = seqZ 1 (Z.min (index st - 1) (Iterations params - 2)) ->
  SenderLoop fuel params tester ticks st = Some (ending, st') ->
  0 <= index st' <= Iterations params
  /\ recorded (SendData st')
     = seqZ 1 (Z.min (index st' - 1) (Iterations params - 2)).
Proof.
  intros HN. unfold RunIndefinitely in HN. revert st.
  induction ticks as [|tick rest IH]; intros st Hindex Hrec Hrun;
    cbn [SenderLoop] in Hrun.
  - destruct (_ || _); by simplify_eq.
  - destruct (running tick && _) eqn:Hgo; [|by simplify_eq].
    destruct (tester && negb (sent tick)); [by simplify_eq|].
    destruct (iteration fuel params tick st) as [st1|] eqn:Hit; [|done].
    cbn in Hrun. apply andb_prop in Hgo as [_ Hbounded].
    rewrite (proj2 (Z.eqb_neq _ _)) in Hbounded by (unfold RunIndefinitely; lia).
    cbn in Hbounded. apply Z.ltb_lt in Hbounded.
    destruct (iteration_fields _ _ _ _ _ Hit) as (Hi & _ & Hdata).
    rewrite u64_small in Hi by lia.
    apply (IH st1); [lia| |done].
    rewrite Hdata, Hi. unfold recordTime. rewrite (u64_small (_ - 1)) by lia.
    destruct (Z.eqb_spec (index st) 0) as [H0|H0]; cbn [negb andb].
    + rewrite Hrec, H0. by rewrite !seqZ_nil by lia.
    + destruct (Z.eqb_spec (index st) (Iterations params - 1)) as [HL|HL];
        cbn [negb].
      * rewrite Hrec. f_equal. lia.
      * rewrite recorded_AddObservation, Hrec.
        replace (Z.min (index st - 1) (Iterations params - 2))
          with (index st - 1) by lia.
        replace (Z.min (index st + 1 - 1) (Iterations params - 2))
          with (index st - 1 + 1) by lia.
        rewrite seqZ_snoc by lia. do 2 f_equal. lia.
Qed.

(** With enough fuel and ticks the loop runs its [Iterations] passes. *)
Lemma SenderLoop_completes (fuel : nat) (params : TestParameters) (tester : bool)
    (bound : Z) (ticks : list Tick) (st : SenderState) :
  Iterations params < RunIndefinitely ->
  0 < SendSleep params ->
  bound + SendSleep params <= 2 ^ 64 ->
  bound <= Z.of_nat fuel * SendSleep params ->
  0 <= index st <= Iterations params ->
  Iterations params - index st <= Z.of_nat (length ticks) ->
  Forall (fun tick => goes_on tester tick /\ u64 (now tick) <= bound)
    (take (Z.to_nat (Iterations params - index st)) ticks) ->
  exists st',
    SenderLoop fuel params tester ticks st = Some (LoopExit, st')
    /\ index st' = Iterations params.
Proof.
  intros HN Hsleep Hbound Hfuel. unfold RunIndefinitely in HN. revert st.
  induction ticks as [|tick rest IH]; intros st Hindex Hlen Hticks;
    cbn [SenderLoop].
  - cbn in Hlen.
    rewrite (proj2 (Z.eqb_neq _ _)) by (unfold RunIndefinitely; lia).
    rewrite (proj2 (Z.ltb_ge _ _)) by lia. exists st. split; [done|lia].
  - rewrite (proj2 (Z.eqb_neq _ _)) by (unfold RunIndefinitely; lia).
    destruct (Z.ltb_spec (index st) (Iterations params)) as [Hlt|Hge];
      cbn [orb]; [|rewrite andb_false_r; exists st; split; [done|lia]].
    replace (Z.to_nat (Iterations params - index st))
      with (S (Z.to_nat (Iterations params - (index st + 1)))) in Hticks by lia.
    cbn [take] in Hticks. apply Forall_cons in Hticks as [[[Hrun Hsent] Hnow] Hticks].
    rewrite Hrun. cbn [andb].
    assert (tester && negb (sent tick) = false) as ->.
    { destruct tester; [|done]. by rewrite Hsent. }
    assert (is_Some (iteration fuel params tick st)) as [st1 Hit].
    { unfold iteration, next_deadline.
      match goal with |- is_Some (mbind _ (catch_up ?f ?c ?s ?x)) =>
        destruct (catch_up_terminates f c s x) as [st1 Hcatch] end;
        [done|lia| |by rewrite Hcatch].
      pose proof (ToEpoch_range (next (advance (SendSleep params)
        {| index := index st; next := next st; previous := previous st;
           SendData := if recordTime params (index st)
                       then AddObservation (SendData st)
                              (u64 (u64 (now tick) - previous st)) (index st)
                       else SendData st;
           deadlines := deadlines st |}))).
      lia. }
    rewrite Hit. cbn [mbind option_bind].
    destruct (iteration_fields _ _ _ _ _ Hit) as (Hi & _ & _).
    rewrite u64_small in Hi by lia.
    apply IH; rewrite ?Hi; [lia| |done].
    cbn [length] in Hlen. lia.
Qed.

(** C2.  For a finite iteration count N >= 2: an iteration is recorded
    exactly when its index is in 1 .. N - 2; whenever the sender thread
    ends, the indices under which it has recorded observations are exactly
    1, 2, ... up to the index before the current one, N - 1 left out; after
    a complete run (index = N) they are 1 .. N - 2, so N - 2 observations
    were recorded.  And the run does complete when the thread is configured,
    the first N ticks let it go on, the period is positive and the clock
    stays within the bound the fuel covers. *)
Theorem first_and_last_excluded (fuel : nat) (params : TestParameters)
    (tester configured : bool) (start : timespec) (ticks : list Tick) :
  2 <= Iterations params < RunIndefinitely ->
  (forall i, 0 <= i < Iterations params ->
     recordTime params i = true <-> 1 <= i <= Iterations params - 2)
  /\ (forall ending st,
     SenderThread fuel params tester configured start ticks = Some (ending, st) ->
     recorded (SendData st)
     = seqZ 1 (Z.min (index st - 1) (Iterations params - 2))
     /\ (index st = Iterations params ->
         recorded (SendData st) = seqZ 1 (Iterations params - 2)
         /\ Z.of_nat (length (SendData st)) = Iterations params - 2))
  /\ (forall bound,
        configured = true ->
        0 < SendSleep params ->
        bound + SendSleep params <= 2 ^ 64 ->
        bound <= Z.of_nat fuel * SendSleep params ->
        Iterations params <= Z.of_nat (length ticks) ->
        Forall (fun tick => goes_on tester tick /\ u64 (now tick) <= bound)
          (take (Z.to_nat (Iterations params)) ticks) ->
        exists st,
          SenderThread fuel params tester configured start ticks
          = Some (LoopExit, st)
          /\ index st = Iterations params).
Proof.
  intros HN. split_and!.
  - intros i Hi. unfold recordTime, RunIndefinitely in *.
    rewrite u64_small by lia.
    destruct (Z.eqb_spec i 0), (Z.eqb_spec i (Iterations params - 1));
      cbn; split; intros; try done; lia.
  - intros ending st Hrun.
    assert (0 <= index st <= Iterations params
            /\ recorded (SendData st)
               = seqZ 1 (Z.min (index st - 1) (Iterations params - 2)))
      as [Hindex Hrec].
    { unfold SenderThread in Hrun. destruct configured.
      - apply SenderLoop_recorded in Hrun; [done|done|cbn; lia|].
        cbn. by rewrite seqZ_nil by lia.
      - injection Hrun as _ <-. cbn. split; [lia|]. by rewrite seqZ_nil by lia. }
    split; [done|]. intros Hdone. rewrite Hdone in Hrec.
    replace (Z.min (Iterations params - 1) (Iterations params - 2))
      with (Iterations params - 2) in Hrec by lia.
    split; [done|].
    assert (length (SendData st) = length (recorded (SendData st))) as ->.
    { unfold recorded. by rewrite length_fmap. }
    rewrite Hrec, length_seqZ. lia.
  - intros bound -> Hsleep Hbound Hfuel Hlen Hticks. unfold SenderThread.
    apply (SenderLoop_completes fuel params tester bound); cbn [index];
      try done; try lia.
    by rewrite Z.sub_0_r.
Qed.

Lemma first_and_last_excluded_witness :
  exists st,
    SenderThread 10 five_iterations false true boot five_wakes
    = Some (LoopExit, st)
    /\ recorded (SendData st) = seqZ 1 3
    /\ Z.of_nat (length (SendData st)) = 3.
Proof.
  pose proof (first_and_last_excluded 10 five_iterations false true boot
                five_wakes) as (_ & Hrecorded & Hcompletes).
  { split; by vm_compute. }
  destruct (Hcompletes 6000000) as (st & Hrun & Hindex).
  - reflexivity.
  - reflexivity.
  - vm_compute. discriminate.
  - vm_compute. discriminate.
  - vm_compute. discriminate.
  - repeat constructor; vm_compute; discriminate.
  - exists st. split; [exact Hrun|].
    exact (proj2 (Hrecorded LoopExit st Hrun) Hindex).
Defined.

(** The run of five iterations records under the indices 1, 2 and 3. *)
Lemma five_iterations_recorded :
  (fun '(_, st) => SendData st)
    <$> SenderThread 10 five_iterations false true boot five_wakes
  = Some [ (1000060, 1); (999970, 2); (1000270, 3) ].
Proof. by vm_compute. Qed.

(** ** The deadline over a run (claim C9) *)

(** While the later of the deadline and the clock bound, carried forward
    one period per remaining tick, stays within 64 bits, the trace of
    deadlines remains in order. *)
Lemma SenderLoop_trace (fuel : nat) (params : TestParameters) (tester : bool)
    (bound : Z) (ticks : list Tick) (st : SenderState) (ending : Ending)
    (st' : SenderState) :
  0 < SendSleep params ->
  Forall (fun tick => u64 (now tick) <= bound) ticks ->
  Z.max (ToEpoch (next st)) bound
    + Z.of_nat (length ticks) * SendSleep params < 2 ^ 64 ->
  trace_ok st ->
  SenderLoop fuel params tester ticks st = Some (ending, st') ->
  trace_ok st'.
Proof.
  intros Hsleep. revert st.
  induction ticks as [|tick rest IH]; intros st Hnow Hfit Hok Hrun;
    cbn [SenderLoop] in Hrun.
  - destruct (_ || _); by simplify_eq.
  - destruct (running tick && _); [|by simplify_eq].
    destruct (tester && negb (sent tick)); [by simplify_eq|].
    destruct (iteration fuel params tick st) as [st1|] eqn:Hit; [|done].
    cbn in Hrun. apply Forall_cons in Hnow as [Htick Hnow].
    cbn [length] in Hfit. rewrite Nat2Z.inj_succ, Z.mul_succ_l in Hfit.
    pose proof (Z.mul_nonneg_nonneg (Z.of_nat (length rest)) (SendSleep params)
                  ltac:(lia) ltac:(lia)) as Hrest.
    specialize (IH st1 Hnow).
    set (covered := Z.of_nat (length rest) * SendSleep params) in *.
    clearbody covered.
    destruct (iteration_deadline fuel params tick st st1 Hsleep)
      as (_ & Hle & Htrace); [lia|lia|done|].
    apply IH; [lia|by apply Htrace|done].
Qed.

(** C9 (as amended).  With a positive period, and as long as the epoch of
    [next] stays within 64 bits over the run (the start and every clock
    reading are at most [bound], and [bound] plus one period per tick is
    below 2^64), each update of [next] yields a deadline that is not before
    the previous one: whenever the thread ends, the trace of the deadlines
    is in order, latest first. *)
Theorem deadline_never_decreases (fuel : nat) (params : TestParameters)
    (tester configured : bool) (start : timespec) (ticks : list Tick)
    (bound : Z) (ending : Ending) (st : SenderState) :
  0 < SendSleep params ->
  ToEpoch start <= bound ->
  Forall (fun tick => u64 (now tick) <= bound) ticks ->
  bound + Z.of_nat (length ticks) * SendSleep params < 2 ^ 64 ->
  SenderThread fuel params tester configured start ticks = Some (ending, st) ->
  Sorted Z.ge (deadlines st)
  /\ head (deadlines st) = Some (ToEpoch (next st)).
Proof.
  intros Hsleep Hstart Hnow Hfit Hrun. unfold SenderThread in Hrun.
  assert (Hinit : trace_ok {| index := 0; next := start; previous := 0;
                              SendData := []; deadlines := [ToEpoch start] |}).
  { split; [|done]. repeat constructor. }
  destruct configured; [|by injection Hrun as _ <-].
  apply (SenderLoop_trace _ _ _ bound) in Hrun; try done.
  cbn [next]. lia.
Qed.

Lemma deadline_never_decreases_witness :
  Sorted Z.ge [ 7000000; 6000000; 5000000; 4000000; 3000000; 2000000;
                1000000; 0 ]
  /\ Some 7000000 = Some 7000000.
Proof.
  refine (deadline_never_decreases 10 {| Iterations := RunIndefinitely;
            SendSleep := 1000000 |} false true boot
            (ticks_at [ 150; 1000210; 2000180; 5300000; 6000150 ] ++ [stop])
            7000000 LoopExit
            {| index := 5; next := {| tv_sec := 0; tv_nsec := 7000000 |};
               previous := 6000150;
               SendData := [ (1000060, 1); (999970, 2); (3299820, 3);
                             (700150, 4) ];
               deadlines := [ 7000000; 6000000; 5000000; 4000000; 3000000;
                              2000000; 1000000; 0 ] |} _ _ _ _ _).
  - reflexivity.
  - vm_compute. discriminate.
  - repeat constructor; vm_compute; discriminate.
  - vm_compute. reflexivity.
  - vm_compute. reflexivity.
Defined.

(** C9 (as stated) fails when the 64-bit epoch wraps around: the period is
    positive, and yet a single update takes the deadline from 1 s back to
    616 ns before it; in a run that starts at 1000 ns the deadlines are
    1000, 384, 2^64 - 232, 2^64 - 848, 2^64 - 1464. *)
Lemma deadline_decreases_on_wrap :
  0 < SendSleep huge_period < 2 ^ 64
  /\ ToEpoch {| tv_sec := 1; tv_nsec := 0 |} = 1000000000
  /\ ToEpoch (AddNanoToTimespec {| tv_sec := 1; tv_nsec := 0 |}
                (SendSleep huge_period)) = 999999384
  /\ (fun '(_, st) => deadlines st)
       <$> SenderThread 10 huge_period false true
             {| tv_sec := 0; tv_nsec := 1000 |} (ticks_at [ 1300; 1400; 1500 ])
     = Some [ 18446744073709550152; 18446744073709550768;
              18446744073709551384; 384; 1000 ].
Proof. by vm_compute. Qed.

(** * Further properties *)

(** ** [Trim] *)

Lemma rev_onto_app (s acc : string) : Str.rev_onto s acc = Str.rev s +:+ acc.
Proof.
  unfold Str.rev. revert acc. induction s as [|c s IH]; intros acc; [done|].
  cbn [Str.rev_onto]. rewrite (IH (String c acc)), (IH (String c EmptyString)).
  by rewrite append_assoc.
Qed.

Lemma rev_cons (c : ascii) (s : string) :
  Str.rev (String c s) = Str.rev s +:+ String c EmptyString.
Proof. unfold Str.rev at 1. cbn [Str.rev_onto]. apply rev_onto_app. Qed.

Lemma append_empty_r (s : string) : s +:+ EmptyString = s.
Proof. induction s as [|c s IH]; [done|]. by rewrite append_cons, IH. Qed.

Lemma rev_app (a b : string) : Str.rev (a +:+ b) = Str.rev b +:+ Str.rev a.
Proof.
  induction a as [|c a IH].
  - by rewrite append_nil, append_empty_r.
  - by rewrite append_cons, !rev_cons, IH, append_assoc.
Qed.

Lemma rev_involutive (s : string) : Str.rev (Str.rev s) = s.
Proof.
  induction s as [|c s IH]; [done|].
  by rewrite rev_cons, rev_app, IH.
Qed.

Lemma all_of_app (p : ascii -> bool) (a b : string) :
  Str.all_of p (a +:+ b) = Str.all_of p a && Str.all_of p b.
Proof.
  induction a as [|c a IH]; [done|].
  rewrite append_cons. cbn [Str.all_of]. rewrite IH. by destruct (p c).
Qed.

Lemma all_of_rev (p : ascii -> bool) (s : string) :
  Str.all_of p (Str.rev s) = Str.all_of p s.
Proof.
  induction s as [|c s IH]; [done|].
  rewrite rev_cons, all_of_app, IH. cbn. by destruct (p c), (Str.all_of p s).
Qed.

(** [ltrim] takes a run of white space off the front and stops at the
    first other character. *)
Lemma ltrim_split (s : string) :
  exists l, s = l +:+ Str.ltrim s /\ Str.all_of Str.isspace l = true
            /\ (Str.ltrim s = "" \/ Str.begins_token (Str.ltrim s) = true).
Proof.
  induction s as [|c s (l & Hs & Hl & Hfront)].
  - exists "". by split_and!; [..|left].
  - cbn [Str.ltrim]. destruct (Str.isspace c) eqn:Hc.
    + exists (String c l). rewrite append_cons, <- Hs. cbn [Str.all_of].
      by rewrite Hc, Hl.
    + exists "". split_and!; [done..|]. right. cbn. by rewrite Hc.
Qed.

Lemma ltrim_fixed (s : string) :
  s = "" \/ Str.begins_token s = true -> Str.ltrim s = s.
Proof.
  destruct s as [|c s]; [done|]. intros [|H]; [done|].
  cbn in *. by destruct (Str.isspace c).
Qed.

Lemma rtrim_split (s : string) :
  exists r, s = Str.rtrim s +:+ r /\ Str.all_of Str.isspace r = true
            /\ (Str.rtrim s = "" \/ Str.begins_token (Str.rev (Str.rtrim s)) = true).
Proof.
  unfold Str.rtrim. destruct (ltrim_split (Str.rev s)) as (l & Hs & Hl & Hfront).
  exists (Str.rev l). split_and!.
  - by rewrite <- rev_app, <- Hs, rev_involutive.
  - by rewrite all_of_rev.
  - rewrite rev_involutive. destruct Hfront as [->|]; [by left|by right].
Qed.

Lemma begins_token_app (a b : string) :
  Str.begins_token a = true -> Str.begins_token (a +:+ b) = true.
Proof. by destruct a. Qed.

(** Taking trailing white space off a string that begins with another
    character leaves that beginning in place. *)
Lemma rtrim_keeps_front (s : string) :
  Str.begins_token s = true -> Str.begins_token (Str.rtrim s) = true.
Proof.
  intros Hs. destruct (rtrim_split s) as (r & Heq & Hr & _).
  destruct (Str.rtrim s) as [|c t] eqn:Ht; [|].
  - rewrite append_nil in Heq. subst r. destruct s as [|c s]; [done|].
    cbn in Hs, Hr. by destruct (Str.isspace c).
  - rewrite Heq in Hs. by rewrite append_cons in Hs.
Qed.

Lemma Trim_ends (s : string) :
  Trim s = ""
  \/ (Str.begins_token (Trim s) = true
      /\ Str.begins_token (Str.rev (Trim s)) = true).
Proof.
  unfold Trim. destruct (rtrim_split (Str.ltrim s)) as (r & Heq & Hr & [Hnil|Hback]);
    [by left|].
  destruct (ltrim_split s) as (l & _ & _ & [Hnil|Hfront]).
  - rewrite Hnil. by left.
  - right. split; [by apply rtrim_keeps_front|done].
Qed.

Lemma rtrim_fixed (s : string) :
  s = "" \/ Str.begins_token (Str.rev s) = true -> Str.rtrim s = s.
Proof.
  intros H. unfold Str.rtrim. rewrite ltrim_fixed, rev_involutive; [done|].
  destruct H as [->|]; [by left|by right].
Qed.

Lemma Trim_fixed (s : string) :
  s = "" \/ (Str.begins_token s = true /\ Str.begins_token (Str.rev s) = true) ->
  Trim s = s.
Proof.
  intros H. unfold Trim. rewrite ltrim_fixed, rtrim_fixed; [done|..];
    destruct H as [->|[? ?]]; [by left|by right|by left|by right].
Qed.

Lemma Trim_split (s : string) :
  exists l r, s = l +:+ Trim s +:+ r
              /\ Str.all_of Str.isspace l = true
              /\ Str.all_of Str.isspace r = true.
Proof.
  destruct (ltrim_split s) as (l & Hs & Hl & _).
  destruct (rtrim_split (Str.ltrim s)) as (r & Ht & Hr & _).
  exists l, r. unfold Trim. by rewrite <- Ht.
Qed.

(** X1.  [Trim] removes white space from both ends and nothing else: the
    argument is the result between two runs of white space, and the result
    neither begins nor ends with white space. *)
Theorem Trim_strips_both_ends (s : string) :
  (exists l r, s = l +:+ Trim s +:+ r
               /\ Str.all_of Str.isspace l = true
               /\ Str.all_of Str.isspace r = true)
  /\ (Trim s = ""
      \/ (Str.begins_token (Trim s) = true
          /\ Str.begins_token (Str.rev (Trim s)) = true)).
Proof. split; [apply Trim_split|apply Trim_ends]. Qed.

(** X2.  Trimming twice is trimming once. *)
Theorem Trim_idempotent (s : string) : Trim (Trim s) = Trim s.
Proof. apply Trim_fixed, Trim_ends. Qed.
(** ** [Slurp] *)

Lemma substr_0_nil (n : nat) : String.substring 0 n "" = "".
Proof. by destruct n. Qed.

Lemma substr_0_cons (n : nat) (c : ascii) (s : string) :
  String.substring 0 (S n) (String c s) = String c (String.substring 0 n s).
Proof. reflexivity. Qed.

Lemma substring_0_length (n : nat) (s : string) :
  String.length (String.substring 0 n s) = (n `min` String.length s)%nat.
Proof.
  revert n. induction s as [|c s IH]; intros [|n]; cbn; try done.
  by rewrite IH.
Qed.

Lemma substring_0_all (n : nat) (s : string) :
  (String.length s <= n)%nat -> String.substring 0 n s = s.
Proof.
  revert n. induction s as [|c s IH]; intros [|n] H; cbn in *; try done; try lia.
  rewrite IH; [done|lia].
Qed.

Lemma substring_0_twice (k b : nat) (s : string) :
  (k <= b)%nat ->
  String.substring 0 k (String.substring 0 b s) = String.substring 0 k s.
Proof.
  revert k b. induction s as [|c s IH]; intros k b H.
  - by rewrite !substr_0_nil.
  - destruct k as [|k]; [by destruct b|].
    destruct b as [|b]; [lia|]. rewrite !substr_0_cons. rewrite IH; [done|lia].
Qed.

Lemma substring_skip (n m : nat) (c : ascii) (s : string) :
  String.substring (S n) m (String c s) = String.substring n m s.
Proof. reflexivity. Qed.

(** A string is its first [n] characters followed by the rest. *)
Lemma substr_split (n : nat) (s : string) :
  s = Str.substr 0 n s +:+ Str.substr_from n s.
Proof.
  unfold Str.substr, Str.substr_from. revert n.
  induction s as [|c s IH]; intros [|n]; try done.
  - rewrite Nat.sub_0_r. cbn [String.substring]. rewrite append_nil.
    by rewrite <- (substring_all (String c s)) at 1.
  - rewrite substr_0_cons, append_cons. cbn [String.length].
    rewrite Nat.sub_succ, substring_skip. by rewrite <- IH.
Qed.

Lemma substr_from_length (n : nat) (s : string) :
  String.length (Str.substr_from n s) = (String.length s - n)%nat.
Proof.
  pose proof (f_equal String.length (substr_split n s)) as H.
  rewrite length_append in H. unfold Str.substr in H.
  rewrite substring_0_length in H. lia.
Qed.

Lemma substring_0_app (k : nat) (a b : string) :
  String.substring 0 (String.length a + k) (a +:+ b)
  = a +:+ String.substring 0 k b.
Proof.
  induction a as [|c a IH]; [done|].
  rewrite !append_cons. cbn [String.length Nat.add]. by rewrite substr_0_cons, IH.
Qed.

(** What the loop of [Slurp] returns from a state in which [total]
    characters have been taken: those, and of the rest as many as
    [max_bytes] still allows. *)
Lemma SlurpLoop_takes (buffer : nat) (max_bytes : N) :
  (0 < buffer)%nat -> (max_bytes + N.of_nat buffer < 2 ^ 64)%N ->
  forall fuel rest good out total,
    (String.length rest < fuel)%nat -> (total <= max_bytes)%N ->
    (good = false -> rest = "") ->
    SlurpLoop fuel buffer max_bytes rest good out total
    = Some (out +:+ Str.substr 0 (N.to_nat (max_bytes - total)) rest).
Proof.
  intros Hbuf Hmax. unfold Str.substr.
  induction fuel as [|fuel IH]; intros rest good out total Hfuel Htotal Hgood;
    [lia|].
  cbn [SlurpLoop]. destruct good; last first.
  { rewrite Hgood by done. by rewrite substr_0_nil, append_empty_r. }
  unfold Str.substr. rewrite substring_0_length.
  set (got := N.of_nat (buffer `min` String.length rest)).
  assert (Hgot : (got <= N.of_nat buffer)%N) by (unfold got; lia).
  destruct (got <=? 0)%N eqn:Hzero.
  { apply N.leb_le in Hzero. destruct rest as [|c rest].
    - by rewrite substr_0_nil, append_empty_r.
    - unfold got in Hzero. cbn [String.length] in Hzero. lia. }
  apply N.leb_gt in Hzero.
  assert (Hsum : size_t (total + got) = (total + got)%N).
  { unfold size_t. apply N.mod_small. lia. }
  rewrite Hsum. destruct (max_bytes <? total + got)%N eqn:Hover.
  - apply N.ltb_lt in Hover.
    assert (Hleft : size_t (2 ^ 64 + max_bytes - total) = (max_bytes - total)%N).
    { unfold size_t. replace (2 ^ 64 + max_bytes - total)%N
        with (max_bytes - total + 1 * 2 ^ 64)%N by lia.
      rewrite N.Div0.mod_add. apply N.mod_small. lia. }
    rewrite Hleft.
    assert (Hdone : size_t (total + (max_bytes - total)) = max_bytes).
    { unfold size_t. replace (total + (max_bytes - total))%N with max_bytes by lia.
      apply N.mod_small. lia. }
    rewrite Hdone, N.leb_refl. f_equal. f_equal.
    apply substring_0_twice. unfold got in Hover. lia.
  - apply N.ltb_ge in Hover. rewrite Hsum.
    rewrite (substring_0_all (N.to_nat got)) by (rewrite substring_0_length; lia).
    destruct (max_bytes <=? total + got)%N eqn:Hfull.
    + apply N.leb_le in Hfull. f_equal. f_equal.
      replace (N.to_nat (max_bytes - total)) with (buffer `min` String.length rest)%nat
        by (unfold got in *; lia).
      destruct (Nat.le_ge_cases buffer (String.length rest)).
      * by rewrite Nat.min_l.
      * rewrite Nat.min_r by done.
        by rewrite substring_all, substring_0_all.
    + apply N.leb_gt in Hfull. rewrite IH; first last.
      * intros Hshort. apply Nat.leb_gt in Hshort.
        pose proof (substr_from_length buffer rest) as Hlen.
        destruct (Str.substr_from buffer rest); [done|]. cbn in Hlen. lia.
      * lia.
      * rewrite substr_from_length. unfold got in Hzero. lia.
      * f_equal. rewrite append_assoc. f_equal.
        rewrite (substr_split buffer rest) at 3. unfold Str.substr.
        replace (N.to_nat (max_bytes - total))
          with (String.length (String.substring 0 buffer rest)
                + N.to_nat (max_bytes - (total + got)))%nat
          by (rewrite substring_0_length; unfold got in *; lia).
        by rewrite substring_0_app.
Qed.

(** X3.  [Slurp] returns the first [max_bytes] characters of the file, the whole
    of it when it is no longer than that, whatever the size of the read
    buffer; [nullopt] exactly when the file cannot be opened. *)
Theorem Slurp_reads_prefix (files : gmap string string) (path : string)
    (buffer : nat) (max_bytes : N) :
  (0 < buffer)%nat -> (max_bytes + N.of_nat buffer < 2 ^ 64)%N ->
  SlurpChunked files path buffer max_bytes
  = Some (Str.substr 0 (N.to_nat max_bytes) <$> files !! path)
  /\ Slurp files path max_bytes
     = Str.substr 0 (N.to_nat max_bytes) <$> files !! path.
Proof.
  intros Hbuf Hmax. unfold SlurpChunked, Slurp.
  destruct (files !! path) as [content|]; [|done]. cbn [fmap option_fmap option_map].
  rewrite (SlurpLoop_takes buffer max_bytes Hbuf Hmax); [|lia|lia|done].
  rewrite append_nil, N.sub_0_r. cbn. split; [done|].
  destruct (N.of_nat (String.length content) <=? max_bytes)%N eqn:Hfit; [|done].
  apply N.leb_le in Hfit. unfold Str.substr. rewrite substring_0_all; [done|lia].
Qed.

Lemma Slurp_reads_prefix_witness :
  SlurpChunked {[ "/proc/swaps" := "Filename Type Size" ]} "/proc/swaps" 4 10
  = Some (Str.substr 0 (N.to_nat 10)
            <$> ({[ "/proc/swaps" := "Filename Type Size" ]} : gmap string string)
                !! "/proc/swaps")
  /\ Slurp {[ "/proc/swaps" := "Filename Type Size" ]} "/proc/swaps" 10
     = Str.substr 0 (N.to_nat 10)
         <$> ({[ "/proc/swaps" := "Filename Type Size" ]} : gmap string string)
             !! "/proc/swaps".
Proof. apply Slurp_reads_prefix; [lia|by vm_compute]. Defined.
(** ** Numerals *)

Lemma pretty_N_go_app (x : N) (s r : string) :
  pretty_N_go x s +:+ r = pretty_N_go x (s +:+ r).
Proof.
  revert s. induction (N.lt_wf_0 x) as [x _ IH]; intros s.
  destruct (decide (x = 0)%N) as [->|Hx]; [by rewrite ?pretty_N_go_0|].
  rewrite (pretty_N_go_step x s), (pretty_N_go_step x (s +:+ r)) by lia.
  by rewrite IH by (apply N.div_lt; lia).
Qed.

Lemma pretty_N_char_digit (x : N) :
  (x < 10)%N ->
  Str.isdigit (pretty_N_char x) = true
  /\ Str.digit_value (pretty_N_char x) = Z.of_N x.
Proof.
  intros Hx.
  assert (x = 0 \/ x = 1 \/ x = 2 \/ x = 3 \/ x = 4 \/ x = 5 \/ x = 6
          \/ x = 7 \/ x = 8 \/ x = 9)%N as Hcases by lia.
  repeat (destruct Hcases as [->|Hcases]; [by vm_compute|]). by subst.
Qed.

(** Reading back the digits that [pretty] wrote. *)
Lemma digits_value_pretty_N_go (x : N) (s : string) :
  digits_value 0 (pretty_N_go x s) = digits_value (Z.of_N x) s.
Proof.
  revert s. induction (N.lt_wf_0 x) as [x _ IH]; intros s.
  destruct (decide (x = 0)%N) as [->|Hx]; [by rewrite ?pretty_N_go_0|].
  rewrite pretty_N_go_step by lia. rewrite IH by (apply N.div_lt; lia).
  destruct (pretty_N_char_digit (x `mod` 10)) as [Hdigit Hvalue].
  { apply N.mod_lt. lia. }
  cbn [digits_value]. rewrite Hdigit, Hvalue. f_equal.
  rewrite (N.div_mod x 10) at 3 by lia. lia.
Qed.

Lemma pretty_N_go_front (x : N) (s : string) :
  (0 < x)%N ->
  exists c t, pretty_N_go x s = String c t /\ Str.isdigit c = true.
Proof.
  revert s. induction (N.lt_wf_0 x) as [x _ IH]; intros s Hx.
  rewrite pretty_N_go_step by done.
  destruct (decide (x `div` 10 = 0)%N) as [->|Hq].
  - rewrite pretty_N_go_0. eexists _, _. split; [done|].
    apply pretty_N_char_digit, N.mod_lt. lia.
  - apply IH; [apply N.div_lt; lia|]. by apply N.neq_0_lt_0.
Qed.

Lemma pretty_N_go_all (p : ascii -> bool) (x : N) (s : string) :
  (forall d, (d < 10)%N -> p (pretty_N_char d) = true) ->
  Str.all_of p (pretty_N_go x s) = Str.all_of p s.
Proof.
  intros Hp. revert s. induction (N.lt_wf_0 x) as [x _ IH]; intros s.
  destruct (decide (x = 0)%N) as [->|Hx]; [by rewrite ?pretty_N_go_0|].
  rewrite pretty_N_go_step by lia. rewrite IH by (apply N.div_lt; lia).
  cbn [Str.all_of]. rewrite Hp; [done|]. apply N.mod_lt. lia.
Qed.

Lemma to_string_digits (n : Z) :
  0 <= n -> Str.all_of Str.isdigit (to_string n) = true.
Proof.
  intros Hn. destruct n as [|p|p]; [done| |lia].
  unfold to_string, pretty, pretty_Z, pretty, pretty_positive, pretty, pretty_N.
  rewrite decide_False by done.
  rewrite pretty_N_go_all; [done|]. intros d Hd. by apply pretty_N_char_digit.
Qed.

Lemma to_string_front (n : Z) :
  0 <= n -> exists c t, to_string n = String c t /\ Str.isdigit c = true.
Proof.
  intros Hn. destruct n as [|p|p]; [by eexists _, _| |lia].
  unfold to_string, pretty, pretty_Z, pretty, pretty_positive, pretty, pretty_N.
  rewrite decide_False by done. by apply pretty_N_go_front.
Qed.

Lemma isdigit_not_space (c : ascii) :
  Str.isdigit c = true -> Str.isspace c = false.
Proof.
  unfold Str.isdigit, Str.isspace. intros H.
  apply andb_prop in H as [H1 H2]. apply N.leb_le in H1.
  apply orb_false_intro.
  - apply N.eqb_neq. lia.
  - apply andb_false_intro2, N.leb_gt. lia.
Qed.

(** A text that does not go on with a digit. *)
Lemma digits_value_stop (acc : Z) (r : string) :
  r = "" \/ (exists c t, r = String c t /\ Str.isdigit c = false) ->
  digits_value acc r = acc.
Proof. intros [->|(c & t & -> & Hc)]; [done|]. cbn. by rewrite Hc. Qed.

Lemma scan_integer_unfold (s : string) :
  scan_integer s =
  match Str.ltrim s with
  | EmptyString => None
  | String c t =>
      if Ascii.eqb c "-" then
        match t with
        | String d _ => if Str.isdigit d then Some (- digits_value 0 t) else None
        | EmptyString => None
        end
      else if Ascii.eqb c "+" then
        match t with
        | String d _ => if Str.isdigit d then Some (digits_value 0 t) else None
        | EmptyString => None
        end
      else if Str.isdigit c then Some (digits_value 0 (String c t)) else None
  end.
Proof.
  unfold scan_integer. destruct (Str.ltrim s) as [|c t]; [done|].
  destruct c as [[] [] [] [] [] [] [] []]; reflexivity.
Qed.

Lemma ltrim_digit (c : ascii) (t : string) :
  Str.isdigit c = true -> Str.ltrim (String c t) = String c t.
Proof. intros Hc. cbn. by rewrite (isdigit_not_space c Hc). Qed.

Lemma isdigit_not_sign (c : ascii) :
  Str.isdigit c = true -> Ascii.eqb c "-" = false /\ Ascii.eqb c "+" = false.
Proof.
  intros Hc. split; apply Ascii.eqb_neq; intros ->; by vm_compute in Hc.
Qed.

(** [std::stoi] reads back what [std::to_string] wrote, also when other
    text follows the digits. *)
Lemma scan_integer_to_string (n : Z) (r : string) :
  0 <= n ->
  r = "" \/ (exists c t, r = String c t /\ Str.isdigit c = false) ->
  scan_integer (to_string n +:+ r) = Some n.
Proof.
  intros Hn Hr. rewrite scan_integer_unfold.
  destruct (to_string_front n Hn) as (c & t & Heq & Hc).
  assert (Hvalue : digits_value 0 (to_string n +:+ r) = n).
  { destruct n as [|p|p]; [|..|lia].
    - change (to_string 0) with "0". rewrite append_cons, append_nil.
      cbn [digits_value]. change (Str.isdigit "0") with true. cbv iota.
      by apply digits_value_stop.
    - unfold to_string, pretty, pretty_Z, pretty, pretty_positive, pretty, pretty_N.
      rewrite decide_False by done.
      rewrite pretty_N_go_app, append_nil, digits_value_pretty_N_go.
      by apply digits_value_stop. }
  rewrite Heq in Hvalue |- *. rewrite append_cons in Hvalue |- *.
  rewrite ltrim_digit by done.
  destruct (isdigit_not_sign c Hc) as [-> ->]. by rewrite Hc, Hvalue.
Qed.

Lemma stoi_to_string (n : Z) :
  0 <= n <= INT_MAX -> stoi (to_string n) = Some n.
Proof.
  intros Hn. unfold stoi.
  rewrite <- (append_empty_r (to_string n)).
  rewrite scan_integer_to_string; [|lia|by left]. cbn.
  rewrite bool_decide_eq_true_2; [done|]. unfold INT_MIN. lia.
Qed.

Lemma find_char_digits (c : ascii) (s : string) :
  Str.isdigit c = false -> Str.all_of Str.isdigit s = true ->
  Str.find_char c s = None.
Proof.
  intros Hc. induction s as [|x s IH]; [done|]. cbn [Str.all_of].
  intros [Hx Hs]%andb_prop. rewrite find_char_cons, IH by done.
  destruct (Ascii.eqb c x) eqn:E; [|done].
  apply Ascii.eqb_eq in E as ->. congruence.
Qed.

Lemma all_of_impl (p q : ascii -> bool) (s : string) :
  (forall c, p c = true -> q c = true) ->
  Str.all_of p s = true -> Str.all_of q s = true.
Proof.
  intros Hpq. induction s as [|c s IH]; [done|]. cbn.
  intros [Hc Hs]%andb_prop. by rewrite (Hpq c Hc), IH.
Qed.

(** A text without white space is left as it is by [Trim]. *)
Lemma Trim_solid (s : string) :
  Str.all_of (fun c => negb (Str.isspace c)) s = true -> Trim s = s.
Proof.
  intros Hs. apply Trim_fixed. destruct s as [|c s]; [by left|right].
  split.
  - cbn in *. by destruct (Str.isspace c).
  - rewrite <- all_of_rev in Hs.
    destruct (Str.rev (String c s)) as [|d t] eqn:E.
    + rewrite rev_cons in E. by destruct (Str.rev s).
    + cbn in *. by destruct (Str.isspace d).
Qed.

(** ** [std::getline] with a delimiter, and joined lists *)

Lemma getlines_app (d : ascii) (a b : string) :
  Str.find_char d a = None ->
  Str.getlines d (a +:+ String d b) = a :: Str.getlines d b.
Proof.
  induction a as [|x a IH]; intros Ha.
  - rewrite append_nil. cbn. by rewrite Ascii.eqb_refl.
  - rewrite find_char_cons in Ha. rewrite append_cons. cbn [Str.getlines].
    destruct (Ascii.eqb d x) eqn:E; [done|].
    rewrite Ascii.eqb_sym, E.
    destruct (Str.find_char d a); [done|]. by rewrite IH.
Qed.

Lemma getlines_single (d : ascii) (a : string) :
  a <> "" -> Str.find_char d a = None -> Str.getlines d a = [a].
Proof.
  induction a as [|x a IH]; intros Hne Ha; [done|].
  rewrite find_char_cons in Ha. cbn [Str.getlines].
  destruct (Ascii.eqb d x) eqn:E; [done|]. rewrite Ascii.eqb_sym, E.
  destruct a as [|y a]; [done|].
  destruct (Str.find_char d (String y a)); [done|]. by rewrite IH.
Qed.

Lemma join_fold (sep : string) (l : list string) (a b : string) :
  fold_left (fun acc y => acc +:+ sep +:+ y) l (a +:+ b)
  = a +:+ fold_left (fun acc y => acc +:+ sep +:+ y) l b.
Proof.
  revert b. induction l as [|y l IH]; intros b; [done|].
  cbn [fold_left]. by rewrite append_assoc, IH.
Qed.

Lemma join_cons (sep x y : string) (l : list string) :
  Str.join sep (x :: y :: l) = x +:+ sep +:+ Str.join sep (y :: l).
Proof.
  unfold Str.join. cbn [fold_left].
  by rewrite <- join_fold, <- !append_assoc, <- join_fold, !append_assoc.
Qed.
(** ** [ParseCpuList] on well-formed lists *)

Lemma ltrim_spaces (l s : string) :
  Str.all_of Str.isspace l = true -> Str.ltrim (l +:+ s) = Str.ltrim s.
Proof.
  induction l as [|c l IH]; [done|]. cbn [Str.all_of].
  intros [Hc Hl]%andb_prop. rewrite append_cons. cbn [Str.ltrim].
  by rewrite Hc, IH.
Qed.

Lemma ltrim_solid (s : string) :
  Str.all_of (fun c => negb (Str.isspace c)) s = true -> Str.ltrim s = s.
Proof. destruct s as [|c s]; [done|]. cbn. by destruct (Str.isspace c). Qed.

Lemma ltrim_solid_app (s r : string) :
  Str.all_of (fun c => negb (Str.isspace c)) s = true -> s <> "" ->
  Str.ltrim (s +:+ r) = s +:+ r.
Proof.
  destruct s as [|c s]; [done|]. rewrite append_cons. cbn.
  by destruct (Str.isspace c).
Qed.

(** White space around a text without white space: [Trim] gives the text. *)
Lemma Trim_padded (l s r : string) :
  Str.all_of Str.isspace l = true -> Str.all_of Str.isspace r = true ->
  Str.all_of (fun c => negb (Str.isspace c)) s = true ->
  Trim (l +:+ s +:+ r) = s.
Proof.
  intros Hl Hr Hs. unfold Trim. rewrite ltrim_spaces by done.
  unfold Str.rtrim. destruct s as [|c s].
  - rewrite append_nil. rewrite <- (append_empty_r r) at 1.
    rewrite ltrim_spaces by done. cbn [Str.ltrim].
    change (Str.rev "") with "". done.
  - rewrite ltrim_solid_app by done. rewrite rev_app.
    rewrite ltrim_spaces by (by rewrite all_of_rev).
    rewrite ltrim_solid by (by rewrite all_of_rev).
    apply rev_involutive.
Qed.

Lemma getlines_join (d : ascii) (pieces : list string) :
  Forall (fun piece => piece <> "" /\ Str.find_char d piece = None) pieces ->
  Str.getlines d (Str.join (String d "") pieces) = pieces.
Proof.
  induction pieces as [|x [|y l] IH]; intros Hall; [done|..].
  - apply Forall_inv in Hall as [? ?]. cbn [Str.join fold_left].
    by apply getlines_single.
  - apply Forall_cons in Hall as [[_ Hx] Hall].
    rewrite join_cons, append_cons, append_nil, getlines_app by done.
    by rewrite IH.
Qed.

Lemma all_of_join (p : ascii -> bool) (sep : string) (pieces : list string) :
  Str.all_of p sep = true -> Forall (fun piece => Str.all_of p piece = true) pieces ->
  Str.all_of p (Str.join sep pieces) = true.
Proof.
  intros Hsep. induction pieces as [|x [|y l] IH]; intros Hall; [done|..].
  - apply Forall_inv in Hall. by cbn [Str.join fold_left].
  - apply Forall_cons in Hall as [Hx Hall].
    rewrite join_cons, !all_of_app, Hx, Hsep, IH by done. done.
Qed.

Lemma render_item_text (item : cpu_item) :
  cpu_item_ok item ->
  render_item item <> ""
  /\ Str.find_char "," (render_item item) = None
  /\ Str.all_of (fun c => negb (Str.isspace c)) (render_item item) = true.
Proof.
  assert (Hsolid : forall n, 0 <= n ->
            Str.all_of (fun c => negb (Str.isspace c)) (to_string n) = true).
  { intros n Hn. eapply all_of_impl, to_string_digits; [|done].
    intros c Hc. by rewrite (isdigit_not_space c Hc). }
  destruct item as [n|first last]; cbn [render_item cpu_item_ok].
  - intros Hn. destruct (to_string_front n) as (c & t & Heq & _); [lia|].
    split_and!.
    + by rewrite Heq.
    + apply find_char_digits; [done|]. apply to_string_digits. lia.
    + apply Hsolid. lia.
  - intros [Hfirst Hlast].
    destruct (to_string_front first) as (c & t & Heq & _); [lia|].
    split_and!.
    + by rewrite Heq.
    + destruct (Str.find_char "," (to_string first +:+ "-" +:+ to_string last))
        as [n|] eqn:Hfind; [|done].
      apply find_char_split in Hfind as (a & b & Heq' & _ & _).
      apply (f_equal (Str.all_of (fun c => negb (Ascii.eqb c ",")))) in Heq'.
      rewrite !all_of_app in Heq'. cbn [Str.all_of] in Heq'.
      rewrite Ascii.eqb_refl, andb_false_r in Heq'.
      rewrite (all_of_impl Str.isdigit _ (to_string first)) in Heq';
        [|by intros [[] [] [] [] [] [] [] []]|apply to_string_digits; lia].
      rewrite (all_of_impl Str.isdigit _ (to_string last)) in Heq';
        [|by intros [[] [] [] [] [] [] [] []]|apply to_string_digits; lia].
      done.
    + rewrite !all_of_app, !Hsolid by lia. done.
Qed.

(** What the loop body of [ParseCpuList] makes of a well-formed token. *)
Lemma ParseCpuToken_rendered (out : gset Z) (item : cpu_item) :
  cpu_item_ok item ->
  exists set, ParseCpuToken out (render_item item) = Some set
              /\ forall z, z ∈ set <-> covers z item \/ z ∈ out.
Proof.
  intros Hok. unfold ParseCpuToken.
  destruct (render_item_text item Hok) as (Hne & _ & Hsolid).
  rewrite Trim_solid by done.
  destruct (render_item item) as [|c0 t0] eqn:Htext; [done|].
  cbn [Str.empty]. rewrite <- Htext. clear Hne Hsolid c0 t0 Htext.
  destruct item as [n|first last]; cbn [render_item cpu_item_ok covers] in *.
  - rewrite find_char_digits; [|done|apply to_string_digits; lia].
    rewrite stoi_to_string by done. eexists. split; [done|]. intros z.
    by rewrite elem_of_union, elem_of_singleton.
  - destruct Hok as [Hfirst Hlast].
    rewrite append_cons, append_nil.
    rewrite find_char_app
      by (apply find_char_digits; [done|apply to_string_digits; lia]).
    rewrite substr_prefix, substr_from_suffix.
    rewrite !stoi_to_string by (unfold INT_MAX in *; lia).
    assert (Hend : ((if (first >? last)%Z then first else last) =? INT_MAX)%Z = false).
    { apply Z.eqb_neq. destruct (first >? last)%Z; lia. }
    rewrite Hend. eexists. split; [done|]. intros z.
    rewrite elem_of_union, elem_of_list_to_set, elem_of_seqZ.
    pose proof (Zgt_cases first last) as Hgt.
    destruct (first >? last)%Z; intuition lia.
Qed.

Lemma ParseCpuTokens_rendered (out : gset Z) (items : list cpu_item) :
  Forall cpu_item_ok items ->
  exists set, ParseCpuTokens out (render_item <$> items) = Some set
              /\ forall z, z ∈ set <-> Exists (covers z) items \/ z ∈ out.
Proof.
  intros Hok. revert out. induction Hok as [|item items Hitem _ IH]; intros out.
  - exists out. split; [done|]. intros z. rewrite Exists_nil. tauto.
  - cbn [fmap list_fmap ParseCpuTokens].
    destruct (ParseCpuToken_rendered out item Hitem) as (set1 & -> & Hset1).
    cbn. destruct (IH set1) as (set & -> & Hset).
    exists set. split; [done|]. intros z.
    rewrite Hset, Hset1, Exists_cons. tauto.
Qed.

Lemma ParseCpuList_text (items : list cpu_item) (before after : string) :
  Forall cpu_item_ok items ->
  Str.all_of Str.isspace before = true ->
  Str.all_of Str.isspace after = true ->
  exists set,
    ParseCpuList (before +:+ render_cpu_list items +:+ after) = Some set
    /\ forall z, z ∈ set <-> Exists (covers z) items.
Proof.
  intros Hok Hbefore Hafter. unfold ParseCpuList, render_cpu_list.
  rewrite Trim_padded; [|done..|]; last first.
  { apply all_of_join; [done|]. apply Forall_fmap.
    eapply Forall_impl; [exact Hok|]. intros item Hitem.
    by apply render_item_text. }
  destruct items as [|item items].
  { exists ∅. split; [done|]. intros z. by rewrite Exists_nil, elem_of_empty. }
  rewrite getlines_join; last first.
  { apply Forall_fmap. eapply Forall_impl; [exact Hok|]. intros it Hit.
    destruct (render_item_text it Hit) as (? & ? & _). done. }
  destruct (Str.join "," (render_item <$> item :: items)) as [|c t] eqn:Hjoin.
  { exfalso. apply Forall_cons in Hok as [Hitem _].
    destruct (render_item_text item Hitem) as (Hne & _).
    cbn [fmap list_fmap] in Hjoin. destruct (render_item <$> items).
    - done.
    - rewrite join_cons in Hjoin. by destruct (render_item item). }
  cbn [Str.empty].
  destruct (ParseCpuTokens_rendered ∅ (item :: items) Hok) as (set & -> & Hset).
  exists set. split; [done|]. intros z. rewrite Hset, elem_of_empty. tauto.
Qed.

(** X4.  Parsing the text of a well-formed CPU list, single numbers and ranges
    in either order of their ends, separated by commas, with any white
    space before and after it (the newline that ends a sysfs file), gives
    exactly the CPUs the items cover. *)
Theorem ParseCpuList_rendered (items : list cpu_item) (before after : string) :
  Forall cpu_item_ok items ->
  Str.all_of Str.isspace before = true ->
  Str.all_of Str.isspace after = true ->
  exists set,
    ParseCpuList (before +:+ render_cpu_list items +:+ after) = Some set
    /\ forall z, z ∈ set <-> Exists (covers z) items.
Proof. apply ParseCpuList_text. Qed.


Lemma ParseCpuList_rendered_witness :
  exists set,
    ParseCpuList ("" +:+ render_cpu_list [Range 1 3; One 5; Range 8 7] +:+ newline)
    = Some set
    /\ forall z, z ∈ set <-> Exists (covers z) [Range 1 3; One 5; Range 8 7].
Proof.
  apply ParseCpuList_rendered; [|done..]. repeat constructor; by vm_compute.
Defined.
(** ** More on the kernel command line *)

Lemma tokens_cons (c : ascii) (s : string) :
  Str.tokens (String c s) =
  if Str.isspace c then Str.tokens s
  else if Str.begins_token s then
    match Str.tokens s with
    | tok :: more => String c tok :: more
    | [] => [String c ""]
    end
  else String c "" :: Str.tokens s.
Proof.
  unfold Str.tokens. cbn [Str.extractions].
  destruct (Str.isspace c); [done|].
  destruct (Str.begins_token s); [|done].
  by destruct (Str.extractions s) as [|[tok rest] more].
Qed.

Lemma tokens_begin (s : string) :
  Str.begins_token s = true -> Str.tokens s <> [].
Proof.
  destruct s as [|c s]; [done|]. cbn [Str.begins_token]. intros Hc.
  rewrite tokens_cons. destruct (Str.isspace c); [done|].
  destruct (Str.begins_token s); [|done]. by destruct (Str.tokens s).
Qed.

(** White space separates tokens: the tokens of two texts with a white
    space character between them are those of the first, then those of
    the second. *)
Lemma tokens_app (a b : string) (sp : ascii) :
  Str.isspace sp = true ->
  Str.tokens (a +:+ String sp b) = Str.tokens a ++ Str.tokens b.
Proof.
  intros Hsp. induction a as [|c a IH].
  - rewrite append_nil, tokens_cons. by rewrite Hsp.
  - rewrite append_cons, !tokens_cons, IH.
    destruct (Str.isspace c); [done|].
    destruct a as [|d a].
    + rewrite append_nil. cbn [Str.begins_token]. by rewrite Hsp.
    + rewrite append_cons. cbn [Str.begins_token].
      destruct (Str.isspace d) eqn:Hd; cbn [negb]; [done|].
      assert (Hne : Str.tokens (String d a) <> []).
      { apply tokens_begin. cbn. by rewrite Hd. }
      by destruct (Str.tokens (String d a)).
Qed.

Lemma tokens_solid (s : string) :
  s <> "" -> Str.all_of (fun c => negb (Str.isspace c)) s = true ->
  Str.tokens s = [s].
Proof.
  induction s as [|c s IH]; [done|]. intros _. cbn [Str.all_of].
  intros [Hc Hs]%andb_prop. rewrite tokens_cons.
  destruct (Str.isspace c); [done|].
  destruct s as [|d s]; [done|]. rewrite IH by done.
  cbn in *. by destruct (Str.isspace d).
Qed.

Lemma ScanCmdLine_app (key : string) (before after : list string) :
  ScanCmdLine key (before ++ after)
  = match ScanCmdLine key before with
    | Some value => Some value
    | None => ScanCmdLine key after
    end.
Proof.
  induction before as [|tok before IH]; [done|]. cbn [app ScanCmdLine].
  destruct (Str.find_char "=" tok).
  - by destruct (Str.eqb _ key).
  - by destruct (Str.eqb tok key).
Qed.

(** X5.  The first occurrence of a parameter on the command line is the one
    [GetCmdLineParam] returns: what follows a match is not looked at, and a
    later occurrence is found only if there is none before it. *)
Theorem GetCmdLineParam_first_wins (before after key : string) (sp : ascii) :
  Str.isspace sp = true ->
  GetCmdLineParam (Some (before +:+ String sp after)) key
  = match GetCmdLineParam (Some before) key with
    | Some value => Some value
    | None => GetCmdLineParam (Some after) key
    end.
Proof.
  intros Hsp. unfold GetCmdLineParam. by rewrite tokens_app, ScanCmdLine_app.
Qed.

Lemma GetCmdLineParam_first_wins_witness :
  GetCmdLineParam (Some ("isolcpus=2" +:+ String " " "isolcpus=3")) "isolcpus"
  = match GetCmdLineParam (Some "isolcpus=2") "isolcpus" with
    | Some value => Some value
    | None => GetCmdLineParam (Some "isolcpus=3") "isolcpus"
    end.
Proof. apply GetCmdLineParam_first_wins. reflexivity. Defined.

Lemma ScanCmdLine_key_with_equals (key : string) (toks : list string) :
  Str.find_char "=" key <> None -> ScanCmdLine key toks = None.
Proof.
  intros Hkey. induction toks as [|tok toks IH]; [done|]. cbn [ScanCmdLine].
  destruct (Str.find_char "=" tok) as [eq|] eqn:Htok.
  - apply find_char_split in Htok as (a & b & -> & <- & Ha).
    rewrite substr_prefix. unfold Str.eqb.
    rewrite bool_decide_eq_false_2; [done|]. by intros <-.
  - unfold Str.eqb. rewrite bool_decide_eq_false_2; [done|]. by intros <-.
Qed.

(** X6.  A key that contains [=] is never found, whatever the command line
    holds: the key is compared with the part of a token before its first
    [=]. *)
Theorem GetCmdLineParam_key_with_equals_never_found
    (cmd : option string) (key : string) :
  Str.contains "=" key = true -> GetCmdLineParam cmd key = None.
Proof.
  intros Hkey. destruct cmd as [text|]; [|done]. cbn [GetCmdLineParam].
  apply ScanCmdLine_key_with_equals. unfold Str.contains, Str.find_char in *.
  by destruct (Str.find "=" key).
Qed.

Lemma GetCmdLineParam_key_with_equals_never_found_witness :
  GetCmdLineParam (Some "quiet intel_idle.max_cstate=1") "intel_idle.max_cstate=1"
  = None.
Proof. apply GetCmdLineParam_key_with_equals_never_found. reflexivity. Defined.

Lemma GetCmdLineParam_found
    (before after key value : string) (sp1 sp2 : ascii) :
  Str.isspace sp1 = true -> Str.isspace sp2 = true ->
  Str.all_of (fun c => negb (Str.isspace c)) key = true ->
  Str.all_of (fun c => negb (Str.isspace c)) value = true ->
  Str.find_char "=" key = None ->
  GetCmdLineParam (Some before) key = None ->
  GetCmdLineParam
    (Some (before +:+ String sp1 (key +:+ "=" +:+ value +:+ String sp2 after))) key
  = Some value.
Proof.
  intros Hsp1 Hsp2 Hkey Hvalue Hnoeq Hbefore. unfold GetCmdLineParam in *.
  rewrite tokens_app, ScanCmdLine_app, Hbefore by done.
  replace (key +:+ "=" +:+ value +:+ String sp2 after)
    with ((key +:+ "=" +:+ value) +:+ String sp2 after)
    by (by rewrite !append_assoc).
  rewrite tokens_app, ScanCmdLine_app by done.
  rewrite tokens_solid; first last.
  { by rewrite !all_of_app, Hkey, Hvalue. }
  { destruct key; [|done]. by rewrite append_nil. }
  cbn [ScanCmdLine]. rewrite append_cons, append_nil.
  rewrite find_char_app, substr_prefix, substr_from_suffix by done.
  unfold Str.eqb. by rewrite bool_decide_eq_true_2.
Qed.

(** X7.  A parameter written as [key=value] between white space is found with
    its value, provided no token before it matches the key; key and value
    hold no white space and the key no [=]. *)
Theorem GetCmdLineParam_finds_parameter
    (before after key value : string) (sp1 sp2 : ascii) :
  Str.isspace sp1 = true -> Str.isspace sp2 = true ->
  Str.all_of (fun c => negb (Str.isspace c)) key = true ->
  Str.all_of (fun c => negb (Str.isspace c)) value = true ->
  Str.find_char "=" key = None ->
  GetCmdLineParam (Some before) key = None ->
  GetCmdLineParam
    (Some (before +:+ String sp1 (key +:+ "=" +:+ value +:+ String sp2 after))) key
  = Some value.
Proof. apply GetCmdLineParam_found. Qed.


Lemma GetCmdLineParam_finds_parameter_witness :
  GetCmdLineParam
    (Some ("ro quiet" +:+ String " " ("nohz_full" +:+ "=" +:+ "2-3"
                                      +:+ String "010" ""))) "nohz_full"
  = Some "2-3".
Proof. by apply GetCmdLineParam_finds_parameter. Defined.
(** ** Swap *)

Lemma Trim_blank (s : string) :
  Trim s = "" <-> Str.all_of Str.isspace s = true.
Proof.
  split.
  - intros Hnil. destruct (Trim_split s) as (l & r & Hs & Hl & Hr).
    rewrite Hnil, append_nil in Hs. rewrite Hs, all_of_app, Hl, Hr. done.
  - intros Hs. unfold Trim. rewrite <- (append_empty_r s), ltrim_spaces by done.
    done.
Qed.

Lemma active_entry_blank (line : string) :
  SwapDisabledCheck.active_entry line = [] <-> Str.all_of Str.isspace line = true.
Proof.
  rewrite <- Trim_blank. unfold SwapDisabledCheck.active_entry.
  destruct (Trim_ends line) as [Hnil|[Hfront _]]; [by rewrite Hnil|].
  destruct (Trim line) as [|c t] eqn:Htrim; [done|]. cbn [Str.empty].
  pose proof (tokens_begin _ Hfront) as Hne.
  destruct (Str.tokens (String c t)) as [|device more]; [done|].
  split; [|done]. by destruct more as [|? [|? [|? ?]]].
Qed.

Lemma active_entries_blank (lines : list string) :
  concat (SwapDisabledCheck.active_entry <$> lines) = []
  <-> forallb (Str.all_of Str.isspace) lines = true.
Proof.
  induction lines as [|line lines IH]; [done|].
  cbn [fmap list_fmap concat forallb]. rewrite andb_true_iff, <- IH.
  rewrite <- active_entry_blank. split.
  - by intros [? ?]%app_eq_nil.
  - by intros [-> ->].
Qed.

(** X8.  The swap check on a readable /proc/swaps: Unknown if the file is empty;
    otherwise Pass exactly when every line after the first, whatever the
    first line says, holds only white space, and Fail when some line after
    the first holds something else. *)
Theorem SwapDisabled_decision (h : Host) (checkContext : CheckContext)
    (dataSource : IDataSource) (content : string) :
  Read dataSource "/proc/swaps" = Some content ->
  exists why,
    SwapDisabledCheck.Evaluate h checkContext dataSource
    = answer SwapDisabled "Swap disabled"
        match Str.getlines "010" content with
        | [] => Unknown
        | _ :: lines =>
            if forallb (Str.all_of Str.isspace) lines then Pass else Fail
        end why.
Proof.
  intros Hread. unfold SwapDisabledCheck.Evaluate. rewrite Hread.
  destruct (Str.getlines "010" content) as [|header lines]; [by eexists|].
  pose proof (active_entries_blank lines) as Hblank.
  destruct (concat (SwapDisabledCheck.active_entry <$> lines)) as [|entry entries].
  - rewrite (proj1 Hblank) by done. by eexists.
  - destruct (forallb (Str.all_of Str.isspace) lines); [|by eexists].
    discriminate (proj2 Hblank eq_refl).
Qed.

Lemma SwapDisabled_decision_witness :
  exists why,
    SwapDisabledCheck.Evaluate (stock_host ∅) (core 3)
      (StubDataSource {[ "/proc/swaps" := "Filename Type Size Used Priority" ]} "")
    = answer SwapDisabled "Swap disabled"
        match Str.getlines "010" "Filename Type Size Used Priority" with
        | [] => Unknown
        | _ :: lines =>
            if forallb (Str.all_of Str.isspace) lines then Pass else Fail
        end why.
Proof. by apply SwapDisabled_decision. Defined.
(** ** SMT siblings *)

Lemma elem_of_ascending (s : gset Z) (z : Z) :
  z ∈ SmtSiblingIsolatedCheck.ascending s <-> z ∈ s.
Proof.
  unfold SmtSiblingIsolatedCheck.ascending.
  by rewrite merge_sort_Permutation, elem_of_elements.
Qed.

(** The first member of an ascending list that passes a test is the least
    one that passes it. *)
Lemma filter_head_least (p : Z -> bool) (l : list Z) (x : Z) (rest : list Z) :
  StronglySorted Z.le l -> List.filter p l = x :: rest ->
  x ∈ l /\ p x = true /\ forall y, y ∈ l -> p y = true -> x <= y.
Proof.
  induction 1 as [|a l Hsorted IH Hall]; [done|]. cbn [List.filter].
  destruct (p a) eqn:Ha.
  - intros [= -> _]. split_and!; [by left|done|].
    intros y [->|Hy]%elem_of_cons _; [done|].
    rewrite Forall_forall in Hall. by apply Hall.
  - intros Hfilter. destruct (IH Hfilter) as (Hin & Hpx & Hleast).
    split_and!; [by right|done|].
    intros y [->|Hy]%elem_of_cons Hpy; [congruence|by apply Hleast].
Qed.

Lemma filter_nil_none (p : Z -> bool) (l : list Z) :
  List.filter p l = [] -> forall y, y ∈ l -> p y = false.
Proof.
  induction l as [|a l IH]; [by intros _ y ?%elem_of_nil|]. cbn [List.filter].
  destruct (p a) eqn:Ha; [done|].
  intros Hfilter y [->|Hy]%elem_of_cons; [done|by apply IH].
Qed.

(** X9.  The SMT check once the sibling list of the core is read: Pass if the
    core has no sibling but itself; otherwise, with the isolated list
    read, Pass if every sibling is isolated, and else Fail, naming the
    lowest-numbered sibling that is not. *)
Theorem SmtSibling_decision (h : Host) (checkContext : CheckContext)
    (dataSource : IDataSource) (cpu_id : Z) (siblings_value : string)
    (parsed : gset Z) :
  cpu checkContext = Some cpu_id ->
  Read dataSource ("/sys/devices/system/cpu/cpu" +:+ to_string cpu_id
                   +:+ "/topology/thread_siblings_list") = Some siblings_value ->
  ParseCpuList siblings_value = Some parsed ->
  let siblings := parsed ∖ {[ cpu_id ]} in
  let result := SmtSiblingIsolatedCheck.Evaluate h checkContext dataSource in
  (siblings = ∅ ->
   result = answer SmtSiblingIsolated "SMT sibling isolated/disabled" Pass
              "no sibling")
  /\ (forall isolated_value isolated_set,
        siblings <> ∅ ->
        Read dataSource "/sys/devices/system/cpu/isolated" = Some isolated_value ->
        ParseCpuList isolated_value = Some isolated_set ->
        ((siblings ⊆ isolated_set) ->
         result = answer SmtSiblingIsolated "SMT sibling isolated/disabled" Pass
                    "siblings all isolated")
        /\ (~ (siblings ⊆ isolated_set) ->
            exists sibling,
              sibling ∈ siblings /\ (sibling ∉ isolated_set)
              /\ (forall other, other ∈ siblings -> other ∉ isolated_set ->
                                sibling <= other)
              /\ result = answer SmtSiblingIsolated "SMT sibling isolated/disabled"
                            Fail ("sibling CPU" +:+ to_string sibling
                                  +:+ " not isolated"))).
Proof.
  intros Hcpu Hread Hparsed siblings result. subst result.
  unfold SmtSiblingIsolatedCheck.Evaluate. rewrite Hcpu, Hread, Hparsed.
  cbn [mbind option_bind]. fold siblings. split.
  { intros Hnone. by rewrite bool_decide_eq_true_2. }
  intros isolated_value isolated_set Hsome Hisolated Hset.
  rewrite bool_decide_eq_false_2, Hisolated, Hset by done.
  cbn [mbind option_bind].
  destruct (List.filter _ (SmtSiblingIsolatedCheck.ascending siblings))
    as [|sibling rest] eqn:Hfilter.
  - split; [done|]. intros Hnot. destruct Hnot. intros z Hz.
    pose proof (filter_nil_none _ _ Hfilter z
                  (proj2 (elem_of_ascending _ _) Hz)) as Hfalse.
    apply bool_decide_eq_false in Hfalse. by apply dec_stable.
  - apply filter_head_least in Hfilter as (Hin & Hout & Hleast); last first.
    { apply StronglySorted_merge_sort; apply _. }
    apply elem_of_ascending in Hin. apply bool_decide_eq_true in Hout.
    split.
    + intros Hsub. destruct Hout. by apply Hsub.
    + intros _. exists sibling. split_and!; [done..| |done].
      intros other Hother Hnot. apply Hleast; [by apply elem_of_ascending|].
      by apply bool_decide_eq_true.
Qed.

Lemma SmtSibling_decision_witness :
  SmtSiblingIsolatedCheck.Evaluate (stock_host ∅) (core 3)
    (StubDataSource
       {[ "/sys/devices/system/cpu/cpu3/topology/thread_siblings_list" := "3" ]} "")
  = answer SmtSiblingIsolated "SMT sibling isolated/disabled" Pass "no sibling".
Proof.
  refine (proj1 (SmtSibling_decision (stock_host ∅) (core 3)
                   (StubDataSource
                      {[ "/sys/devices/system/cpu/cpu3/topology/thread_siblings_list"
                         := "3" ]} "")
                   3 "3" {[ 3 ]} _ _ _) _); by vm_compute.
Defined.
(** ** NIC IRQs pinned to the RT core *)

Lemma pinned_alone (set : gset Z) (cpu : Z) :
  bool_decide (size set = 1%nat) && bool_decide (cpu ∈ set)
  = bool_decide (set = {[ cpu ]}).
Proof.
  destruct (decide (set = {[ cpu ]})) as [->|Hne].
  - rewrite size_singleton.
    rewrite (bool_decide_eq_true_2 (1 = 1)%nat) by done.
    rewrite (bool_decide_eq_true_2 (cpu ∈ _)) by (by apply elem_of_singleton).
    by rewrite bool_decide_eq_true_2.
  - rewrite (bool_decide_eq_false_2 (set = _)) by done.
    apply andb_false_iff.
    destruct (decide (size set = 1%nat)) as [Hsize|]; [right|left];
      [|by apply bool_decide_eq_false].
    apply bool_decide_eq_false. intros Hin. destruct Hne.
    apply size_1_elem_of in Hsize as [x Hx]. apply leibniz_equiv in Hx. subst set.
    apply elem_of_singleton in Hin. by subst.
Qed.

Lemma audit_unpinned (dataSource : IDataSource) (cpu : Z)
    (affinity : Z -> gset Z) (nic_irqs bad_irqs : list Z) :
  (forall irq, irq ∈ nic_irqs ->
     exists value, Read dataSource (smp_affinity_list irq) = Some value
                   /\ ParseCpuList value = Some (affinity irq)) ->
  NicIrqsPinnedCheck.audit dataSource cpu bad_irqs nic_irqs
  = Some (inr (bad_irqs ++ unpinned affinity cpu nic_irqs)).
Proof.
  revert bad_irqs. induction nic_irqs as [|irq rest IH]; intros bad_irqs Hall.
  - cbn. by rewrite app_nil_r.
  - cbn [NicIrqsPinnedCheck.audit].
    destruct (Hall irq) as (value & Hread & Hparse); [by left|].
    unfold smp_affinity_list in Hread. rewrite Hread, Hparse.
    cbn [mbind option_bind]. rewrite pinned_alone.
    unfold unpinned. cbn [List.filter]. fold (unpinned affinity cpu rest).
    destruct (bool_decide (affinity irq = {[ cpu ]})); cbn [negb].
    + apply IH. intros i Hi. apply Hall. by right.
    + rewrite IH; [by rewrite <- app_assoc|].
      intros i Hi. apply Hall. by right.
Qed.

(** X10.  With every affinity list of the NIC's IRQs readable, the check passes
    exactly when each of them holds the RT core and nothing else; the
    failure lists, in the order of /proc/interrupts, the IRQs for which
    that is not so. *)
Theorem NicIrqsPinned_decision (h : Host) (checkContext : CheckContext)
    (dataSource : IDataSource) (cpu_id : Z) (nic_name content : string)
    (affinity : Z -> gset Z) :
  cpu checkContext = Some cpu_id ->
  nic checkContext = Some nic_name ->
  NicExists dataSource nic_name = true ->
  Read dataSource "/proc/interrupts" = Some content ->
  let nic_irqs :=
    concat (NicIrqsPinnedCheck.nic_irq nic_name <$> Str.getlines "010" content) in
  nic_irqs <> [] ->
  (forall irq, irq ∈ nic_irqs ->
     exists value, Read dataSource (smp_affinity_list irq) = Some value
                   /\ ParseCpuList value = Some (affinity irq)) ->
  NicIrqsPinnedCheck.Evaluate h checkContext dataSource
  = match unpinned affinity cpu_id nic_irqs with
    | [] => answer NicIrqsPinned "NIC IRQs pinned to RT core" Pass
              ("all pinned to CPU" +:+ to_string cpu_id)
    | bad_irqs =>
        answer NicIrqsPinned "NIC IRQs pinned to RT core" Fail
          ("not pinned: " +:+ Str.join "," (to_string <$> bad_irqs))
    end.
Proof.
  intros Hcpu Hnic Hexists Hread nic_irqs Hsome Haffinity.
  unfold NicIrqsPinnedCheck.Evaluate.
  rewrite Hcpu, Hnic, Hexists, Hread. cbn [negb]. fold nic_irqs.
  rewrite bool_decide_eq_false_2 by done.
  rewrite (audit_unpinned _ _ affinity) by done. cbn [mbind option_bind app].
  by destruct (unpinned affinity cpu_id nic_irqs).
Qed.

Lemma NicIrqsPinned_decision_witness :
  let dataSource :=
    StubDataSource
      {[ "/sys/class/net/eth0/operstate" := "up";
         "/proc/interrupts" := "           CPU0       CPU1" +:+ newline
                               +:+ " 41:          0          9   PCI-MSI  eth0-rx-0";
         "/proc/irq/41/smp_affinity_list" := "1" ]} "" in
  NicIrqsPinnedCheck.Evaluate (stock_host ∅) (core_with_nic 1 "eth0") dataSource
  = match unpinned (fun _ => {[ 1 ]}) 1
            (concat (NicIrqsPinnedCheck.nic_irq "eth0"
                       <$> Str.getlines "010"
                             ("           CPU0       CPU1" +:+ newline
                              +:+ " 41:          0          9   PCI-MSI  eth0-rx-0")))
    with
    | [] => answer NicIrqsPinned "NIC IRQs pinned to RT core" Pass
              ("all pinned to CPU" +:+ to_string 1)
    | bad_irqs =>
        answer NicIrqsPinned "NIC IRQs pinned to RT core" Fail
          ("not pinned: " +:+ Str.join "," (to_string <$> bad_irqs))
    end.
Proof.
  apply NicIrqsPinned_decision; [by vm_compute..|].
  intros irq Hirq. exists "1".
  vm_compute in Hirq. apply elem_of_cons in Hirq as [->|[]%elem_of_nil].
  by vm_compute.
Defined.
(** ** RPS and the order of the queues directory *)

Lemma scan_queues_order (dataSource : IDataSource) (queue_directory : string)
    (entries entries' : list (string * bool)) :
  entries ≡ₚ entries' ->
  forall any_bad checked,
    queues_status (RpsDisabledCheck.scan_queues dataSource queue_directory
                     any_bad checked entries)
    = queues_status (RpsDisabledCheck.scan_queues dataSource queue_directory
                       any_bad checked entries').
Proof.
  induction 1 as [|[name is_dir] l l' _ IH|[name1 dir1] [name2 dir2] l|l l' l'' _ IH1 _ IH2];
    intros any_bad checked.
  - done.
  - cbn [RpsDisabledCheck.scan_queues].
    destruct is_dir; cbn [negb]; [|apply IH].
    destruct (Str.starts_with "rx-" name); [|apply IH].
    destruct (RpsDisabledCheck.all_zero_mask _ _); [apply IH|done].
  - cbn [RpsDisabledCheck.scan_queues].
    destruct dir1, dir2; cbn [negb]; try done;
      destruct (Str.starts_with "rx-" name1), (Str.starts_with "rx-" name2);
      try done;
      repeat (destruct (RpsDisabledCheck.all_zero_mask _ _) as [[]|]);
      cbn [negb orb]; rewrite ?orb_true_r, ?orb_false_r; try done.
  - by rewrite IH1.
Qed.

Lemma RpsDisabled_status (h : Host) (checkContext : CheckContext)
    (dataSource : IDataSource) (nic_name : string) :
  nic checkContext = Some nic_name ->
  NicExists dataSource nic_name = true ->
  let queue_directory := path_append (path_append "/sys/class/net" nic_name) "queues" in
  host_exists h queue_directory = true ->
  status <$> RpsDisabledCheck.Evaluate h checkContext dataSource
  = Some (queues_status (RpsDisabledCheck.scan_queues dataSource queue_directory
                           false 0 (host_entries h queue_directory))).
Proof.
  intros Hnic Hexists queue_directory Hdir. unfold RpsDisabledCheck.Evaluate.
  rewrite Hnic, Hexists. cbn [negb]. fold queue_directory. rewrite Hdir. cbn [negb].
  destruct (RpsDisabledCheck.scan_queues _ _ _ _ _) as [path|[any_bad checked]];
    [done|].
  cbn [queues_status]. destruct (checked =? 0)%Z; [done|]. by destruct any_bad.
Qed.

(** X11.  The status of the RPS check does not depend on the order in which the
    directory iterator yields the entries of the queues directory. *)
Theorem RpsDisabled_order_independent (h h' : Host) (checkContext : CheckContext)
    (dataSource : IDataSource) :
  (forall path, host_exists h path = host_exists h' path) ->
  (forall directory, host_entries h directory ≡ₚ host_entries h' directory) ->
  status <$> RpsDisabledCheck.Evaluate h checkContext dataSource
  = status <$> RpsDisabledCheck.Evaluate h' checkContext dataSource.
Proof.
  intros Hexists Hentries.
  destruct (nic checkContext) as [nic_name|] eqn:Hnic; last first.
  { unfold RpsDisabledCheck.Evaluate. by rewrite Hnic. }
  destruct (NicExists dataSource nic_name) eqn:Hnic_exists; last first.
  { unfold RpsDisabledCheck.Evaluate. by rewrite Hnic, Hnic_exists. }
  destruct (host_exists h (path_append (path_append "/sys/class/net" nic_name)
                             "queues")) eqn:Hdir.
  - rewrite !(RpsDisabled_status _ _ _ nic_name) by (by rewrite <- ?Hexists).
    f_equal. by apply scan_queues_order.
  - unfold RpsDisabledCheck.Evaluate.
    by rewrite Hnic, Hnic_exists, <- Hexists, Hdir.
Qed.

Lemma RpsDisabled_order_independent_witness :
  let entries := [("rx-0", true); ("tx-0", true); ("rx-1", true)] in
  let host (listing : list (string * bool)) :=
    {| host_uname := None; host_ifaddrs := None;
       host_exists := fun _ => true;
       host_entries := fun _ => listing;
       host_nprocessors_conf := 4;
       host_stod_to_string := fun _ => None;
       host_files := ∅; MaxFileSize := 4096 |} in
  let dataSource :=
    StubDataSource
      {[ "/sys/class/net/eth0/address" := "00:11:22:33:44:55";
         "/sys/class/net/eth0/queues/rx-0/rps_cpus" := "0";
         "/sys/class/net/eth0/queues/rx-1/rps_cpus" := "f" ]} "" in
  status <$> RpsDisabledCheck.Evaluate (host entries) (core_with_nic 3 "eth0")
               dataSource
  = status <$> RpsDisabledCheck.Evaluate (host (reverse entries))
                 (core_with_nic 3 "eth0") dataSource.
Proof.
  intros entries host dataSource. apply RpsDisabled_order_independent.
  - done.
  - intros directory. unfold host. cbn [host_entries].
    by rewrite reverse_Permutation.
Defined.
(** ** The header of /proc/interrupts *)

Lemma tokens_spaces (ws s : string) :
  Str.all_of Str.isspace ws = true -> Str.tokens (ws +:+ s) = Str.tokens s.
Proof.
  induction ws as [|c ws IH]; [done|]. cbn [Str.all_of].
  intros [Hc Hws]%andb_prop. rewrite append_cons, tokens_cons, Hc. by apply IH.
Qed.

(** A word, then nothing or white space: the word is the first token. *)
Lemma tokens_word (ws word rest : string) :
  Str.all_of Str.isspace ws = true ->
  word <> "" -> Str.all_of (fun c => negb (Str.isspace c)) word = true ->
  Str.begins_token rest = false ->
  Str.tokens (ws +:+ word +:+ rest) = word :: Str.tokens rest.
Proof.
  intros Hws Hne Hword Hrest. rewrite tokens_spaces by done.
  destruct rest as [|sp rest].
  - rewrite append_empty_r. by apply tokens_solid.
  - cbn in Hrest. apply negb_false_iff in Hrest.
    rewrite tokens_app, tokens_solid, tokens_cons, Hrest by done. done.
Qed.

Lemma substr_from_app (p s : string) :
  Str.substr_from (String.length p) (p +:+ s) = s.
Proof.
  unfold Str.substr_from. rewrite length_append.
  replace (String.length p + String.length s - String.length p)%nat
    with (String.length s) by lia.
  induction p as [|c p IH]; [apply substring_all|].
  by rewrite append_cons.
Qed.

Lemma to_string_solid (n : Z) :
  0 <= n -> Str.all_of (fun c => negb (Str.isspace c)) (to_string n) = true.
Proof.
  intros Hn. eapply all_of_impl, to_string_digits; [|done].
  intros c Hc. by rewrite (isdigit_not_space c Hc).
Qed.

Lemma header_line_tokens (columns : list (string * Z)) :
  Forall (fun column => gap column.1 /\ 0 <= column.2) columns ->
  Str.tokens (header_line columns)
  = (fun column => CpuPrefix +:+ to_string column.2) <$> columns.
Proof.
  induction 1 as [|[ws id] columns [[Hne Hws] Hid] Hall IH]; [done|].
  cbn [header_line fold_right fmap list_fmap fst snd] in *.
  fold (header_line columns).
  replace (ws +:+ CpuPrefix +:+ to_string id +:+ header_line columns)
    with (ws +:+ (CpuPrefix +:+ to_string id) +:+ header_line columns)
    by (by rewrite !append_assoc).
  rewrite tokens_word, IH; [done|done|done|..].
  - rewrite all_of_app, to_string_solid by done. done.
  - destruct Hall as [|[ws' id'] columns' [[Hne' Hws'] _] _]; [done|].
    cbn [header_line fold_right fst]. destruct ws' as [|c ws']; [done|].
    rewrite append_cons. cbn in *. by destruct (Str.isspace c).
Qed.

Lemma header_column_label (cpu id index cpu_column : Z) :
  NoUnrelatedIrqsOnRtCheck.header_column cpu (index, cpu_column)
    (CpuPrefix +:+ to_string id)
  = (index + 1, if bool_decide (cpu = id) then index + 1 else cpu_column).
Proof.
  unfold NoUnrelatedIrqsOnRtCheck.header_column.
  rewrite starts_with_app, substr_from_app. unfold Str.eqb.
  destruct (decide (cpu = id)) as [->|Hne].
  - by rewrite !bool_decide_eq_true_2.
  - rewrite !bool_decide_eq_false_2; [done..|].
    intros Heq. by apply (inj pretty) in Heq.
Qed.

Lemma header_fold_absent (cpu : Z) (ids : list Z) (index cpu_column : Z) :
  cpu ∉ ids ->
  fold_left (NoUnrelatedIrqsOnRtCheck.header_column cpu)
    ((fun id => CpuPrefix +:+ to_string id) <$> ids) (index, cpu_column)
  = (index + Z.of_nat (length ids), cpu_column).
Proof.
  revert index. induction ids as [|id ids IH]; intros index Hnot.
  - cbn. f_equal. lia.
  - apply not_elem_of_cons in Hnot as [Hne Hnot].
    cbn [fmap list_fmap fold_left]. rewrite header_column_label.
    rewrite bool_decide_eq_false_2, IH by done. f_equal. cbn [length]. lia.
Qed.

Lemma header_fold_present (cpu : Z) (ids : list Z) (k : nat) (index cpu_column : Z) :
  NoDup ids -> ids !! k = Some cpu ->
  (fold_left (NoUnrelatedIrqsOnRtCheck.header_column cpu)
     ((fun id => CpuPrefix +:+ to_string id) <$> ids) (index, cpu_column)).2
  = index + 1 + Z.of_nat k.
Proof.
  revert k index cpu_column.
  induction ids as [|id ids IH]; intros k index cpu_column Hnodup Hk; [done|].
  apply NoDup_cons in Hnodup as [Hfresh Hnodup].
  cbn [fmap list_fmap fold_left]. rewrite header_column_label.
  destruct k as [|k]; cbn in Hk.
  - injection Hk as ->. rewrite bool_decide_eq_true_2, header_fold_absent by done.
    cbn. lia.
  - rewrite (IH k) by done. lia.
Qed.

(** X12.  The column mapped for the RT core is the position of its [CPU<N>]
    entry in the header, counted from 0, whatever the gaps and also when
    the CPU numbers of the header are not consecutive; if the header has no
    entry for the core, no column is mapped. *)
Theorem header_maps_cpu_column (cpu : Z) (columns : list (string * Z)) :
  Forall (fun column => gap column.1 /\ 0 <= column.2) columns ->
  NoDup columns.*2 ->
  let mapped :=
    NoUnrelatedIrqsOnRtCheck.header_cpu_column cpu (-1) (header_line columns) in
  (forall k, columns.*2 !! k = Some cpu -> mapped = Z.of_nat k)
  /\ (cpu ∉ columns.*2 -> mapped = -1).
Proof.
  intros Hcolumns Hnodup mapped. subst mapped.
  unfold NoUnrelatedIrqsOnRtCheck.header_cpu_column.
  rewrite header_line_tokens by done.
  replace ((fun column : string * Z => CpuPrefix +:+ to_string column.2) <$> columns)
    with ((fun id => CpuPrefix +:+ to_string id) <$> columns.*2)
    by (by rewrite <- list_fmap_compose).
  split.
  - intros k Hk. rewrite (header_fold_present cpu _ k) by done. lia.
  - intros Hnot. by rewrite header_fold_absent.
Qed.

Lemma header_maps_cpu_column_witness :
  (forall k, [("    ", 0); ("  ", 2); ("  ", 3)].*2 !! k = Some 3 ->
     NoUnrelatedIrqsOnRtCheck.header_cpu_column 3 (-1)
       (header_line [("    ", 0); ("  ", 2); ("  ", 3)]) = Z.of_nat k)
  /\ (3 ∉ [("    ", 0); ("  ", 2); ("  ", 3)].*2 ->
      NoUnrelatedIrqsOnRtCheck.header_cpu_column 3 (-1)
        (header_line [("    ", 0); ("  ", 2); ("  ", 3)]) = -1).
Proof.
  apply (header_maps_cpu_column 3 [("    ", 0); ("  ", 2); ("  ", 3)]).
  - repeat constructor; by vm_compute.
  - apply (bool_decide_unpack _). by vm_compute.
Defined.
(** ** Rows of /proc/interrupts *)

Section Rows.
Import NoUnrelatedIrqsOnRtCheck.

Lemma scan_columns_closed (nic_filter irq_number : string)
    (cpu_column index value : Z) (columns : list (string * string)) :
  scan_columns nic_filter irq_number cpu_column index value columns =
  let count :=
    if (cpu_column <=? index)%Z then value
    else count_at value (Z.to_nat (cpu_column - index - 1)) columns in
  match row_label columns with
  | Some label =>
      if (0 <? count)%Z && negb (Str.contains nic_filter label)
      then Labeled (irq_number +:+ " " +:+ Trim label) else Quiet
  | None =>
      if (0 <? count)%Z then Unlabeled (irq_number +:+ " (unlabeled)") else Quiet
  end.
Proof.
  revert index value.
  induction columns as [|[token rest] more IH]; intros index value.
  - cbn [scan_columns row_label count_at]. cbv zeta. rewrite Z.gtb_ltb.
    by destruct (cpu_column <=? index)%Z.
  - cbn [scan_columns row_label count_at].
    destruct (Str.all_of Str.isdigit token).
    + rewrite IH. cbv zeta.
      destruct (Z.eqb_spec (index + 1) cpu_column) as [Heq|Hne].
      * rewrite (proj2 (Z.leb_le cpu_column (index + 1))) by lia.
        rewrite (proj2 (Z.leb_gt cpu_column index)) by lia.
        replace (Z.to_nat (cpu_column - index - 1)) with 0%nat by lia.
        by destruct (stoll token).
      * destruct (Z.leb_spec cpu_column index).
        { by rewrite (proj2 (Z.leb_le cpu_column (index + 1))) by lia. }
        rewrite (proj2 (Z.leb_gt cpu_column (index + 1))) by lia.
        replace (Z.to_nat (cpu_column - index - 1))
          with (S (Z.to_nat (cpu_column - (index + 1) - 1))) by lia.
        done.
    + cbv zeta. rewrite Z.gtb_ltb. by destruct (cpu_column <=? index)%Z.
Qed.

(** X13.  What a row of the table contributes: with a positive count on the
    column of the RT core, a row without label is reported as unlabeled
    and a row with a label is reported unless the label contains the NIC
    filter; a row whose count there is not positive, or that has no count
    there before its label, is not reported. *)
Theorem row_finding (nic_filter : string) (cpu_column : Z)
    (line irq_number columns : string) :
  irq_row line = Some (irq_number, columns) ->
  scan_row nic_filter cpu_column line =
  let count := row_count cpu_column (Str.extractions columns) in
  match row_label (Str.extractions columns) with
  | Some label =>
      if (0 <? count)%Z && negb (Str.contains nic_filter label)
      then Labeled (irq_number +:+ " " +:+ Trim label) else Quiet
  | None =>
      if (0 <? count)%Z then Unlabeled (irq_number +:+ " (unlabeled)") else Quiet
  end.
Proof.
  intros Hrow. unfold scan_row. rewrite Hrow, scan_columns_closed.
  unfold row_count. cbv zeta.
  destruct (Z.ltb_spec cpu_column 0), (Z.leb_spec cpu_column (-1)); try lia;
    [done|].
  by replace (cpu_column - -1 - 1) with cpu_column by lia.
Qed.

Lemma scan_before_header (nic_filter : string) (cpu : Z) (st : table_state)
    (lines : list string) :
  header_done st = false ->
  Forall (fun line => Str.contains (CpuPrefix +:+ "0") line = false) lines ->
  fold_left (scan_line nic_filter cpu) lines st = st.
Proof.
  intros Hdone. induction 1 as [|line lines Hline _ IH]; [done|].
  cbn [fold_left]. unfold scan_line at 2. rewrite Hdone, Hline. cbn [negb].
  by destruct (Str.empty line).
Qed.

Lemma scan_after_header (nic_filter : string) (cpu column : Z)
    (found : list finding) (lines : list string) :
  fold_left (scan_line nic_filter cpu) lines
    {| cpu_column := column; header_done := true; findings := found |}
  = {| cpu_column := column; header_done := true;
       findings := found ++ (scan_row nic_filter column
                             <$> List.filter (fun line => negb (Str.empty line)) lines) |}.
Proof.
  revert found. induction lines as [|line lines IH]; intros found.
  - cbn. by rewrite app_nil_r.
  - cbn [fold_left List.filter]. unfold scan_line at 2.
    destruct (Str.empty line); cbn [negb header_done cpu_column findings].
    + apply IH.
    + rewrite IH. cbn [fmap list_fmap]. by rewrite <- app_assoc.
Qed.

Lemma offenders_of_rows (nic_filter : string) (column : Z) (lines : list string) :
  concat (offender_of <$> (scan_row nic_filter column
                           <$> List.filter (fun line => negb (Str.empty line)) lines))
  = concat ((fun line => offender_of (scan_row nic_filter column line)) <$> lines).
Proof.
  induction lines as [|line lines IH]; [done|]. cbn [List.filter fmap list_fmap concat].
  destruct line as [|c line]; cbn [Str.empty negb].
  - by rewrite IH.
  - cbn [fmap list_fmap concat]. by rewrite IH.
Qed.

Lemma scan_header (nic_filter : string) (cpu : Z) (header : string) :
  Str.contains (CpuPrefix +:+ "0") header = true ->
  scan_line nic_filter cpu
    {| cpu_column := -1; header_done := false; findings := [] |} header
  = {| cpu_column := header_cpu_column cpu (-1) header; header_done := true;
       findings := [] |}.
Proof.
  intros Hheader. unfold scan_line. rewrite Hheader.
  by destruct header.
Qed.

Lemma scan_table_rows (nic_filter : string) (cpu : Z)
    (before : list string) (header : string) (rows : list string) :
  Forall (fun line => Str.contains (CpuPrefix +:+ "0") line = false) before ->
  Str.contains (CpuPrefix +:+ "0") header = true ->
  fold_left (scan_line nic_filter cpu) (before ++ header :: rows)
    {| cpu_column := -1; header_done := false; findings := [] |}
  = {| cpu_column := header_cpu_column cpu (-1) header; header_done := true;
       findings := scan_row nic_filter (header_cpu_column cpu (-1) header)
                   <$> List.filter (fun line => negb (Str.empty line)) rows |}.
Proof.
  intros Hbefore Hheader.
  rewrite fold_left_app, (scan_before_header _ _ _ before) by done.
  cbn [fold_left]. by rewrite scan_header, scan_after_header.
Qed.

(** X14.  How the check reads the table: the lines up to the first one that
    contains [CPU0] are passed over; that line is the header and maps the
    column of the RT core; every line after it is scanned as a row
    against that column.  A table without such a line maps no column. *)
Theorem NoUnrelatedIrqs_reads_table (h : Host) (checkContext : CheckContext)
    (dataSource : IDataSource) (cpu_id : Z) (content : string) :
  cpu checkContext = Some cpu_id ->
  Read dataSource "/proc/interrupts" = Some content ->
  (forall before header rows,
     Str.getlines "010" content = before ++ header :: rows ->
     Forall (fun line => Str.contains (CpuPrefix +:+ "0") line = false) before ->
     Str.contains (CpuPrefix +:+ "0") header = true ->
     let column := header_cpu_column cpu_id (-1) header in
     Evaluate h checkContext dataSource
     = interrupts_answer column
         (concat ((fun line =>
                     offender_of (scan_row (default "" (nic checkContext)) column line))
                  <$> rows)))
  /\ (Forall (fun line => Str.contains (CpuPrefix +:+ "0") line = false)
        (Str.getlines "010" content) ->
      Evaluate h checkContext dataSource
      = answer NoUnrelatedIrqsOnRt "No unrelated IRQs on RT core" Unknown
          "could not map CPU column").
Proof.
  intros Hcpu Hread. unfold Evaluate. rewrite Hcpu, Hread. unfold scan_table.
  split.
  - intros before header rows Hlines Hbefore Hheader. cbv zeta.
    rewrite Hlines, scan_table_rows by done.
    cbn [cpu_column findings]. by rewrite offenders_of_rows.
  - intros Hnone. by rewrite scan_before_header.
Qed.

End Rows.

Lemma row_finding_witness :
  NoUnrelatedIrqsOnRtCheck.scan_row "eth0" 1
    " 41:          0          9   PCI-MSI  eth0-rx-0"
  = let count := row_count 1 (Str.extractions "          0          9   PCI-MSI  eth0-rx-0") in
    match row_label (Str.extractions "          0          9   PCI-MSI  eth0-rx-0") with
    | Some label =>
        if (0 <? count)%Z && negb (Str.contains "eth0" label)
        then NoUnrelatedIrqsOnRtCheck.Labeled ("41" +:+ " " +:+ Trim label)
        else NoUnrelatedIrqsOnRtCheck.Quiet
    | None =>
        if (0 <? count)%Z
        then NoUnrelatedIrqsOnRtCheck.Unlabeled ("41" +:+ " (unlabeled)")
        else NoUnrelatedIrqsOnRtCheck.Quiet
    end.
Proof. apply row_finding. by vm_compute. Defined.

Lemma NoUnrelatedIrqs_reads_table_witness :
  NoUnrelatedIrqsOnRtCheck.Evaluate (stock_host ∅) (core 3)
    (interrupts_of busy_usb_table)
  = answer NoUnrelatedIrqsOnRt "No unrelated IRQs on RT core" Pass "clean".
Proof.
  destruct (NoUnrelatedIrqs_reads_table (stock_host ∅) (core 3)
              (interrupts_of busy_usb_table) 3 busy_usb_table)
    as [Htable _]; [by vm_compute..|].
  rewrite (Htable [] "           CPU0       CPU1       CPU2       CPU3"
             (tail (Str.getlines "010" busy_usb_table))); by vm_compute.
Defined.
(** ** Substrings *)

Lemma substring_app_skip (a s : string) (n : nat) :
  String.substring (String.length a) n (a +:+ s) = String.substring 0 n s.
Proof. induction a as [|c a IH]; [done|]. by rewrite append_cons. Qed.

(** A text that holds [needle] somewhere. *)
Lemma contains_app (needle a b : string) :
  Str.contains needle (a +:+ needle +:+ b) = true.
Proof.
  unfold Str.contains, Str.find, Str.find_from.
  destruct (String.index 0 needle (a +:+ needle +:+ b)) eqn:Hindex; [done|].
  destruct needle as [|c needle].
  { apply index_correct4 in Hindex. lia. }
  apply (index_correct3 0 (String.length a)) in Hindex; [|done|lia].
  destruct Hindex. rewrite substring_app_skip. apply substr_prefix.
Qed.

(** ** Deep C-states *)

(** X15.  The command line is searched for the three settings as plain text:
    wherever one of them occurs, also as the beginning of a longer value
    such as [intel_idle.max_cstate=10], the check passes, and the module
    parameters are not looked at. *)
Theorem CStatesCapped_cmdline_text (h : Host) (checkContext : CheckContext)
    (dataSource : IDataSource) (before setting after : string) :
  setting ∈ ["cpuidle.off=1"; "intel_idle.max_cstate=1"; "processor.max_cstate=1"] ->
  Read dataSource "/proc/cmdline" = Some (before +:+ setting +:+ after) ->
  exists why,
    CStatesCappedCheck.Evaluate h checkContext dataSource
    = answer DeepCStatesCapped "Deep C-states capped" Pass why.
Proof.
  intros Hsetting Hread. unfold CStatesCappedCheck.Evaluate. rewrite Hread.
  repeat (apply elem_of_cons in Hsetting as [->|Hsetting]);
    [..|by apply elem_of_nil in Hsetting];
    rewrite ?contains_app, ?orb_true_r;
    repeat (destruct (Str.contains _ _); [by eexists|]); by eexists.
Qed.

Lemma CStatesCapped_cmdline_text_witness :
  exists why,
    CStatesCappedCheck.Evaluate (stock_host ∅) (core 3)
      (StubDataSource
         {[ "/proc/cmdline" := "ro " +:+ "intel_idle.max_cstate=1" +:+ "0 quiet";
            "/sys/module/intel_idle/parameters/max_cstate" := "10" ]} "")
    = answer DeepCStatesCapped "Deep C-states capped" Pass why.
Proof.
  apply (CStatesCapped_cmdline_text _ _ _ "ro " "intel_idle.max_cstate=1" "0 quiet");
    [|by vm_compute].
  apply (bool_decide_unpack _). by vm_compute.
Defined.

(** ** The answers a check can give *)

(** X16.  PreemptRTActive never answers Unknown, and the presence check never
    answers Fail. *)
Theorem statuses_never_given (h : Host) (checkContext : CheckContext)
    (dataSource : IDataSource) :
  (exists result,
     PreemptRTActiveCheck.Evaluate h checkContext dataSource = Some result
     /\ status result <> Unknown)
  /\ (exists result,
        NicPresenceCheck.Evaluate h checkContext dataSource = Some result
        /\ status result <> Fail).
Proof.
  split.
  - unfold PreemptRTActiveCheck.Evaluate, PreemptRTActiveCheck.from_uname, answer.
    repeat case_match; by eexists.
  - unfold NicPresenceCheck.Evaluate, answer. repeat case_match; by eexists.
Qed.
(** ** The list checks on well-formed lists *)

Lemma ParseCpuList_Trim (s : string) : ParseCpuList (Trim s) = ParseCpuList s.
Proof. unfold ParseCpuList. by rewrite (Trim_fixed (Trim s)) by apply Trim_ends. Qed.

(** X17.  The three checks that look the RT core up in a CPU list of sysfs, on
    a well-formed list (with the newline that ends the file): nohz_full
    and rcu_nocbs pass exactly when the list covers the core, and fail
    otherwise; so does the isolation check for a core other than CPU 0. *)
Theorem list_checks_decide_membership (h : Host) (checkContext : CheckContext)
    (dataSource : IDataSource) (cpu_id : Z) (items : list cpu_item)
    (before after : string) :
  cpu checkContext = Some cpu_id ->
  Forall cpu_item_ok items ->
  Str.all_of Str.isspace before = true ->
  Str.all_of Str.isspace after = true ->
  let text := before +:+ render_cpu_list items +:+ after in
  let decided (answer : option CheckResult) :=
    exists result, answer = Some result
      /\ (status result = Pass <-> Exists (covers cpu_id) items)
      /\ (status result = Fail <-> ~ Exists (covers cpu_id) items) in
  (Read dataSource "/sys/devices/system/cpu/nohz_full" = Some text ->
   decided (NohzFullCheck.Evaluate h checkContext dataSource))
  /\ (Read dataSource "/sys/devices/system/cpu/rcu_nocbs" = Some text ->
      decided (RcuNoCbsCheck.Evaluate h checkContext dataSource))
  /\ (cpu_id <> 0 ->
      Read dataSource "/sys/devices/system/cpu/isolated" = Some text ->
      decided (CoreIsolatedCheck.Evaluate h checkContext dataSource)).
Proof.
  intros Hcpu Hok Hbefore Hafter text decided.
  destruct (ParseCpuList_text items before after Hok Hbefore Hafter)
    as (set & Hparse & Hset).
  fold text in Hparse. specialize (Hset cpu_id).
  split_and!.
  - intros Hread. unfold NohzFullCheck.Evaluate.
    rewrite Hcpu, Hread, ParseCpuList_Trim, Hparse. cbn [mbind option_bind].
    case_bool_decide as Hin; eexists; (split; [done|]); cbn;
      rewrite <- Hset; split; intros; done.
  - intros Hread. unfold RcuNoCbsCheck.Evaluate, RcuNoCbsCheck.decide_on.
    rewrite Hcpu, Hread, ParseCpuList_Trim, Hparse. cbn [mbind option_bind].
    case_bool_decide as Hin; eexists; (split; [done|]); cbn;
      rewrite <- Hset; split; intros; done.
  - intros Hne Hread. unfold CoreIsolatedCheck.Evaluate.
    rewrite Hcpu, Hread, ParseCpuList_Trim, Hparse. cbn [mbind option_bind].
    rewrite (proj2 (Z.eqb_neq cpu_id 0)) by done.
    case_bool_decide as Hin; eexists; (split; [done|]); cbn;
      rewrite <- Hset; split; intros; done.
Qed.

Lemma list_checks_decide_membership_witness :
  let dataSource :=
    StubDataSource
      {[ "/sys/devices/system/cpu/nohz_full" := "" +:+ render_cpu_list [Range 2 3] +:+ newline;
         "/sys/devices/system/cpu/rcu_nocbs" := "" +:+ render_cpu_list [Range 2 3] +:+ newline;
         "/sys/devices/system/cpu/isolated" := "" +:+ render_cpu_list [Range 2 3] +:+ newline ]}
      "" in
  exists result,
    NohzFullCheck.Evaluate (stock_host ∅) (core 3) dataSource = Some result
    /\ (status result = Pass <-> Exists (covers 3) [Range 2 3])
    /\ (status result = Fail <-> ~ Exists (covers 3) [Range 2 3]).
Proof.
  intros dataSource.
  apply (list_checks_decide_membership (stock_host ∅) (core 3) dataSource 3
           [Range 2 3] "" newline); try done.
  repeat constructor; by vm_compute.
Defined.

(** ** The default IRQ affinity, from the command line to the answer *)

Lemma render_cpu_list_solid (items : list cpu_item) :
  Forall cpu_item_ok items ->
  Str.all_of (fun c => negb (Str.isspace c)) (render_cpu_list items) = true.
Proof.
  intros Hok. apply all_of_join; [done|]. apply Forall_fmap.
  eapply Forall_impl; [exact Hok|]. intros item Hitem. by apply render_item_text.
Qed.

Lemma cpu_item_covers_some (item : cpu_item) : exists z, covers z item.
Proof.
  destruct item as [n|first last]; [by exists n|].
  exists (first `min` last). cbn. lia.
Qed.

(** X18.  On the machine's own data source, a command line with
    [irqaffinity=<list>] as its first irqaffinity parameter, the list
    well-formed and not empty: the check fails exactly when the list covers
    the RT core and passes otherwise. *)
Theorem IrqAffinity_from_command_line (h : Host) (checkContext : CheckContext)
    (cpu_id : Z) (items : list cpu_item) (before after : string) (sp1 sp2 : ascii) :
  cpu checkContext = Some cpu_id ->
  Forall cpu_item_ok items -> items <> [] ->
  Str.isspace sp1 = true -> Str.isspace sp2 = true ->
  let cmdline :=
    before +:+ String sp1 ("irqaffinity" +:+ "=" +:+ render_cpu_list items
                           +:+ String sp2 after) in
  host_files h !! "/proc/cmdline" = Some cmdline ->
  (N.of_nat (String.length cmdline) <= MaxFileSize h)%N ->
  GetCmdLineParam (Some before) "irqaffinity" = None ->
  exists result,
    IrqAffinityDefaultAvoidsRtCheck.Evaluate h checkContext
      (SystemFileSystemDataSource h) = Some result
    /\ (status result = Fail <-> Exists (covers cpu_id) items)
    /\ (status result = Pass <-> ~ Exists (covers cpu_id) items).
Proof.
  intros Hcpu Hok Hsome Hsp1 Hsp2 cmdline Hfile Hsize Hbefore.
  unfold IrqAffinityDefaultAvoidsRtCheck.Evaluate.
  rewrite Hcpu. cbn [CmdLineParam SystemFileSystemDataSource].
  unfold ReadCmdLine, Slurp. rewrite Hfile. cbn [fmap option_fmap option_map].
  rewrite (proj2 (N.leb_le _ _) Hsize). unfold cmdline.
  rewrite GetCmdLineParam_found; [|done..|by apply render_cpu_list_solid|done|done].
  destruct (ParseCpuList_text items "" "" Hok eq_refl eq_refl) as (set & Hparse & Hset).
  rewrite append_nil, append_empty_r in Hparse. rewrite Hparse.
  cbn [mbind option_bind].
  rewrite bool_decide_eq_false_2; last first.
  { destruct items as [|item items]; [done|].
    destruct (cpu_item_covers_some item) as [z Hz].
    intros Hempty. apply (not_elem_of_empty (C:=gset Z) z).
    rewrite <- Hempty. apply Hset. by left. }
  specialize (Hset cpu_id).
  case_bool_decide as Hin; eexists; (split; [done|]); cbn;
    rewrite <- Hset; split; intros; done.
Qed.

Lemma IrqAffinity_from_command_line_witness :
  let h := stock_host
             {[ "/proc/cmdline" :=
                  "ro quiet" +:+ String " " ("irqaffinity" +:+ "=" +:+ render_cpu_list [Range 0 1]
                                             +:+ String "010" "") ]} in
  exists result,
    IrqAffinityDefaultAvoidsRtCheck.Evaluate h (core 3)
      (SystemFileSystemDataSource h) = Some result
    /\ (status result = Fail <-> Exists (covers 3) [Range 0 1])
    /\ (status result = Pass <-> ~ Exists (covers 3) [Range 0 1]).
Proof.
  intros h.
  apply (IrqAffinity_from_command_line h (core 3) 3 [Range 0 1] "ro quiet" ""
           " " "010"); try done.
  repeat constructor; by vm_compute.
Defined.
(** ** Timespec arithmetic *)

(** X19.  [AddNanoToTimespec] leaves a normalized timespec, its nanoseconds
    below one second, whose epoch is the old epoch plus [nanos] in 64-bit
    arithmetic, also when the timespec it is given is not normalized. *)
Theorem AddNanoToTimespec_normalizes (time : timespec) (nanos : Z) :
  let time' := AddNanoToTimespec time nanos in
  0 <= tv_nsec time' < NanoPerSec
  /\ 0 <= tv_sec time' <= 18446744073
  /\ ToEpoch time' = u64 (ToEpoch time + nanos).
Proof.
  cbv zeta. split; [|split; [|apply ToEpoch_AddNanoToTimespec]];
    unfold AddNanoToTimespec; cbn [tv_sec tv_nsec];
    pose proof (u64_range (ToEpoch time + nanos)) as Hrange;
    unfold NanoPerSec.
  - apply Z.mod_pos_bound. lia.
  - split; [apply Z.div_pos; lia|].
    apply Z.lt_succ_r, Z.div_lt_upper_bound; lia.
Qed.

(** X20.  Adding [a] and then [b] nanoseconds is adding their sum, in 64-bit
    arithmetic, at once. *)
Theorem AddNanoToTimespec_adds_up (time : timespec) (a b : Z) :
  AddNanoToTimespec (AddNanoToTimespec time a) b
  = AddNanoToTimespec time (u64 (a + b)).
Proof.
  unfold AddNanoToTimespec at 1 3. rewrite ToEpoch_AddNanoToTimespec.
  replace (u64 (u64 (ToEpoch time + a) + b))
    with (u64 (ToEpoch time + u64 (a + b))); [done|].
  unfold u64. rewrite Zplus_mod_idemp_l, Zplus_mod_idemp_r. f_equal. lia.
Qed.

(** ** What the sender records *)

Lemma SenderLoop_deltas (fuel : nat) (params : TestParameters) (tester : bool)
    (all : list Tick) (ending : Ending) (st' : SenderState) :
  Z.of_nat (length all) < 2 ^ 64 ->
  forall (rest done_ : list Tick) (st : SenderState),
    all = done_ ++ rest ->
    index st = Z.of_nat (length done_) ->
    (forall tick, last done_ = Some tick -> previous st = u64 (now tick)) ->
    Forall (clock_delta all) (SendData st) ->
    SenderLoop fuel params tester rest st = Some (ending, st') ->
    Forall (clock_delta all) (SendData st').
Proof.
  intros Hlen. induction rest as [|tick rest IH];
    intros done_ st Hall Hindex Hprev Hdata Hrun; cbn [SenderLoop] in Hrun.
  - destruct (_ || _); by simplify_eq.
  - destruct (running tick && _); [|by simplify_eq].
    destruct (tester && negb (sent tick)); [by simplify_eq|].
    destruct (iteration fuel params tick st) as [st1|] eqn:Hit; [|done].
    cbn in Hrun. destruct (iteration_fields _ _ _ _ _ Hit) as (Hi & Hp & Hd).
    assert (Hshort : Z.of_nat (length done_) + 1 < 2 ^ 64).
    { rewrite Hall, length_app in Hlen. cbn [length] in Hlen. lia. }
    rewrite u64_small in Hi by lia.
    apply (IH (done_ ++ [tick]) st1); [by rewrite <- app_assoc| | | |done].
    + rewrite Hi, Hindex, length_app. cbn. lia.
    + intros t. rewrite last_snoc. by intros [= <-].
    + rewrite Hd. unfold recordTime.
      destruct (Z.eqb_spec (index st) 0) as [H0|H0]; cbn [negb andb]; [done|].
      destruct (negb _); [|done].
      apply Forall_app. split; [done|]. apply Forall_singleton.
      destruct done_ as [|t0 done_ _] using rev_ind; [cbn in Hindex; lia|].
      rewrite length_app in Hindex. cbn in Hindex.
      exists (length done_), t0, tick. cbn [fst snd]. split_and!.
      * lia.
      * rewrite Hall, <- app_assoc. cbn [app]. by apply list_lookup_middle.
      * rewrite Hall. apply list_lookup_middle. rewrite length_app. cbn. lia.
      * by rewrite (Hprev t0) by apply last_snoc.
Qed.

(** X21.  Every observation the sender records under an index [i] is the time,
    in 64-bit arithmetic, between the clock readings of the passes [i - 1]
    and [i]: the reading before the first pass, which there is none of,
    never enters an observation. *)
Theorem sender_records_clock_deltas (fuel : nat) (params : TestParameters)
    (tester configured : bool) (start : timespec) (ticks : list Tick)
    (ending : Ending) (st : SenderState) :
  Z.of_nat (length ticks) < 2 ^ 64 ->
  SenderThread fuel params tester configured start ticks = Some (ending, st) ->
  Forall (clock_delta ticks) (SendData st).
Proof.
  intros Hlen. unfold SenderThread. destruct configured; [|by intros [= _ <-]].
  intros Hrun.
  by eapply (SenderLoop_deltas _ _ _ ticks _ _ Hlen ticks []), Hrun.
Qed.

Lemma sender_records_clock_deltas_witness :
  exists ending st,
    SenderThread 10 five_iterations false true boot five_wakes = Some (ending, st)
    /\ Forall (clock_delta five_wakes) (SendData st).
Proof.
  destruct (SenderThread 10 five_iterations false true boot five_wakes)
    as [[ending st]|] eqn:Hrun; [|by vm_compute in Hrun].
  exists ending, st. split; [done|].
  apply (sender_records_clock_deltas 10 five_iterations false true boot five_wakes
           ending st); [by vm_compute|done].
Defined.
(** ** The receiver thread *)

Lemma ReceiverLoop_recorded (params : TestParameters) (ticks : list RxTick)
    (st : ReceiverState) (ending : RxEnding) (st' : ReceiverState) :
  2 <= Iterations params < RunIndefinitely ->
  0 <= rx_index st <= Iterations params ->
  recorded (ReceiveData st)
  = seqZ 1 (Z.min (rx_index st - 1) (Iterations params - 2)) ->
  ReceiverLoop params ticks st = Some (ending, st') ->
  0 <= rx_index st' <= Iterations params
  /\ recorded (ReceiveData st')
     = seqZ 1 (Z.min (rx_index st' - 1) (Iterations params - 2))
  /\ (ending <> RxLoopExit -> rx_stored st' = Some false)
  /\ (ending = RxLoopExit -> rx_stored st' = rx_stored st).
Proof.
  intros HN. unfold RunIndefinitely in HN. revert st.
  induction ticks as [|tick rest IH]; intros st Hindex Hrec Hrun;
    cbn [ReceiverLoop] in Hrun.
  - destruct (_ || _); by simplify_eq.
  - destruct (rx_running tick && _) eqn:Hgo; [|by simplify_eq].
    destruct (reception tick); [|by simplify_eq..].
    apply andb_prop in Hgo as [_ Hbounded].
    rewrite (proj2 (Z.eqb_neq _ _)) in Hbounded by (unfold RunIndefinitely; lia).
    cbn in Hbounded. apply Z.ltb_lt in Hbounded.
    assert (Hnext : rx_index (rx_iteration params tick st) = rx_index st + 1).
    { cbn. apply u64_small. lia. }
    apply IH in Hrun; [done|lia|]. rewrite Hnext.
    unfold rx_iteration, recordTime. cbn [ReceiveData].
    rewrite (u64_small (_ - 1)) by lia.
    destruct (Z.eqb_spec (rx_index st) 0) as [H0|H0]; cbn [negb andb].
    + rewrite Hrec, H0. by rewrite !seqZ_nil by lia.
    + destruct (Z.eqb_spec (rx_index st) (Iterations params - 1)) as [HL|HL];
        cbn [negb].
      * rewrite Hrec. f_equal. lia.
      * rewrite recorded_AddObservation, Hrec.
        replace (Z.min (rx_index st - 1) (Iterations params - 2))
          with (rx_index st - 1) by lia.
        replace (Z.min (rx_index st + 1 - 1) (Iterations params - 2))
          with (rx_index st - 1 + 1) by lia.
        rewrite seqZ_snoc by lia. do 2 f_equal. lia.
Qed.

Lemma ReceiverLoop_breaks (params : TestParameters) (good : list RxTick)
    (bad : RxTick) (rest : list RxTick) (st : ReceiverState) :
  Iterations params < RunIndefinitely ->
  0 <= rx_index st ->
  rx_index st + Z.of_nat (length good) < Iterations params ->
  Forall (fun tick => rx_running tick = true /\ reception tick = Received) good ->
  rx_running bad = true -> reception bad = NotReceived ->
  exists st',
    ReceiverLoop params (good ++ bad :: rest) st = Some (RxBreak, st')
    /\ rx_index st' = rx_index st + Z.of_nat (length good).
Proof.
  intros HN. unfold RunIndefinitely in HN. revert st.
  induction good as [|tick good IH]; intros st Hindex Hlen Hgood Hrun Hbad;
    cbn [app ReceiverLoop length] in *.
  - rewrite Hrun, Hbad. rewrite (proj2 (Z.ltb_lt _ _)) by lia.
    rewrite orb_true_r. eexists. split; [done|]. cbn. lia.
  - apply Forall_cons in Hgood as [[Hr Hrx] Hgood]. rewrite Hr, Hrx.
    rewrite (proj2 (Z.ltb_lt _ _)) by lia. rewrite orb_true_r. cbn [andb].
    destruct (IH (rx_iteration params tick st)) as (st' & -> & Hst');
      unfold rx_iteration in *; cbn [rx_index] in *;
      rewrite ?u64_small in * by lia; try done; try lia.
    eexists. split; [done|]. lia.
Qed.

(** X22.  The receiver thread, for a finite iteration count N >= 2: whenever it
    ends, it has recorded under exactly the indices 1, 2, ... up to the one
    before its current index, N - 1 left out; whenever it ends otherwise
    than by its loop condition it has stored [false] to [testRunning]; and
    the first [Receive] that returns [false], in pass k < N, ends it at
    index k by the [break]. *)
Theorem receiver_records_and_stops (params : TestParameters) (configured : bool)
    (ticks : list RxTick) :
  2 <= Iterations params < RunIndefinitely ->
  (forall ending st,
     ReceiverThread params configured ticks = Some (ending, st) ->
     recorded (ReceiveData st)
     = seqZ 1 (Z.min (rx_index st - 1) (Iterations params - 2))
     /\ (ending <> RxLoopExit -> rx_stored st = Some false))
  /\ (forall good bad rest,
        configured = true ->
        ticks = good ++ bad :: rest ->
        Z.of_nat (length good) < Iterations params ->
        Forall (fun tick => rx_running tick = true /\ reception tick = Received)
          good ->
        rx_running bad = true -> reception bad = NotReceived ->
        exists st,
          ReceiverThread params configured ticks = Some (RxBreak, st)
          /\ rx_index st = Z.of_nat (length good)).
Proof.
  intros HN. split.
  - intros ending st. unfold ReceiverThread. destruct configured.
    + intros Hrun. apply ReceiverLoop_recorded in Hrun as (_ & Hrec & Hstored & _);
        [done|done|cbn; lia|]. cbn. by rewrite seqZ_nil by lia.
    + intros [= <- <-]. cbn. split; [|done]. by rewrite seqZ_nil by lia.
  - intros good bad rest -> -> Hlen Hgood Hrun Hbad. unfold ReceiverThread.
    destruct (ReceiverLoop_breaks params good bad rest
                {| rx_index := 0; rx_previous := 0; ReceiveData := [];
                   rx_stored := None |}) as (st & Hst & Hindex);
      cbn [rx_index]; try done; try lia.
    exists st. split; [done|]. cbn in Hindex. lia.
Qed.

Lemma receiver_records_and_stops_witness :
  exists st,
    ReceiverThread five_iterations true
      [frame_at 100; frame_at 1000120; timeout_at 2000090; frame_at 3000000]
    = Some (RxBreak, st)
    /\ rx_index st = 2
    /\ recorded (ReceiveData st) = seqZ 1 (Z.min (rx_index st - 1) 3)
    /\ rx_stored st = Some false.
Proof.
  pose proof (receiver_records_and_stops five_iterations true
                [frame_at 100; frame_at 1000120; timeout_at 2000090;
                 frame_at 3000000]) as [Hrecorded Hbreaks]; [by vm_compute|].
  destruct (Hbreaks [frame_at 100; frame_at 1000120] (timeout_at 2000090)
              [frame_at 3000000]) as (st & Hrun & Hindex);
    [done|done|by vm_compute|by repeat constructor|done|done|].
  destruct (Hrecorded RxBreak st Hrun) as [Hrec Hstored].
  exists st. split_and!; [done|done|done|by apply Hstored].
Defined.
(** ** The estimated run time *)

Lemma fill_chars_length (n : nat) (c : ascii) :
  String.length (fill_chars n c) = n.
Proof. induction n as [|n IH]; [done|]. cbn. by rewrite IH. Qed.

Lemma setw_length (width : nat) (fill : ascii) (number : Z) :
  String.length (setw width fill number)
  = (width `max` String.length (to_string number))%nat.
Proof. unfold setw. rewrite length_append, fill_chars_length. lia. Qed.

Lemma to_string_short (n : Z) :
  0 <= n < 1000 ->
  (String.length (to_string n) <= if (n <? 100)%Z then 2 else 3)%nat.
Proof.
  intros Hn.
  assert (Hall : forallb (fun n => (String.length (to_string n)
                                    <=? if (n <? 100)%Z then 2 else 3)%nat)
                   (seqZ 0 1000) = true) by (by vm_compute).
  rewrite forallb_forall in Hall.
  apply Nat.leb_le, Hall, list_elem_of_In, elem_of_seqZ. lia.
Qed.

(** X23.  The estimated run time is the product of iterations and period, in
    64-bit arithmetic, cut to whole milliseconds and written as hours,
    minutes below 60, seconds below 60 and milliseconds below 1000; for
    less than 100 hours the text is 12 characters long. *)
Theorem GetEstimatedRunTime_fields (iterations sleepNanoseconds : Z) :
  exists hours minutes seconds milliseconds,
    GetEstimatedRunTime iterations sleepNanoseconds
    = clock_text hours minutes seconds milliseconds
    /\ 0 <= hours /\ 0 <= minutes < 60 /\ 0 <= seconds < 60
    /\ 0 <= milliseconds < 1000
    /\ ((hours * 60 + minutes) * 60 + seconds) * 1000 + milliseconds
       = u64 (iterations * sleepNanoseconds) / 1000000
    /\ (hours < 100 ->
        String.length (GetEstimatedRunTime iterations sleepNanoseconds) = 12%nat).
Proof.
  unfold GetEstimatedRunTime. cbv zeta.
  set (total := u64 (iterations * sleepNanoseconds)).
  pose proof (u64_range (iterations * sleepNanoseconds)) as Htotal. fold total in Htotal.
  unfold NanoPerSec.
  set (hours := total / (60 * 60 * 1000000000)).
  set (minutes := (total / (60 * 1000000000)) mod 60).
  set (seconds := (total / 1000000000) mod 60).
  set (milliseconds := (total / 1000000) mod 1000).
  assert (Hh : 0 <= hours) by (apply Z.div_pos; lia).
  assert (Hm : 0 <= minutes < 60) by (apply Z.mod_pos_bound; lia).
  assert (Hs : 0 <= seconds < 60) by (apply Z.mod_pos_bound; lia).
  assert (Hms : 0 <= milliseconds < 1000) by (apply Z.mod_pos_bound; lia).
  exists hours, minutes, seconds, milliseconds.
  split; [done|]. split; [done|]. split; [done|]. split; [done|]. split; [done|].
  split.
  - subst hours minutes seconds milliseconds.
    set (ms := total / 1000000).
    assert (Hsec : total / 1000000000 = ms / 1000).
    { unfold ms. rewrite Z.div_div by lia. done. }
    assert (Hmin : total / (60 * 1000000000) = ms / 1000 / 60).
    { unfold ms. rewrite !Z.div_div by lia. done. }
    assert (Hhour : total / (60 * 60 * 1000000000) = ms / 1000 / 60 / 60).
    { unfold ms. rewrite !Z.div_div by lia. done. }
    rewrite Hsec, Hmin, Hhour.
    pose proof (Z.div_mod ms 1000).
    pose proof (Z.div_mod (ms / 1000) 60).
    pose proof (Z.div_mod (ms / 1000 / 60) 60).
    lia.
  - intros Hshort. rewrite !length_append, !setw_length.
    pose proof (to_string_short hours) as H1.
    pose proof (to_string_short minutes) as H2.
    pose proof (to_string_short seconds) as H3.
    pose proof (to_string_short milliseconds) as H4.
    rewrite (proj2 (Z.ltb_lt hours 100)) in H1 by lia.
    rewrite (proj2 (Z.ltb_lt minutes 100)) in H2 by lia.
    rewrite (proj2 (Z.ltb_lt seconds 100)) in H3 by lia.
    destruct (milliseconds <? 100)%Z; cbn [String.length]; lia.
Qed.

Lemma GetEstimatedRunTime_examples :
  GetEstimatedRunTime 1000 1000000 = "00:00:01.000"
  /\ GetEstimatedRunTime 3600000 1000000 = "01:00:00.000"
  /\ GetEstimatedRunTime 12345 250000 = "00:00:03.086".
Proof. by vm_compute. Qed.
(** ** Ownership of descriptors *)

Section Ownership.
Import FileDescriptor.

Lemma Release_well_owned (this : nat) (s : Descriptors) :
  well_owned s -> well_owned (Release this s).2.
Proof.
  intros (Hone & Hclosed & Hnodup). unfold Release. cbn [snd objects closed].
  split_and!; [|intros fd Hfd; destruct (Hclosed fd Hfd) as [Hpos Hnot]; split|done].
  - intros i j fd Hi Hj Hfd.
    apply list_lookup_insert_Some in Hi as [(-> & <- & _)|[_ Hi]]; [lia|].
    apply list_lookup_insert_Some in Hj as [(-> & <- & _)|[_ Hj]]; [lia|].
    by apply (Hone i j fd).
  - done.
  - intros [i Hi]%list_elem_of_lookup.
    apply list_lookup_insert_Some in Hi as [(-> & <- & _)|[_ Hi]]; [lia|].
    apply Hnot. by apply list_elem_of_lookup_2 in Hi.
Qed.

Lemma Reset_well_owned (this : nat) (newFd : Z) (s : Descriptors) :
  well_owned s ->
  objects s !! this = Some newFd \/ fresh newFd s ->
  well_owned (Reset this newFd s).2.
Proof.
  intros (Hone & Hclosed & Hnodup) Hallowed. unfold Reset, Get.
  cbn [snd objects closed].
  destruct (objects s !! this) as [fd|] eqn:Hthis; cbn [default from_option id];
    last first.
  { rewrite list_insert_ge by (by apply lookup_ge_None).
    rewrite andb_false_r. unfold well_owned. cbn [objects closed]. by split_and!. }
  destruct (Z.eqb_spec newFd fd) as [->|Hne]; cbn [negb andb].
  { rewrite list_insert_id by done. unfold well_owned. cbn [objects closed].
    by split_and!. }
  destruct Hallowed as [[= ->]|Hfresh]; [done|].
  assert (Hothers : forall i x, <[this := newFd]> (objects s) !! i = Some x ->
            (i = this /\ x = newFd) \/ (i <> this /\ objects s !! i = Some x)).
  { intros i x Hi.
    apply list_lookup_insert_Some in Hi as [(-> & <- & _)|[? Hi]]; [by left|].
    right. by split. }
  assert (Hnew : forall i, 0 <= newFd -> objects s !! i <> Some newFd).
  { intros i Hpos Hi. destruct Hfresh as [|[Hnot _]]; [lia|].
    apply Hnot. by apply list_elem_of_lookup_2 in Hi. }
  assert (Hheld : forall x, x ∈ closed s ->
            0 <= x /\ x ∉ <[this := newFd]> (objects s)).
  { intros x Hx. destruct (Hclosed x Hx) as [Hpos Hnot]. split; [done|].
    intros [i Hi]%list_elem_of_lookup.
    apply Hothers in Hi as [[_ ->]|[_ Hi]].
    - destruct Hfresh as [|[_ Hnot']]; [lia|done].
    - apply Hnot. by apply list_elem_of_lookup_2 in Hi. }
  split_and!.
  - intros i j x Hi Hj Hpos.
    apply Hothers in Hi as [[-> ->]|[Hi' Hi]];
      apply Hothers in Hj as [[-> Hx]|[Hj' Hj]]; try done.
    + by destruct (Hnew j Hpos).
    + subst x. by destruct (Hnew i Hpos).
    + by apply (Hone i j x).
  - destruct (Z.leb_spec 0 fd) as [Hpos|Hneg]; [|done].
    intros x [->|Hx]%elem_of_cons; [|by apply Hheld].
    split; [done|]. intros [i Hi]%list_elem_of_lookup.
    apply Hothers in Hi as [[_ ->]|[Hi' Hi]]; [done|].
    destruct Hi'. by apply (Hone i this fd).
  - destruct (Z.leb_spec 0 fd) as [Hpos|Hneg]; [|done].
    apply NoDup_cons. split; [|done]. intros Hfd.
    destruct (Hclosed fd Hfd) as [_ Hnot]. apply Hnot.
    by apply list_elem_of_lookup_2 in Hthis.
Qed.

Lemma Construct_well_owned (fd : Z) (s : Descriptors) :
  well_owned s -> fresh fd s -> well_owned (Construct fd s).
Proof.
  intros (Hone & Hclosed & Hnodup) Hfresh. unfold Construct.
  assert (Hlookup : forall i x, (objects s ++ [fd]) !! i = Some x ->
            objects s !! i = Some x \/ (i = length (objects s) /\ x = fd)).
  { intros i x Hi. apply lookup_app_Some in Hi as [?|[? Hi]]; [by left|right].
    apply list_lookup_singleton_Some in Hi as [? ?]. split; [lia|done]. }
  assert (Hnew : forall i, 0 <= fd -> objects s !! i <> Some fd).
  { intros i Hpos Hi. destruct Hfresh as [|[Hnot _]]; [lia|].
    apply Hnot. by apply list_elem_of_lookup_2 in Hi. }
  split_and!; cbn [objects closed]; [| |done].
  - intros i j x Hi Hj Hpos.
    apply Hlookup in Hi as [Hi|[-> ->]]; apply Hlookup in Hj as [Hj|[-> Hx]];
      try done.
    + by apply (Hone i j x).
    + subst x. by destruct (Hnew i Hpos).
    + by destruct (Hnew j Hpos).
  - intros x Hx. destruct (Hclosed x Hx) as [Hpos Hnot]. split; [done|].
    intros [Hin| ->%list_elem_of_singleton]%elem_of_app; [done|].
    destruct Hfresh as [|[_ Hnot']]; [lia|done].
Qed.

(** What [Release] returns is the releasing object's to give. *)
Lemma Release_fresh (other : nat) (s : Descriptors) :
  well_owned s -> fresh (Release other s).1 (Release other s).2.
Proof.
  intros (Hone & Hclosed & Hnodup). unfold Release, Get, fresh.
  cbn [fst snd objects closed].
  destruct (objects s !! other) as [fd|] eqn:Hother; cbn [default from_option id];
    [|left; lia].
  destruct (Z.lt_ge_cases fd 0) as [|Hpos]; [by left|right]. split.
  - intros [i Hi]%list_elem_of_lookup.
    apply list_lookup_insert_Some in Hi as [(-> & <- & _)|[Hne Hi]]; [lia|].
    destruct Hne. by apply (Hone other i fd).
  - intros Hfd. destruct (Hclosed fd Hfd) as [_ Hnot]. apply Hnot.
    by apply list_elem_of_lookup_2 in Hother.
Qed.

Lemma call_well_owned (c : fd_call) (s : Descriptors) :
  well_owned s -> allowed c s -> well_owned (call c s).
Proof.
  intros Hs Hallowed. destruct c as [fd|this|this newFd|other|this other|this];
    cbn [call allowed] in *.
  - by apply Construct_well_owned.
  - by apply Release_well_owned.
  - by apply Reset_well_owned.
  - unfold MoveConstruct.
    pose proof (Release_fresh other s Hs) as Hfresh.
    pose proof (Release_well_owned other s Hs) as Hreleased.
    destruct (Release other s) as [fd s']. by apply Construct_well_owned.
  - unfold MoveAssign. case_bool_decide; [done|].
    pose proof (Release_fresh other s Hs) as Hfresh.
    pose proof (Release_well_owned other s Hs) as Hreleased.
    destruct (Release other s) as [fd s']. apply Reset_well_owned; [done|].
    by right.
  - unfold Destroy. apply Reset_well_owned; [done|]. right. left. lia.
Qed.

(** X24.  The wrapper never closes a descriptor twice and never leaves an object
    holding a closed descriptor, or two objects holding the same open one:
    this holds after any sequence of constructions, releases, resets,
    moves and destructions in which the descriptors the program hands in
    are its to give. *)
Theorem FileDescriptor_closes_once (calls : list fd_call) (s : Descriptors) :
  well_owned s -> all_allowed calls s -> well_owned (run calls s).
Proof.
  revert s. induction calls as [|c calls IH]; intros s Hs Hcalls; [done|].
  destruct Hcalls as [Hc Hcalls]. cbn [run]. apply IH; [|done].
  by apply call_well_owned.
Qed.

(** X25.  A move hands the descriptor over: the target holds what the source
    held, the source holds -1, and the target's former descriptor, if it
    was open, is the one descriptor that gets closed. *)
Theorem MoveAssign_hands_over (this other : nat) (s : Descriptors) (mine theirs : Z) :
  this <> other ->
  objects s !! this = Some mine -> objects s !! other = Some theirs ->
  let s' := MoveAssign this other s in
  Get this s' = theirs /\ Get other s' = -1
  /\ closed s' = if negb (theirs =? mine)%Z && (0 <=? mine)%Z
                 then mine :: closed s else closed s.
Proof.
  intros Hne Hthis Hother. unfold MoveAssign, Release, Reset, Get.
  rewrite bool_decide_eq_false_2 by done. cbn [snd objects closed].
  rewrite Hother. cbn [default from_option id].
  assert (Hne' : other <> this) by (by intros ->).
  rewrite (list_lookup_insert_ne (objects s) other this), Hthis by done.
  cbn [default from_option id]. split_and!; [| |done].
  - rewrite list_lookup_insert_eq; [done|].
    rewrite length_insert. by apply lookup_lt_Some in Hthis.
  - rewrite (list_lookup_insert_ne _ this other) by done.
    rewrite list_lookup_insert_eq; [done|]. by apply lookup_lt_Some in Hother.
Qed.

End Ownership.

Lemma FileDescriptor_closes_once_witness :
  well_owned
    (run [CallConstruct 5; CallConstruct (-1); CallMoveAssign 1 0; CallDestroy 0;
          CallDestroy 1]
       {| objects := []; closed := [] |}).
Proof.
  apply FileDescriptor_closes_once.
  - split_and!; [intros i j fd Hi; by destruct i| |constructor].
    by intros fd ?%elem_of_nil.
  - cbn [all_allowed allowed]. split_and!; [| |try done; vm_compute; lia..].
    + right. split; by intros ?%elem_of_nil.
    + left. lia.
Defined.

Lemma MoveAssign_hands_over_witness :
  let s := {| objects := [7; 5]; closed := [] |} in
  FileDescriptor.Get 0 (FileDescriptor.MoveAssign 0 1 s) = 5
  /\ FileDescriptor.Get 1 (FileDescriptor.MoveAssign 0 1 s) = -1
  /\ closed (FileDescriptor.MoveAssign 0 1 s) = [7].
Proof.
  intros s. by apply (MoveAssign_hands_over 0 1 s 7 5).
Defined.
(** ** Files given by their lines *)

Lemma getlines_lines (lines : list string) :
  Forall (fun line => Str.find_char "010" line = None) lines ->
  Str.getlines "010" (lines_text lines) = lines.
Proof.
  induction 1 as [|line lines Hline _ IH]; [done|].
  cbn [lines_text fold_right]. fold (lines_text lines).
  by rewrite getlines_app, IH.
Qed.

Lemma find_char_app_none (c : ascii) (a b : string) :
  Str.find_char c a = None -> Str.find_char c b = None ->
  Str.find_char c (a +:+ b) = None.
Proof.
  intros Ha Hb. induction a as [|x a IH]; [done|].
  rewrite find_char_cons in Ha. rewrite append_cons, find_char_cons.
  destruct (Ascii.eqb c x); [done|].
  destruct (Str.find_char c a); [done|]. by rewrite IH.
Qed.

Lemma find_char_solid (c : ascii) (s : string) :
  Str.isspace c = true ->
  Str.all_of (fun c => negb (Str.isspace c)) s = true ->
  Str.find_char c s = None.
Proof.
  intros Hc. induction s as [|x s IH]; [done|]. cbn [Str.all_of].
  intros [Hx Hs]%andb_prop. rewrite find_char_cons, IH by done.
  destruct (Ascii.eqb c x) eqn:E; [|done].
  apply Ascii.eqb_eq in E as ->. by rewrite Hc in Hx.
Qed.

(** ** Default routes *)

Lemma route_row_tokens (r : route) :
  route_ok r ->
  Str.tokens (route_row r)
  = route_iface r :: route_dest r :: Str.tokens (route_more r).
Proof.
  intros ([Hi1 Hi2] & [Hd1 Hd2] & _). unfold route_row.
  rewrite !tokens_app by done. by rewrite !tokens_solid by done.
Qed.

Lemma route_row_line (r : route) :
  route_ok r -> Str.find_char "010" (route_row r) = None.
Proof.
  intros ([_ Hi] & [_ Hd] & Hmore). unfold route_row.
  apply find_char_app_none; [by apply find_char_solid|].
  rewrite find_char_cons. cbn [Ascii.eqb Bool.eqb].
  rewrite find_char_app_none; [done|by apply find_char_solid|].
  rewrite find_char_cons. cbn [Ascii.eqb Bool.eqb]. by rewrite Hmore.
Qed.

Lemma v4_default_row (nic : string) (r : route) :
  route_ok r ->
  NicQuietCheck.v4_default_line nic (route_row r)
  = bool_decide (route_iface r = nic) && bool_decide (route_dest r = "00000000").
Proof.
  intros Hok. unfold NicQuietCheck.v4_default_line.
  rewrite route_row_tokens by done. destruct Hok as ([Hne _] & _).
  unfold route_row. by destruct (route_iface r).
Qed.

(** X26.  The IPv4 route table, a header line and then one row per route: the
    NIC has a default route exactly when some row names it as interface
    with destination [00000000]; the header line is not looked at. *)
Theorem default_route_v4_rows (dataSource : IDataSource) (nic header : string)
    (routes : list route) :
  Str.find_char "010" header = None ->
  Forall route_ok routes ->
  Read dataSource "/proc/net/route"
  = Some (lines_text (header :: (route_row <$> routes))) ->
  NicQuietCheck.default_route_v4_via_nic dataSource nic = true
  <-> Exists (fun r => route_iface r = nic /\ route_dest r = "00000000") routes.
Proof.
  intros Hheader Hroutes Hread. unfold NicQuietCheck.default_route_v4_via_nic.
  rewrite Hread, getlines_lines; last first.
  { constructor; [done|]. apply Forall_fmap.
    eapply Forall_impl; [exact Hroutes|]. intros r Hr. by apply route_row_line. }
  cbn [tail]. clear Hread. induction Hroutes as [|r routes Hr _ IH].
  - cbn. rewrite Exists_nil. split; [done|tauto].
  - cbn [fmap list_fmap existsb]. rewrite orb_true_iff, IH, Exists_cons.
    rewrite v4_default_row, andb_true_iff, !bool_decide_eq_true by done. done.
Qed.

Lemma default_route_v4_rows_witness :
  let routes :=
    [ {| route_iface := "eth0"; route_dest := "0010A8C0";
         route_more := "00000000" +:+ String "009" "0001" |};
      {| route_iface := "eth1"; route_dest := "00000000";
         route_more := "0110A8C0" +:+ String "009" "0003" |} ] in
  NicQuietCheck.default_route_v4_via_nic
    (StubDataSource
       {[ "/proc/net/route" := lines_text ("Iface Destination Gateway Flags"
                                            :: (route_row <$> routes)) ]} "")
    "eth1" = true
  <-> Exists (fun r => route_iface r = "eth1" /\ route_dest r = "00000000") routes.
Proof.
  intros routes. apply (default_route_v4_rows _ "eth1" "Iface Destination Gateway Flags");
    [done| |done].
  repeat constructor; by vm_compute.
Defined.
(** ** The operating system line *)

Lemma rev_snoc (s : string) (c : ascii) :
  Str.rev (s +:+ String c "") = String c (Str.rev s).
Proof. by rewrite rev_app. Qed.

(** A value between double quotes loses them, whatever it holds. *)
Lemma unquote_quoted (value : string) :
  (N.of_nat (String.length value) + 2 < 2 ^ 64)%N ->
  unquote (String "034" (value +:+ String "034" "")) = value.
Proof.
  intros Hsize. unfold unquote.
  rewrite rev_cons, rev_snoc, append_cons. cbn [Ascii.eqb Bool.eqb andb].
  unfold substr_count. cbn [String.length].
  rewrite Nat.sub_succ, Nat.sub_0_r, substring_skip, length_append.
  cbn [String.length].
  replace (size_t (2 ^ 64 + N.of_nat (S (String.length value + 1)) - 2))
    with (N.of_nat (String.length value)).
  - rewrite N.min_l, Nat2N.id by lia. apply substr_prefix.
  - unfold size_t.
    replace (2 ^ 64 + N.of_nat (S (String.length value + 1)) - 2)%N
      with (N.of_nat (String.length value) + 1 * 2 ^ 64)%N by lia.
    rewrite N.Div0.mod_add. symmetry. apply N.mod_small. lia.
Qed.

Lemma find_first (p : string -> bool) (before : list string) (line : string)
    (after : list string) :
  Forall (fun l => p l = false) before -> p line = true ->
  List.find p (before ++ line :: after) = Some line.
Proof.
  intros Hbefore Hline. induction Hbefore as [|l before Hl _ IH]; cbn.
  - by rewrite Hline.
  - by rewrite Hl.
Qed.

(** X27.  An os-release file with a [PRETTY_NAME] line, the name between double
    quotes: [GetOSInfo] gives the name of the first such line, without
    the quotes, whatever the other lines hold. *)
Theorem GetOSInfo_pretty_name (h : Host) (before after : list string)
    (pretty_name : string) :
  let line := "PRETTY_NAME=" +:+ String "034" (pretty_name +:+ String "034" "") in
  let content := lines_text (before ++ line :: after) in
  host_files h !! "/etc/os-release" = Some content ->
  (N.of_nat (String.length content) <= MaxFileSize h)%N ->
  (N.of_nat (String.length pretty_name) + 2 < 2 ^ 64)%N ->
  Forall (fun l => Str.find_char "010" l = None) (before ++ line :: after) ->
  Forall (fun l => Str.starts_with "PRETTY_NAME=" l = false) before ->
  GetOSInfo h = "OS: " +:+ pretty_name.
Proof.
  intros line content Hfile Hfits Hsize Hlines Hbefore. unfold GetOSInfo, Slurp.
  rewrite Hfile. cbn [fmap option_fmap option_map].
  rewrite (proj2 (N.leb_le _ _) Hfits). unfold content.
  rewrite getlines_lines by done.
  rewrite (find_first _ before line after Hbefore) by apply starts_with_app.
  unfold line. rewrite (substr_from_app "PRETTY_NAME=").
  by rewrite unquote_quoted.
Qed.

Lemma GetOSInfo_pretty_name_witness :
  let line := "PRETTY_NAME=" +:+ String "034" ("Debian GNU/Linux 12" +:+ String "034" "") in
  GetOSInfo (stock_host {[ "/etc/os-release" := lines_text (["NAME=Debian"] ++ line :: ["ID=debian"]) ]})
  = "OS: " +:+ "Debian GNU/Linux 12".
Proof.
  intros line.
  apply (GetOSInfo_pretty_name _ ["NAME=Debian"] ["ID=debian"] "Debian GNU/Linux 12");
    try done; repeat constructor; by vm_compute.
Defined.

(** Without a [PRETTY_NAME] line the name is that of the last [NAME] line
    and the version that of the last [VERSION] line; a value that is one
    double quote alone becomes empty. *)
Lemma GetOSInfo_examples :
  GetOSInfo (stock_host ∅) = "OS: unknown"
  /\ GetOSInfo (stock_host {[ "/etc/os-release" :=
                   lines_text ["NAME=Alpine"; "VERSION=3.19"; "NAME=Alpine Linux"] ]})
     = "OS: Alpine Linux 3.19"
  /\ GetOSInfo (stock_host {[ "/etc/os-release" := lines_text ["VERSION=3.19"] ]})
     = "OS: unknown"
  /\ unquote (String "034" "") = "".
Proof. by vm_compute. Qed.

(** ** The CPU model *)

Lemma take_after_colon_trimmed (s : string) :
  Trim (take_after_colon s) = take_after_colon s.
Proof.
  unfold take_after_colon. destruct (Str.find ":" s); [|done].
  apply Trim_fixed, Trim_ends.
Qed.

Lemma lscpu_value_some (key : string) (lines : list string) (value : string) :
  lscpu_value key lines = Some value -> value <> "" /\ Trim value = value.
Proof.
  induction lines as [|line lines IH]; [done|]. cbn [lscpu_value].
  destruct (Str.starts_with key line && _) eqn:Htest; [|done].
  intros [= <-]. apply andb_prop in Htest as [_ Hne]. split.
  - intros Hnil. by rewrite Hnil in Hne.
  - apply take_after_colon_trimmed.
Qed.

Lemma cpuinfo_keys_some (keys : list string) (line value : string) :
  cpuinfo_keys keys line = Some value -> value <> "" /\ Trim value = value.
Proof.
  induction keys as [|k keys IH]; [done|]. cbn [cpuinfo_keys].
  destruct (Str.starts_with k line); [|done].
  destruct (Str.find ":" line) as [pos|]; [|done].
  destruct (negb (Str.empty _)) eqn:Hne; [|done].
  intros [= <-]. split.
  - intros Hnil. by rewrite Hnil in Hne.
  - apply Trim_fixed, Trim_ends.
Qed.

Lemma cpuinfo_model_some (lines : list string) (value : string) :
  cpuinfo_model lines = Some value -> value <> "" /\ Trim value = value.
Proof.
  induction lines as [|line lines IH]; [done|]. cbn [cpuinfo_model].
  destruct (cpuinfo_keys _ line) as [v|] eqn:Hkeys; [|done].
  intros [= <-]. by apply cpuinfo_keys_some in Hkeys.
Qed.

(** X28.  The CPU model is never an empty text, unless that is what [uname]
    gives as the machine: a value taken from [lscpu] or /proc/cpuinfo is
    never empty, and when [uname] fails the model is "Unknown CPU". *)
Theorem CpuModelString_not_empty (h : Host) (sources : CpuSources) :
  uname_machine sources <> Some "" -> CpuModelString h sources <> "".
Proof.
  intros Hmachine. unfold CpuModelString.
  assert (Huname : match uname_machine sources with
                   | Some machine => machine
                   | None => "Unknown CPU"
                   end <> "").
  { destruct (uname_machine sources) as [machine|]; [|done]. by intros ->. }
  repeat match goal with
    | |- context [match lscpu_value ?k ?l with _ => _ end] =>
        let H := fresh "Hvalue" in
        destruct (lscpu_value k l) eqn:H;
        [by apply lscpu_value_some in H as [? ?]|]
    | |- context [match cpuinfo_model ?l with _ => _ end] =>
        let H := fresh "Hvalue" in
        destruct (cpuinfo_model l) eqn:H;
        [by apply cpuinfo_model_some in H as [? ?]|]
    | |- context [match lscpu_output ?s with _ => _ end] =>
        destruct (lscpu_output s)
    | |- context [if negb (Str.empty ?o) then _ else _] =>
        destruct (negb (Str.empty o))
    | |- context [match Slurp ?f ?p ?m with _ => _ end] =>
        destruct (Slurp f p m)
    end; done.
Qed.

Lemma CpuModelString_not_empty_witness :
  CpuModelString (stock_host ∅)
    {| lscpu_output := Some ("Architecture: x86_64" +:+ newline
                             +:+ "Model name:   Intel(R) Core(TM) i7" +:+ newline);
       uname_machine := Some "x86_64" |}
  <> "".
Proof. apply CpuModelString_not_empty. by vm_compute. Defined.

(** The model that [lscpu] names is preferred to its hardware and
    architecture lines, also when those come first, and to /proc/cpuinfo. *)
Lemma CpuModelString_examples :
  CpuModelString (stock_host {[ "/proc/cpuinfo" := "model name : from cpuinfo" ]})
    {| lscpu_output := Some (lines_text [ "Architecture: x86_64";
                                          "Model name:   Intel(R) Core(TM) i7" ]);
       uname_machine := Some "x86_64" |}
  = "Intel(R) Core(TM) i7"
  /\ CpuModelString (stock_host {[ "/proc/cpuinfo" := "model name : from cpuinfo" ]})
       {| lscpu_output := Some ""; uname_machine := Some "x86_64" |}
     = "from cpuinfo"
  /\ CpuModelString (stock_host ∅) {| lscpu_output := None; uname_machine := None |}
     = "Unknown CPU".
Proof. by vm_compute. Qed.

Lemma take_after_colon_blank (blank : string) :
  Str.all_of Str.isspace blank = true ->
  take_after_colon ("Model name:" +:+ blank) = "".
Proof.
  intros Hblank. unfold take_after_colon.
  change ("Model name:" +:+ blank) with ("Model name" +:+ String ":" blank).
  change (Str.find ":") with (Str.find_char ":").
  rewrite find_char_app by done. rewrite substr_from_suffix.
  by apply Trim_blank.
Qed.

(** The loop for [Model name:] passes over the lines that name no model. *)
Lemma lscpu_value_skips (before : list string) (line : string)
    (after : list string) :
  Forall names_no_model before ->
  Str.starts_with "Model name:" line = true -> take_after_colon line <> "" ->
  lscpu_value "Model name:" (before ++ line :: after)
  = Some (take_after_colon line).
Proof.
  intros Hbefore Hline Hvalue. induction Hbefore as [|l before Hl _ IH].
  - cbn. rewrite Hline. by destruct (take_after_colon line).
  - cbn [app lscpu_value]. destruct Hl as [->|(blank & -> & Hblank)]; [done|].
    by rewrite (take_after_colon_blank _ Hblank), andb_false_r.
Qed.

Lemma Trim_after_spaces (pad s : string) :
  Str.all_of Str.isspace pad = true -> Trim (pad +:+ s) = Trim s.
Proof. intros Hpad. unfold Trim. by rewrite ltrim_spaces. Qed.

(** X29.  The model named by the first line of the output of [lscpu] that
    begins with [Model name:] and has a model after the colon is the CPU
    model, whatever the other lines of the output (earlier [Model name:]
    lines without a model among them), the file /proc/cpuinfo and [uname]
    say. *)
Theorem CpuModelString_prefers_model_name (h : Host) (sources : CpuSources)
    (before after : list string) (pad model : string) :
  let line := "Model name" +:+ String ":" (pad +:+ model) in
  lscpu_output sources = Some (lines_text (before ++ line :: after)) ->
  Forall (fun l => Str.find_char "010" l = None) (before ++ line :: after) ->
  Forall names_no_model before ->
  Str.all_of Str.isspace pad = true ->
  model <> "" -> Trim model = model ->
  CpuModelString h sources = model.
Proof.
  intros line Houtput Hlines Hbefore Hpad Hmodel Htrim. unfold CpuModelString.
  rewrite Houtput, getlines_lines by done.
  assert (Hvalue : take_after_colon line = model).
  { unfold take_after_colon, line.
    change (Str.find ":") with (Str.find_char ":").
    rewrite find_char_app by done. rewrite substr_from_suffix.
    by rewrite Trim_after_spaces. }
  rewrite (lscpu_value_skips before line after Hbefore), Hvalue;
    [|exact (starts_with_app "Model name:" (pad +:+ model))|by rewrite Hvalue].
  destruct before as [|l before]; cbn [app lines_text fold_right].
  - unfold line. by rewrite append_cons.
  - destruct l; [done|]. by rewrite append_cons.
Qed.

Lemma CpuModelString_prefers_model_name_witness :
  CpuModelString (stock_host {[ "/proc/cpuinfo" := "model name : from cpuinfo" ]})
    {| lscpu_output :=
         Some (lines_text (["Architecture: x86_64"; "Model name:  "]
                           ++ ("Model name" +:+ String ":" ("   " +:+ "Intel(R) Core(TM) i7"))
                              :: ["Model name: another"; "Hardware: none"]));
       uname_machine := Some "x86_64" |}
  = "Intel(R) Core(TM) i7".
Proof.
  apply (CpuModelString_prefers_model_name _ _
           ["Architecture: x86_64"; "Model name:  "]
           ["Model name: another"; "Hardware: none"] "   " "Intel(R) Core(TM) i7");
    try done.
  - repeat (apply Forall_cons; split; [by vm_compute|]). constructor.
  - apply Forall_cons. split; [by left|].
    apply Forall_cons. split; [|constructor]. right. by exists "  ".
Defined.
